(** * Projet-Agricole: the data manager of [src/data_manager.py]

    A shallow embedding of [AgriculturalDataManager] and of the small part
    of pandas / statsmodels it calls, followed by the properties of the
    weather aggregator, the feature merger, the gap filler, the risk scorer
    and the pattern analyzer.

    Conventions of the embedding.
    - A float64 is idealised as a rational number ([Q]); NaN, NaT and None
      are the single cell [Null].  Square root, which has no rational
      model, is a parameter of the risk scorer's section.  Rounding is
      left out of the tables; the composite score, whose order properties
      depend on it, is given a second time with the rounding of every
      operation as a parameter, which [round_float64] instantiates.
    - A [Timestamp] is its number of nanoseconds since the epoch ([Z]).
    - A [DataFrame] is row oriented: an index label and an association
      list (column name, cell) per row, next to the list of column names
      (which an empty frame still has).
    - A Python exception is the [Raise] branch of [result]; methods that
      mutate [self] or print run in the state monad [M].

    The callers of the data manager come after it: the class
    [AgriculturalMap] of [src/map_visualization.py], and of
    [src/dashboard.py] the statements that drive the data manager and
    the map.  What they call in folium, branca and Bokeh is a parameter
    of their section, and a layer is the record of the arguments it was
    built with. *)

From Stdlib Require Import List String Ascii Bool Arith PeanoNat ZArith QArith.
From Stdlib Require Import Qround Qpower.
From Stdlib Require Import DecimalString.
From Stdlib Require Import Lia Lqa Permutation.
Import ListNotations.

Local Open Scope string_scope.
Local Open Scope list_scope.

(** ** Exceptions *)

Inductive Error : Type :=
| KeyError (msg : string)
| ValueError (msg : string)
| TypeError (msg : string).

Inductive result (A : Type) : Type :=
| Ok (a : A)
| Raise (e : Error).

Arguments Ok {A} a.
Arguments Raise {A} e.

Definition rbind {A B : Type} (r : result A) (k : A -> result B) : result B :=
  match r with
  | Ok a => k a
  | Raise e => Raise e
  end.

Notation "'let?' x ':=' r 'in' k" := (rbind r (fun x => k))
  (at level 10, x name, r at level 100, k at level 200).

Definition is_ok {A : Type} (r : result A) : bool :=
  match r with Ok _ => true | Raise _ => false end.

Fixpoint mapM {A B : Type} (f : A -> result B) (l : list A) : result (list B) :=
  match l with
  | [] => Ok []
  | x :: t => let? y := f x in let? ys := mapM f t in Ok (y :: ys)
  end.

(** ** Cells *)

Inductive Cell : Type :=
| Null
| Num (q : Q)
| Str (s : string)
| Time (ns : Z).

Definition isnull (c : Cell) : bool :=
  match c with Null => true | _ => false end.

Definition notnull (c : Cell) : bool := negb (isnull c).

(** [==] on values: NaN is equal to nothing, itself included. *)
Definition cell_eqb (a b : Cell) : bool :=
  match a, b with
  | Num p, Num q => Qeq_bool p q
  | Str s, Str t => String.eqb s t
  | Time x, Time y => Z.eqb x y
  | _, _ => false
  end.

(** Equality of join keys and of hashed values ([merge], [unique],
    [groupby]): as [==], except that two nulls are the same key. *)
Definition key_eqb (a b : Cell) : bool :=
  match a, b with
  | Null, Null => true
  | _, _ => cell_eqb a b
  end.

(** The order used to sort labels: nulls last, then by value inside a
    kind (numbers, strings, timestamps). *)
Definition kind_rank (c : Cell) : nat :=
  match c with Num _ => 0 | Str _ => 1 | Time _ => 2 | Null => 3 end.

Definition cell_leb (a b : Cell) : bool :=
  match a, b with
  | Num p, Num q => Qle_bool p q
  | Str s, Str t => String.leb s t
  | Time x, Time y => Z.leb x y
  | _, _ => Nat.leb (kind_rank a) (kind_rank b)
  end.

(** ** Rows and frames *)

Definition Row : Type := list (string * Cell).

Fixpoint lookup (c : string) (r : Row) : option Cell :=
  match r with
  | [] => None
  | (k, v) :: t => if String.eqb c k then Some v else lookup c t
  end.

(** [row[c]] for a column known to exist. *)
Definition get (c : string) (r : Row) : Cell :=
  match lookup c r with Some v => v | None => Null end.

(** [row[c] = v]: the value of an existing key is replaced, a new key is
    added at the end. *)
Fixpoint set (c : string) (v : Cell) (r : Row) : Row :=
  match r with
  | [] => [(c, v)]
  | (k, w) :: t => if String.eqb c k then (k, v) :: t else (k, w) :: set c v t
  end.

Definition mem (c : string) (l : list string) : bool :=
  existsb (String.eqb c) l.

Definition remove_keys (ks : list string) (r : Row) : Row :=
  filter (fun kv => negb (mem (fst kv) ks)) r.

Definition remove_names (ks : list string) (l : list string) : list string :=
  filter (fun k => negb (mem k ks)) l.

Record DataFrame : Type := mkDataFrame {
  index_name : option string;
  columns : list string;
  rows : list (Cell * Row)
}.

Definition nrows (df : DataFrame) : nat := List.length (rows df).

Definition index (df : DataFrame) : list Cell := map fst (rows df).

Definition column (c : string) (df : DataFrame) : list Cell :=
  map (fun r => get c (snd r)) (rows df).

Definition has_column (c : string) (df : DataFrame) : bool :=
  mem c (columns df).

(** Every row carries exactly the frame's columns. *)
Definition well_formed (df : DataFrame) : Prop :=
  Forall (fun r => map fst (snd r) = columns df) (rows df).

(** The default [RangeIndex] 0, 1, 2, ... *)
Definition range_label (i : nat) : Cell := Num (inject_Z (Z.of_nat i)).

Definition with_range_index (rs : list Row) : list (Cell * Row) :=
  combine (map range_label (seq 0 (List.length rs))) rs.

(** [df.set_index(c)]: the column becomes the index and leaves the
    columns; a missing column is a KeyError. *)
Definition set_index (c : string) (df : DataFrame) : result DataFrame :=
  if has_column c df then
    Ok {| index_name := Some c;
          columns := remove_names [c] (columns df);
          rows := map (fun r => (get c (snd r), remove_keys [c] (snd r))) (rows df) |}
  else Raise (KeyError ("None of ['" ++ c ++ "'] are in the columns")).

(** [df.set_index(labels)] with the index of another frame: the lengths
    must agree. *)
Definition set_index_labels (name : option string) (labels : list Cell)
    (df : DataFrame) : result DataFrame :=
  if Nat.eqb (List.length labels) (nrows df) then
    Ok {| index_name := name;
          columns := columns df;
          rows := combine labels (map snd (rows df)) |}
  else Raise (ValueError "Length mismatch").

(** [df.reset_index()]: the index comes back as the first column. *)
Definition reset_index (df : DataFrame) : DataFrame :=
  let name := match index_name df with Some n => n | None => "index" end in
  {| index_name := None;
     columns := name :: columns df;
     rows := with_range_index (map (fun r => (name, fst r) :: snd r) (rows df)) |}.

(** [df.drop(columns=ks)]. *)
Definition drop_columns (ks : list string) (df : DataFrame) : result DataFrame :=
  match find (fun k => negb (has_column k df)) ks with
  | Some k => Raise (KeyError ("['" ++ k ++ "'] not found in axis"))
  | None =>
      Ok {| index_name := index_name df;
            columns := remove_names ks (columns df);
            rows := map (fun r => (fst r, remove_keys ks (snd r))) (rows df) |}
  end.

(** [df[c] = df[c].fillna(v)]. *)
Definition fillna_cell (v : Cell) (c : Cell) : Cell :=
  match c with Null => v | _ => c end.

Definition fillna_column (c : string) (v : Cell) (df : DataFrame) : result DataFrame :=
  if has_column c df then
    Ok {| index_name := index_name df;
          columns := columns df;
          rows := map (fun r => (fst r, set c (fillna_cell v (get c (snd r))) (snd r)))
                      (rows df) |}
  else Raise (KeyError c).

(** [df.sort_index()]: insertion sort on the labels, stable, nulls last.
    (pandas returns the frame as it is when the index is already
    monotonic, which a stable sort does too.) *)
Fixpoint insert_row (r : Cell * Row) (l : list (Cell * Row)) : list (Cell * Row) :=
  match l with
  | [] => [r]
  | h :: t => if cell_leb (fst r) (fst h) then r :: h :: t else h :: insert_row r t
  end.

Definition sort_rows (l : list (Cell * Row)) : list (Cell * Row) :=
  fold_right insert_row [] l.

Definition sort_index (df : DataFrame) : DataFrame :=
  {| index_name := index_name df; columns := columns df; rows := sort_rows (rows df) |}.

(** ** Reductions of a column *)

Local Open Scope Z_scope.

Definition dropna (l : list Cell) : list Cell := filter notnull l.

Definition as_num (c : Cell) : option Q :=
  match c with Num q => Some q | _ => None end.

Definition as_time (c : Cell) : option Z :=
  match c with Time t => Some t | _ => None end.

Fixpoint all_some {A B : Type} (f : A -> option B) (l : list A) : option (list B) :=
  match l with
  | [] => Some []
  | x :: t =>
      match f x, all_some f t with
      | Some y, Some ys => Some (y :: ys)
      | _, _ => None
      end
  end.

Definition Qsum (l : list Q) : Q := fold_right Qplus (0 # 1)%Q l.

Definition Zsum (l : list Z) : Z := fold_right Z.add 0 l.

Definition Qlen {A : Type} (l : list A) : Q := inject_Z (Z.of_nat (List.length l)).

(** Arithmetic mean of the values present; NaN when there is none. *)
Definition mean_q (l : list Q) : Cell :=
  match l with
  | [] => Null
  | _ => Num (Qsum l / Qlen l)%Q
  end.

(** Mean of timestamps: the mean of the nanosecond counts, cut to an
    integer number of nanoseconds (the rounding of the float64 sum is
    not modelled). *)
Definition mean_time (l : list Z) : Cell :=
  match l with
  | [] => Null
  | _ => Time (Z.quot (Zsum l) (Z.of_nat (List.length l)))
  end.

(** [Series.mean()] with [skipna=True]: a float column gives a float, a
    datetime column a Timestamp, anything else is a TypeError. *)
Definition column_mean (cells : list Cell) : result Cell :=
  let present := dropna cells in
  match all_some as_num present with
  | Some qs => Ok (mean_q qs)
  | None =>
      match all_some as_time present with
      | Some ts => Ok (mean_time ts)
      | None => Raise (TypeError "Could not convert to numeric")
      end
  end.

(** [df.mean()]: one value per column, as a Series keyed by the columns. *)
Definition frame_mean (cols : list string) (rs : list (Cell * Row)) : result Row :=
  mapM (fun c => let? v := column_mean (map (fun r => get c (snd r)) rs) in Ok (c, v)) cols.

(** [pd.to_datetime(x, format=...)] on a scalar that already is a
    Timestamp (or NaT) returns it as it is: the format only drives the
    parsing of strings.  Other scalars do not occur for a parsed date
    column and are rejected. *)
Definition to_datetime (x : Cell) : result Cell :=
  match x with
  | Time t => Ok (Time t)
  | Null => Ok Null
  | _ => Raise (ValueError "to_datetime: not a timestamp")
  end.

(** [series[c]] on a Series. *)
Definition series_get (c : string) (s : Row) : result Cell :=
  match lookup c s with
  | Some v => Ok v
  | None => Raise (KeyError c)
  end.

(** [pd.DataFrame(list_of_series)]: one row per Series, a RangeIndex, the
    columns of the Series; no column at all for an empty list. *)
Definition frame_of_series (l : list Row) : DataFrame :=
  {| index_name := None;
     columns := match l with [] => [] | s :: _ => map fst s end;
     rows := with_range_index l |}.

(** ** The manager *)

Record Manager : Type := mkManager {
  monitoring_data : DataFrame;
  weather_data : DataFrame;
  soil_data : DataFrame;
  yield_history : DataFrame
}.

Definition chunk_size : nat := 24.

(** The body of [for i in range(0, len(weather), chunk_size)]:
    [iloc[i:i + chunk_size, :].mean()], then the date of the mean passed
    through [to_datetime]. *)
Definition aggregate_chunk (weather : DataFrame) (i : nat) : result Row :=
  let chunk := firstn chunk_size (skipn i (rows weather)) in
  let? chunk_mean := frame_mean (columns weather) chunk in
  let? d := series_get "date" chunk_mean in
  let? d' := to_datetime d in
  Ok (set "date" d' chunk_mean).

(** [range(0, n, chunk_size)]: at most [n] values, so [n] is enough fuel. *)
Fixpoint range_step (fuel : nat) (i n : nat) : list nat :=
  match fuel with
  | O => []
  | S fuel' => if Nat.ltb i n then i :: range_step fuel' (i + chunk_size)%nat n else []
  end.

Definition chunk_starts (n : nat) : list nat := range_step n 0 n.

Definition aggregate_weather (weather : DataFrame) : result DataFrame :=
  let? result_list := mapM (aggregate_chunk weather) (chunk_starts (nrows weather)) in
  Ok (frame_of_series result_list).

(** [load_data], from the four tables [read_csv] returns. *)
Definition load_data (monitoring weather soil yields : DataFrame) : result Manager :=
  let? yields' := fillna_column "rendement_final" (Num (0 # 1)) yields in
  let? weather' := aggregate_weather weather in
  Ok {| monitoring_data := monitoring;
        weather_data := weather';
        soil_data := soil;
        yield_history := yields' |}.

(** ** Calendar *)

Definition ns_per_second : Z := 1000000000.
Definition ns_per_day : Z := 86400 * ns_per_second.

(** Days since 1970-01-01 of a civil date. *)
Definition days_from_civil (y m d : Z) : Z :=
  let y' := if m <=? 2 then y - 1 else y in
  let era := y' / 400 in
  let yoe := y' - era * 400 in
  let mp := (m + 9) mod 12 in
  let doy := (153 * mp + 2) / 5 + d - 1 in
  let doe := yoe * 365 + yoe / 4 - yoe / 100 + doy in
  era * 146097 + doe - 719468.

Definition timestamp (y m d hh mm ss : Z) : Z :=
  (days_from_civil y m d * 86400 + hh * 3600 + mm * 60 + ss) * ns_per_second.

Definition date (y m d : Z) : Z := timestamp y m d 0 0 0.

(** The time of day of a timestamp; a date "at midnight" has none. *)
Definition time_of_day (t : Z) : Z := t mod ns_per_day.

Definition at_midnight (c : Cell) : bool :=
  match c with
  | Time t => time_of_day t =? 0
  | _ => false
  end.

(** [Timestamp.normalize()]: the date at midnight. *)
Definition normalize (t : Z) : Z := t - time_of_day t.

(** The civil date (year, month, day) of a number of days since
    1970-01-01. *)
Definition civil_from_days (z : Z) : Z * Z * Z :=
  let z' := z + 719468 in
  let era := z' / 146097 in
  let doe := z' - era * 146097 in
  let yoe := (doe - doe / 1460 + doe / 36524 - doe / 146096) / 365 in
  let doy := doe - (365 * yoe + yoe / 4 - yoe / 100) in
  let mp := (5 * doy + 2) / 153 in
  let d := doy - (153 * mp + 2) / 5 + 1 in
  let m := if mp <? 10 then mp + 3 else mp - 9 in
  let y := yoe + era * 400 in
  (if m <=? 2 then y + 1 else y, m, d).

Definition digit (z : Z) : string :=
  String (ascii_of_nat (48 + Z.to_nat (z mod 10))) EmptyString.

Fixpoint padded (width : nat) (z : Z) : string :=
  match width with
  | O => ""
  | S w => padded w (z / 10) ++ digit z
  end.

(** [repr] of a Timestamp, as the report of the consistency check prints
    it: the fraction of a second shows only when there is one, with six
    or nine digits. *)
Definition repr_timestamp (c : option Z) : string :=
  match c with
  | None => "NaT"
  | Some t =>
      let '(y, m, d) := civil_from_days (t / ns_per_day) in
      let tod := time_of_day t in
      let s := tod / ns_per_second in
      let frac := tod mod ns_per_second in
      "Timestamp('" ++ padded 4 y ++ "-" ++ padded 2 m ++ "-" ++ padded 2 d ++ " "
        ++ padded 2 (s / 3600) ++ ":" ++ padded 2 (s / 60 mod 60) ++ ":" ++ padded 2 (s mod 60)
        ++ (if frac mod 1000 =? 0
            then if frac =? 0 then "" else "." ++ padded 6 (frac / 1000)
            else "." ++ padded 9 frac)
        ++ "')"
  end.

Definition repr_range (r : option Z * option Z) : string :=
  "(" ++ repr_timestamp (fst r) ++ ", " ++ repr_timestamp (snd r) ++ ")".

(** ** Methods that mutate [self] or print *)

Record State : Type := mkState {
  self : Manager;
  stdout : list string
}.

Definition M (A : Type) : Type := State -> State * result A.

Definition ret {A : Type} (a : A) : M A := fun s => (s, Ok a).

Definition bind {A B : Type} (m : M A) (k : A -> M B) : M B :=
  fun s =>
    match m s with
    | (s', Ok a) => k a s'
    | (s', Raise e) => (s', Raise e)
    end.

Notation "x <- c ;; k" := (bind c (fun x => k))
  (at level 61, c at next level, right associativity).
Notation "c ;;; k" := (bind c (fun _ => k))
  (at level 61, right associativity).

Definition lift {A : Type} (r : result A) : M A := fun s => (s, r).

Definition read : M Manager := fun s => (s, Ok (self s)).

Definition print (text : string) : M unit :=
  fun s => ({| self := self s; stdout := stdout s ++ [text] |}, Ok tt).

Definition assign_monitoring_data (df : DataFrame) : M unit :=
  fun s =>
    ({| self := {| monitoring_data := df;
                   weather_data := weather_data (self s);
                   soil_data := soil_data (self s);
                   yield_history := yield_history (self s) |};
        stdout := stdout s |}, Ok tt).

Definition assign_weather_data (df : DataFrame) : M unit :=
  fun s =>
    ({| self := {| monitoring_data := monitoring_data (self s);
                   weather_data := df;
                   soil_data := soil_data (self s);
                   yield_history := yield_history (self s) |};
        stdout := stdout s |}, Ok tt).

Definition assign_yield_history (df : DataFrame) : M unit :=
  fun s =>
    ({| self := {| monitoring_data := monitoring_data (self s);
                   weather_data := weather_data (self s);
                   soil_data := soil_data (self s);
                   yield_history := df |};
        stdout := stdout s |}, Ok tt).

(** [_setup_temporal_indices]: three [set_index('date', inplace=True)] in
    a row, each one replacing the table it is called on. *)
Definition _setup_temporal_indices : M unit :=
  m <- read ;;
  monitoring <- lift (set_index "date" (monitoring_data m)) ;;
  assign_monitoring_data monitoring ;;;
  weather <- lift (set_index "date" (weather_data m)) ;;
  assign_weather_data weather ;;;
  yields <- lift (set_index "date" (yield_history m)) ;;
  assign_yield_history yields.

(** [(index.min(), index.max())] of a datetime index: NaT labels are
    skipped, and an index without any timestamp has NaT for both.  The
    model covers datetime indices; any other label is a TypeError.  An
    index without labels is taken for an empty datetime index.  (The one
    [read_csv] leaves of a file without rows has dtype object, its
    [min()] is the float nan, and lines 79 and 83 raise a TypeError on
    it: the properties that state a return ask for a date in each
    index.) *)
Definition label_time (c : Cell) : result (option Z) :=
  match c with
  | Time t => Ok (Some t)
  | Null => Ok None
  | _ => Raise (TypeError "not a datetime index")
  end.

Fixpoint present {A : Type} (l : list (option A)) : list A :=
  match l with
  | [] => []
  | Some x :: t => x :: present t
  | None :: t => present t
  end.

Definition Zmin_list (l : list Z) : option Z :=
  match l with
  | [] => None
  | x :: t => Some (fold_left Z.min t x)
  end.

Definition Zmax_list (l : list Z) : option Z :=
  match l with
  | [] => None
  | x :: t => Some (fold_left Z.max t x)
  end.

Definition index_range (df : DataFrame) : result (option Z * option Z) :=
  let? labels := mapM label_time (index df) in
  Ok (Zmin_list (present labels), Zmax_list (present labels)).

(** [(a - b).days]: the floor of the difference in days; nan with NaT. *)
Definition days_between (a b : option Z) : option Z :=
  match a, b with
  | Some x, Some y => Some ((x - y) / ns_per_day)
  | _, _ => None
  end.

(** [abs(d) <= tolerance.days]; a comparison with nan is false. *)
Definition within_days (tolerance : Z) (d : option Z) : bool :=
  match d with
  | Some z => Z.abs z <=? tolerance
  | None => false
  end.

(** [a >= b] and [a <= b] on timestamps; false with NaT. *)
Definition ts_geb (a b : option Z) : bool :=
  match a, b with
  | Some x, Some y => y <=? x
  | _, _ => false
  end.

Definition ts_leb (a b : option Z) : bool :=
  match a, b with
  | Some x, Some y => x <=? y
  | _, _ => false
  end.

(** [pd.date_range(start, end)]: one timestamp a day from [start] up to
    [end]; NaT for either bound is a ValueError. *)
Definition date_range (start stop : option Z) : result (list Z) :=
  match start, stop with
  | Some s, Some e =>
      Ok (if s <=? e
          then map (fun k => s + Z.of_nat k * ns_per_day)
                   (seq 0 (S (Z.to_nat ((e - s) / ns_per_day))))
          else [])
  | _, _ => Raise (ValueError "Neither `start` nor `end` can be NaT")
  end.

(** [index.equals(expected)]. *)
Fixpoint index_equals (labels : list Cell) (expected : list Z) : bool :=
  match labels, expected with
  | [], [] => true
  | Time t :: ls, e :: es => (t =? e) && index_equals ls es
  | _, _ => false
  end.

Definition newline : string := String (ascii_of_nat 10) EmptyString.

Definition join_lines (l : list string) : string := String.concat newline l.

Definition tolerance_days : Z := 1.

(** The lines of the report, from the three ranges and the three
    verdicts. *)
Definition report_lines (monitoring_range weather_range yield_range : option Z * option Z)
    (monitoring_weather_consistent yield_consistent missing_dates : bool) : list string :=
  [ "===== Vérification de la cohérence temporelle =====";
    ("Période de monitoring : " ++ repr_range monitoring_range)%string;
    ("Période météo         : " ++ repr_range weather_range)%string;
    ("Période des rendements: " ++ repr_range yield_range)%string;
    "";
    "1. Cohérence entre monitoring et météo:";
    if monitoring_weather_consistent then "   → OK" else "   → Incohérence détectée";
    "";
    "2. Cohérence entre rendements et monitoring:";
    if yield_consistent then "   → OK"
    else "   → Incohérence détectée : La période des rendements dépasse celle du monitoring";
    "";
    "3. Vérification des dates manquantes dans le monitoring:";
    if negb missing_dates then "   → OK"
    else "   → Des dates manquent dans le jeu de données de monitoring";
    "";
    "===== Fin de la vérification =====" ].

Definition _verify_temporal_consistency : M unit :=
  m <- read ;;
  monitoring_range <- lift (index_range (monitoring_data m)) ;;
  weather_range <- lift (index_range (weather_data m)) ;;
  yield_range <- lift (index_range (yield_history m)) ;;
  let monitoring_weather_consistent :=
    within_days tolerance_days (days_between (fst monitoring_range) (fst weather_range))
    && within_days tolerance_days (days_between (snd monitoring_range) (snd weather_range)) in
  let yield_consistent :=
    ts_geb (fst yield_range) (fst monitoring_range)
    && ts_leb (snd yield_range) (snd monitoring_range) in
  expected_dates <- lift (date_range (fst monitoring_range) (snd monitoring_range)) ;;
  let missing_dates := negb (index_equals (index (monitoring_data m)) expected_dates) in
  let report :=
    report_lines monitoring_range weather_range yield_range
                 monitoring_weather_consistent yield_consistent missing_dates in
  print (join_lines report).

(** ** Joins *)

(** Column names of a join: a name present on both sides that is not a
    join key gets the suffix [_x] on the left and [_y] on the right. *)
Definition overlapping (keys lcols rcols : list string) : list string :=
  filter (fun c => mem c rcols && negb (mem c keys)) lcols.

Definition suffixed (overlap : list string) (suffix c : string) : string :=
  if mem c overlap then (c ++ suffix)%string else c.

Definition rename_row (f : string -> string) (r : Row) : Row :=
  map (fun kv => (f (fst kv), snd kv)) r.

Definition null_row (cols : list string) : Row :=
  map (fun c => (c, Null)) cols.

Definition joined_columns (keys lcols rcols : list string) : list string :=
  let overlap := overlapping keys lcols rcols in
  map (suffixed overlap "_x") lcols
    ++ map (suffixed overlap "_y") (remove_names keys rcols).

(** The row a left row gives with a matching right row, or with none. *)
Definition joined_row (keys lcols rcols : list string) (l : Row) (r : option Row) : Row :=
  let overlap := overlapping keys lcols rcols in
  rename_row (suffixed overlap "_x") l
    ++ match r with
       | Some r' => rename_row (suffixed overlap "_y") (remove_keys keys r')
       | None => null_row (map (suffixed overlap "_y") (remove_names keys rcols))
       end.

(** The timestamps of an index used as an as-of key.  [merge_asof] wants
    both sides sorted and without nulls. *)
Fixpoint sortedb (l : list Z) : bool :=
  match l with
  | [] => true
  | x :: t =>
      match t with
      | [] => true
      | y :: _ => (x <=? y) && sortedb t
      end
  end.

Definition asof_keys (side : string) (df : DataFrame) : result (list Z) :=
  if existsb (fun c => match c with Null | Time _ => false | _ => true end) (index df)
  then Raise (TypeError "incompatible merge keys")
  else if existsb isnull (index df)
  then Raise (ValueError ("Merge keys contain null values on " ++ side ++ " side"))
  else
    let ts := present (map as_time (index df)) in
    if sortedb ts then Ok ts
    else Raise (ValueError (side ++ " keys must be sorted")).

(** The last right row whose key is at or before [t] (the right side is
    sorted, so the scan stops at the first later key). *)
Fixpoint asof_backward (t : Z) (rs : list (Z * Row)) (best : option Row) : option Row :=
  match rs with
  | [] => best
  | (u, r) :: rest => if u <=? t then asof_backward t rest (Some r) else best
  end.

(** [pd.merge_asof(left, right, left_index=True, right_index=True)]. *)
Definition merge_asof (left right : DataFrame) : result DataFrame :=
  let? lkeys := asof_keys "left" left in
  let? rkeys := asof_keys "right" right in
  let rs := combine rkeys (map snd (rows right)) in
  Ok {| index_name := index_name left;
        columns := joined_columns [] (columns left) (columns right);
        rows := map (fun lr =>
                       (fst (snd lr),
                        joined_row [] (columns left) (columns right) (snd (snd lr))
                                   (asof_backward (fst lr) rs None)))
                    (combine lkeys (rows left)) |}.

(** A join key names a column or the index. *)
Definition has_key (k : string) (df : DataFrame) : bool :=
  has_column k df
  || match index_name df with Some n => String.eqb k n | None => false end.

Definition key_value (k : string) (df : DataFrame) (r : Cell * Row) : Cell :=
  if has_column k df then get k (snd r) else fst r.

Definition keys_match (keys : list string) (left right : DataFrame)
    (lr rr : Cell * Row) : bool :=
  forallb (fun k => key_eqb (key_value k left lr) (key_value k right rr)) keys.

Definition matches (keys : list string) (left right : DataFrame)
    (lr : Cell * Row) : list (Cell * Row) :=
  filter (keys_match keys left right lr) (rows right).

(** [left.merge(right, how='left', on=keys)]: the left rows in their
    order, each one once per matching right row, and once with nulls when
    there is none. *)
Definition merge_left (keys : list string) (left right : DataFrame) : result DataFrame :=
  match find (fun k => negb (has_key k right && has_key k left)) keys with
  | Some k => Raise (KeyError k)
  | None =>
      let row l r := joined_row keys (columns left) (columns right) (snd l) r in
      let joined :=
        flat_map (fun l =>
                    match matches keys left right l with
                    | [] => [(fst l, row l None)]
                    | ms => map (fun r => (fst l, row l (Some (snd r)))) ms
                    end) (rows left) in
      let on_index :=
        existsb (fun k => negb (has_column k left)) keys in
      Ok {| index_name := if on_index then index_name left else None;
            columns := joined_columns keys (columns left) (columns right);
            rows := if on_index then joined else with_range_index (map snd joined) |}
  end.

(** [_enrich_with_yield_history]. *)
Definition _enrich_with_yield_history (m : Manager) (data : DataFrame) : result DataFrame :=
  let? data' := drop_columns ["culture"] data in
  let? merged := merge_left ["date"; "parcelle_id"] data' (yield_history m) in
  set_index_labels (index_name data) (index data) merged.

(** ** Gap filling *)

(** [fillna(method='bfill')]: a null takes the next valid value. *)
Fixpoint bfill (l : list Cell) : list Cell :=
  match l with
  | [] => []
  | x :: t =>
      let t' := bfill t in
      match x with
      | Null => hd Null t' :: t'
      | _ => x :: t'
      end
  end.

(** [fillna(method='ffill')]: a null takes the last valid value. *)
Fixpoint ffill_from (last : Cell) (l : list Cell) : list Cell :=
  match l with
  | [] => []
  | x :: t =>
      match x with
      | Null => last :: ffill_from last t
      | _ => x :: ffill_from x t
      end
  end.

Definition ffill (l : list Cell) : list Cell := ffill_from Null l.

Definition carry_fill (l : list Cell) : result (list Cell) := Ok (ffill (bfill l)).

(** [interpolate(method='linear', limit_direction='both')]: a null
    between two valid values lies on the line through them, by position;
    before the first and after the last valid value it takes that value. *)
Fixpoint next_valid (d : nat) (l : list Cell) : option (nat * Q) :=
  match l with
  | [] => None
  | Num q :: _ => Some (d, q)
  | _ :: t => next_valid (S d) t
  end.

Definition Qnat (n : nat) : Q := inject_Z (Z.of_nat n).

Fixpoint interpolate_from (prev : option (nat * Q)) (l : list Cell) : list Cell :=
  match l with
  | [] => []
  | Num q :: t => Num q :: interpolate_from (Some (1%nat, q)) t
  | _ :: t =>
      let v :=
        match prev, next_valid 1 t with
        | Some (da, va), Some (db, vb) =>
            Num ((vb - va) / Qnat (da + db) * Qnat da + va)%Q
        | Some (_, va), None => Num va
        | None, Some (_, vb) => Num vb
        | None, None => Null
        end in
      v :: interpolate_from (option_map (fun p => (S (fst p), snd p)) prev) t
  end.

Definition interpolate_linear (l : list Cell) : result (list Cell) :=
  if existsb (fun c => match c with Str _ | Time _ => true | _ => false end) l
  then Raise (TypeError "Cannot interpolate with object dtype")
  else Ok (interpolate_from None l).

(** [series.unique()]: the values in order of first appearance. *)
Fixpoint unique (l : list Cell) : list Cell :=
  match l with
  | [] => []
  | x :: t => x :: filter (fun y => negb (key_eqb x y)) (unique t)
  end.

(** [df[c]]. *)
Definition get_column (c : string) (df : DataFrame) : result (list Cell) :=
  if has_column c df then Ok (column c df) else Raise (KeyError c).

(** The mask [features['parcelle_id'] == parcelle]. *)
Definition in_parcel (parcelle : Cell) (r : Cell * Row) : bool :=
  cell_eqb (get "parcelle_id" (snd r)) parcelle.

(** [features.loc[mask, cols] = filled]: the [j]-th row of the mask takes
    the [j]-th value of each filled column. *)
Definition assign_cells (filled : list (string * list Cell)) (j : nat) (r : Row) : Row :=
  fold_left (fun row cv => set (fst cv) (nth j (snd cv) Null) row) filled r.

Fixpoint assign_masked (parcelle : Cell) (filled : list (string * list Cell))
    (j : nat) (rs : list (Cell * Row)) : list (Cell * Row) :=
  match rs with
  | [] => []
  | r :: t =>
      if in_parcel parcelle r
      then (fst r, assign_cells filled j (snd r)) :: assign_masked parcelle filled (S j) t
      else r :: assign_masked parcelle filled j t
  end.

(** One turn of a per-parcel loop: take the parcel's rows, transform the
    listed columns of that slice, write them back. *)
Definition transform_parcel (f : list Cell -> result (list Cell))
    (cols : list string) (features : DataFrame) (parcelle : Cell) : result DataFrame :=
  let parcelle_data := filter (in_parcel parcelle) (rows features) in
  match find (fun c => negb (has_column c features)) cols with
  | Some c => Raise (KeyError c)
  | None =>
      let? filled :=
        mapM (fun c => let? vs := f (map (fun r => get c (snd r)) parcelle_data) in
                       Ok (c, vs)) cols in
      Ok {| index_name := index_name features;
            columns := columns features;
            rows := assign_masked parcelle filled 0 (rows features) |}
  end.

Fixpoint for_each_parcel (body : DataFrame -> Cell -> result DataFrame)
    (features : DataFrame) (parcelles : list Cell) : result DataFrame :=
  match parcelles with
  | [] => Ok features
  | p :: ps => let? features' := body features p in for_each_parcel body features' ps
  end.

Definition columns_to_fill : list string :=
  ["temperature"; "humidite"; "precipitation"; "rayonnement_solaire";
   "vitesse_vent"; "direction_vent"].

Definition columns_to_interpolate : list string := ["rendement_estime"; "progression"].

(** The first loop of [prepare_features]. *)
Definition fill_gaps (features : DataFrame) : result DataFrame :=
  let? ids := get_column "parcelle_id" features in
  for_each_parcel (transform_parcel carry_fill columns_to_fill) features (unique ids).

(** The second loop. *)
Definition interpolate_gaps (features : DataFrame) : result DataFrame :=
  let? ids := get_column "parcelle_id" features in
  for_each_parcel (transform_parcel interpolate_linear columns_to_interpolate)
                  features (unique ids).

Definition prepare_features : M DataFrame :=
  _setup_temporal_indices ;;;
  _verify_temporal_consistency ;;;
  m <- read ;;
  combined_1 <- lift (merge_asof (sort_index (monitoring_data m))
                                 (sort_index (weather_data m))) ;;
  merged <- lift (merge_left ["parcelle_id"; "latitude"; "longitude"]
                             combined_1 (soil_data m)) ;;
  combined_2 <- lift (set_index_labels (index_name combined_1) (index combined_1) merged) ;;
  features <- lift (_enrich_with_yield_history m combined_2) ;;
  features <- lift (fill_gaps features) ;;
  features <- lift (interpolate_gaps features) ;;
  lift (fillna_column "rendement_final" (Num (0 # 1)) features).

(** ** Risk scorer *)

(** Sorting of group keys, as [groupby] does. *)
Fixpoint insert_key (k : Cell) (l : list Cell) : list Cell :=
  match l with
  | [] => [k]
  | h :: t => if cell_leb k h then k :: h :: t else h :: insert_key k t
  end.

Definition sort_keys (l : list Cell) : list Cell := fold_right insert_key [] l.

(** The keys of [df.groupby(c)]: the distinct non-null values, sorted. *)
Definition group_keys (ids : list Cell) : list Cell := sort_keys (unique (dropna ids)).

(** The values of column [c] in the group of key [k]. *)
Definition group_values (key c : string) (df : DataFrame) (k : Cell) : list Cell :=
  map (fun r => get c (snd r))
      (filter (fun r => key_eqb (get key (snd r)) k) (rows df)).

(** Arithmetic on cells, NaN propagating; strings and timestamps are not
    numbers. *)
Definition arith (op : Q -> Q -> Q) (a b : Cell) : result Cell :=
  match a, b with
  | Num x, Num y => Ok (Num (op x y))
  | Null, Num _ | Num _, Null | Null, Null => Ok Null
  | _, _ => Raise (TypeError "unsupported operand type(s)")
  end.

(** The weights of the composite score. *)
Record Weights : Type := mkWeights {
  w_mean_stress : Q;
  w_stress_variability : Q;
  w_capacite_retention_eau : Q;
  w_mean_temperature : Q
}.

Definition weights : Weights :=
  {| w_mean_stress := 4 # 10;
     w_stress_variability := 3 # 10;
     w_capacite_retention_eau := 2 # 10;
     w_mean_temperature := 1 # 10 |}.

(** The composite score on numbers, in the order the source writes it. *)
Definition risk_score (mean_stress stress_variability capacite_retention_eau
                       mean_temperature : Q) : Q :=
  (mean_stress * w_mean_stress weights
   + stress_variability * w_stress_variability weights
   + (1 - capacite_retention_eau) * w_capacite_retention_eau weights
   + mean_temperature * w_mean_temperature weights)%Q.

(** The same expression on cells of the [stress_metrics] frame. *)
Definition risk_score_cell (mean_stress stress_variability capacite_retention_eau
                            mean_temperature : Cell) : result Cell :=
  let? a := arith Qmult mean_stress (Num (w_mean_stress weights)) in
  let? b := arith Qmult stress_variability (Num (w_stress_variability weights)) in
  let? inv := arith Qminus (Num 1) capacite_retention_eau in
  let? c := arith Qmult inv (Num (w_capacite_retention_eau weights)) in
  let? d := arith Qmult mean_temperature (Num (w_mean_temperature weights)) in
  let? ab := arith Qplus a b in
  let? abc := arith Qplus ab c in
  arith Qplus abc d.

Definition msg_missing_values : string :=
  "Des valeurs manquantes sont présentes dans les colonnes 'stress_hydrique' ou 'temperature'.".

Definition msg_missing_soil : string :=
  "Des valeurs manquantes sont présentes dans les données des sols.".

Definition msg_missing_retention : string :=
  "Certaines parcelles manquent d'informations sur la capacité de rétention d'eau.".

Section RiskScorer.

(** The square root of float64, which the rationals do not have. *)
Variable sqrt : Q -> Q.

(** Sample standard deviation ([ddof=1]): NaN for fewer than two values. *)
Definition std_q (l : list Q) : Cell :=
  match l with
  | [] | [_] => Null
  | _ =>
      let mean := (Qsum l / Qlen l)%Q in
      let squares := map (fun x => ((x - mean) * (x - mean))%Q) l in
      Num (sqrt (Qsum squares / (Qlen l - 1))%Q)
  end.

Definition column_std (cells : list Cell) : result Cell :=
  match all_some as_num (dropna cells) with
  | Some qs => Ok (std_q qs)
  | None => Raise (TypeError "Could not convert to numeric")
  end.

(** One row of [stress_metrics] before the join with the soil table. *)
Definition stress_row (data : DataFrame) (k : Cell) : result (Cell * Row) :=
  let stress := group_values "parcelle_id" "stress_hydrique" data k in
  let? mean_stress := column_mean stress in
  let? stress_variability := column_std stress in
  let? mean_temperature :=
    column_mean (group_values "parcelle_id" "temperature" data k) in
  Ok (k, [("mean_stress", mean_stress);
          ("stress_variability", stress_variability);
          ("mean_temperature", mean_temperature)]).

(** [stress_metrics.join(soil_retention, on='parcelle_id', how='left')]:
    a row per soil record of the parcel, one row with NaN when the
    parcel has none. *)
Definition join_retention (soil : DataFrame) (r : Cell * Row) : list (Cell * Row) :=
  match filter (fun s => key_eqb (get "parcelle_id" (snd s)) (fst r)) (rows soil) with
  | [] => [(fst r, snd r ++ [("capacite_retention_eau", Null)])]
  | ms =>
      map (fun s => (fst r, snd r ++ [("capacite_retention_eau",
                                        get "capacite_retention_eau" (snd s))])) ms
  end.

Definition with_risk_score (r : Cell * Row) : result (Cell * Row) :=
  let? score := risk_score_cell (get "mean_stress" (snd r))
                                (get "stress_variability" (snd r))
                                (get "capacite_retention_eau" (snd r))
                                (get "mean_temperature" (snd r)) in
  Ok (fst r, snd r ++ [("risk_score", score)]).

Definition calculate_risk_metrics (m : Manager) (data : DataFrame) : result DataFrame :=
  let? stress := get_column "stress_hydrique" data in
  let? temperature := get_column "temperature" data in
  if existsb isnull (stress ++ temperature)
  then Raise (ValueError msg_missing_values)
  else
    let? soil_ids := get_column "parcelle_id" (soil_data m) in
    let? retention := get_column "capacite_retention_eau" (soil_data m) in
    if existsb isnull (soil_ids ++ retention)
    then Raise (ValueError msg_missing_soil)
    else
      let? ids := get_column "parcelle_id" data in
      let? stress_metrics := mapM (stress_row data) (group_keys ids) in
      let joined := flat_map (join_retention (soil_data m)) stress_metrics in
      if existsb (fun r => isnull (get "capacite_retention_eau" (snd r))) joined
      then Raise (ValueError msg_missing_retention)
      else
        let? scored := mapM with_risk_score joined in
        Ok {| index_name := Some "parcelle_id";
              columns := ["mean_stress"; "stress_variability"; "mean_temperature";
                          "capacite_retention_eau"; "risk_score"];
              rows := scored |}.

End RiskScorer.

(** ** The composite score in float64 *)

Definition pow2 (e : Z) : Q := (2 ^ e)%Q.






Section Rounded.

(** The rounding of the arithmetic: [round_float64] for float64, the
    identity for the exact arithmetic of the tables above. *)
Variable rnd : Q -> Q.



End Rounded.



(** ** Pattern analyzer *)

Local Open Scope Q_scope.

(** statsmodels' [seasonal_decompose(x, model='additive', period=p)],
    with NaN as [None]. *)
Definition seasonal_filter (period : nat) : list Q :=
  if Nat.even period
  then map (fun w => w / Qnat period) ([1 # 2] ++ repeat 1 (period - 1) ++ [1 # 2])
  else repeat (1 / Qnat period) period.

Definition dot (a b : list Q) : Q :=
  Qsum (map (fun p => fst p * snd p) (combine a b)).

(** Two-sided convolution, NaN where the window leaves the series. *)
Definition convolution_filter (x filt : list Q) : list (option Q) :=
  let k := Nat.div (List.length filt - 1) 2 in
  map (fun i =>
         if Nat.leb k i && Nat.ltb (i + k) (List.length x)
         then Some (dot (rev filt) (firstn (List.length filt) (skipn (i - k) x)))
         else None)
      (seq 0 (List.length x)).

Definition nan_minus (a b : option Q) : option Q :=
  match a, b with
  | Some u, Some v => Some (u - v)
  | _, _ => None
  end.

Definition nanmean (l : list (option Q)) : option Q :=
  match present l with
  | [] => None
  | vs => Some (Qsum vs / Qlen vs)
  end.

(** [x[i::period]]. *)
Definition every_nth {A : Type} (period i : nat) (l : list A) : list A :=
  map snd (filter (fun p => Nat.eqb (Nat.modulo (fst p) period) i)
                  (combine (seq 0 (List.length l)) l)).

Definition seasonal_mean (x : list (option Q)) (period : nat) : list (option Q) :=
  map (fun i => nanmean (every_nth period i x)) (seq 0 period).

(** [np.mean]: NaN as soon as one value is. *)
Definition mean_strict (l : list (option Q)) : option Q :=
  match all_some (fun v => v) l with
  | Some vs => Some (Qsum vs / Qlen vs)
  | None => None
  end.

Record DecomposeResult : Type := mkDecomposeResult {
  seasonal : list (option Q);
  trend : list (option Q);
  resid : list (option Q);
  observed : list (option Q)
}.

Definition decimal (n : nat) : string := NilZero.string_of_uint (Nat.to_uint n).

Definition msg_two_cycles (period nobs : nat) : string :=
  ("x must have 2 complete cycles requires " ++ decimal (2 * period)
     ++ " observations. x only has " ++ decimal nobs ++ " observation(s)")%string.

Definition seasonal_decompose (x : list Cell) (period : nat) : result DecomposeResult :=
  if existsb (fun c => match c with Str _ | Time _ => true | _ => false end) x
  then Raise (ValueError "could not convert to float")
  else
    match all_some as_num x with
    | None => Raise (ValueError "This function does not handle missing values")
    | Some xs =>
        if Nat.ltb (List.length xs) (2 * period)
        then Raise (ValueError (msg_two_cycles period (List.length xs)))
        else
          let trend := convolution_filter xs (seasonal_filter period) in
          let detrended := map (fun p => nan_minus (Some (fst p)) (snd p)) (combine xs trend) in
          let averages := seasonal_mean detrended period in
          let centre := mean_strict averages in
          let period_averages := map (fun a => nan_minus a centre) averages in
          let seasonal :=
            map (fun i => nth (Nat.modulo i period) period_averages None)
                (seq 0 (List.length xs)) in
          let resid := map (fun p => nan_minus (fst p) (snd p)) (combine detrended seasonal) in
          Ok {| seasonal := seasonal;
                trend := trend;
                resid := resid;
                observed := map Some xs |}
    end.

Definition float_cell (v : option Q) : Cell :=
  match v with Some q => Num q | None => Null end.

Definition msg_no_yield (parcelle_id : string) : string :=
  ("Aucune donnée de rendement trouvée pour la parcelle " ++ parcelle_id ++ ".")%string.

Definition analyze_yield_patterns (m : Manager) (parcelle_id : string) : result DataFrame :=
  let? ids := get_column "parcelle_id" (yield_history m) in
  let history :=
    {| index_name := index_name (yield_history m);
       columns := columns (yield_history m);
       rows := filter (in_parcel (Str parcelle_id)) (rows (yield_history m)) |} in
  match rows history with
  | [] => Raise (ValueError (msg_no_yield parcelle_id))
  | _ =>
      let history := sort_index history in
      let? yields := get_column "rendement_final" history in
      let? decomposed := seasonal_decompose yields 1 in
      let cells :=
        combine (combine (trend decomposed) (seasonal decomposed))
                (combine (resid decomposed) (observed decomposed)) in
      Ok {| index_name := index_name history;
            columns := ["trend"; "seasonal"; "resid"; "observed"];
            rows := map (fun p =>
                           (fst p,
                            [("trend", float_cell (fst (fst (snd p))));
                             ("seasonal", float_cell (snd (fst (snd p))));
                             ("resid", float_cell (fst (snd (snd p))));
                             ("observed", float_cell (snd (snd (snd p))))]))
                        (combine (index history) cells) |}
  end.

Local Close Scope Q_scope.

(** ** Sample tables *)

(** A table as [read_csv] returns it: named columns and a RangeIndex. *)
Definition frame (cols : list string) (data : list (list Cell)) : DataFrame :=
  {| index_name := None;
     columns := cols;
     rows := with_range_index (map (combine cols) data) |}.

Definition weather_columns : list string :=
  "date" :: columns_to_fill.

(** One reading an hour for a whole day. *)
Definition hourly_readings (y m d : Z) (temperature : Q) : list (list Cell) :=
  map (fun h => [Time (timestamp y m d (Z.of_nat h) 0 0); Num temperature;
                 Num 60; Num 0; Num 200; Num 3; Num 180])
      (seq 0 24).

Definition one_day_of_weather : DataFrame :=
  frame weather_columns (hourly_readings 2021 1 1 10).

Definition sample_weather : DataFrame :=
  frame weather_columns
        (hourly_readings 2021 1 1 10 ++ hourly_readings 2021 1 2 20
           ++ firstn 5 (hourly_readings 2021 1 3 30)).

Definition sample_monitoring : DataFrame :=
  frame ["date"; "parcelle_id"; "latitude"; "longitude"; "stress_hydrique";
         "culture"; "rendement_estime"; "progression"]
        [ [Time (date 2021 1 1); Str "P1"; Num 1; Num 2; Num (1 # 2); Str "ble"; Num 3; Null];
          [Time (date 2021 1 1); Str "P2"; Num 3; Num 4; Num (1 # 4); Str "mais"; Null; Null];
          [Time (date 2021 1 2); Str "P1"; Num 1; Num 2; Num (1 # 3); Str "ble"; Null; Num 1];
          [Time (date 2021 1 2); Str "P2"; Num 3; Num 4; Num (1 # 5); Str "mais"; Num 5; Null];
          [Time (date 2021 1 3); Str "P1"; Num 1; Num 2; Num (1 # 3); Str "ble"; Num 6; Null] ].

Definition sample_soil : DataFrame :=
  frame ["parcelle_id"; "latitude"; "longitude"; "capacite_retention_eau"]
        [ [Str "P1"; Num 1; Num 2; Num (1 # 2)];
          [Str "P2"; Num 3; Num 4; Num (1 # 4)] ].

Definition sample_yields : DataFrame :=
  frame ["date"; "parcelle_id"; "rendement_final"; "culture"]
        [ [Time (date 2021 1 1); Str "P1"; Num 7; Str "orge"];
          [Time (date 2021 1 2); Str "P1"; Null; Str "orge"];
          [Time (date 2021 1 2); Str "P3"; Num 4; Str "colza"] ].

Definition empty_manager : Manager :=
  {| monitoring_data := frame [] [];
     weather_data := frame [] [];
     soil_data := frame [] [];
     yield_history := frame [] [] |}.

Definition loaded (r : result Manager) : State :=
  {| self := match r with Ok m => m | Raise _ => empty_manager end; stdout := [] |}.

(** The state [load_data] leaves on the sample tables. *)
Definition sample_state : State :=
  loaded (load_data sample_monitoring sample_weather sample_soil sample_yields).

(** The same with a second soil record for parcel P1. *)
Definition duplicated_soil : DataFrame :=
  frame ["parcelle_id"; "latitude"; "longitude"; "capacite_retention_eau"]
        [ [Str "P1"; Num 1; Num 2; Num (1 # 2)];
          [Str "P1"; Num 1; Num 2; Num (3 # 4)];
          [Str "P2"; Num 3; Num 4; Num (1 # 4)] ].

(** A feature table of one parcel whose temperature is known on rows 2,
    5 and 9 only. *)
Definition gappy_row (temperature : Cell) : list Cell :=
  [Str "P1"; temperature; Num 60; Num 0; Num 200; Num 3; Num 180].

Definition gappy_features : DataFrame :=
  frame ("parcelle_id" :: columns_to_fill)
        (map gappy_row
             [Null; Null; Num 12; Null; Null; Num 15; Null; Null; Null; Num 19]).

(** A monitoring table without any row, its date already the index. *)
Definition no_rows (cols : list string) : DataFrame :=
  {| index_name := Some "date"; columns := cols; rows := [] |}.


(** Tables of two rows whose date index spans a given range. *)
Definition spanning (first last : Z) : DataFrame :=
  {| index_name := Some "date";
     columns := ["parcelle_id"];
     rows := [(Time first, [("parcelle_id", Str "P1")]);
              (Time last, [("parcelle_id", Str "P1")])] |}.

Definition state_spanning (monitoring weather : Z * Z) : State :=
  {| self := {| monitoring_data := spanning (fst monitoring) (snd monitoring);
                weather_data := spanning (fst weather) (snd weather);
                soil_data := sample_soil;
                yield_history := spanning (fst monitoring) (snd monitoring) |};
     stdout := [] |}.

(** Inputs of the risk scorer. *)
Definition stress_table (data : list (list Cell)) : DataFrame :=
  frame ["parcelle_id"; "stress_hydrique"; "temperature"] data.

Definition retention_table (data : list (list Cell)) : DataFrame :=
  frame ["parcelle_id"; "capacite_retention_eau"] data.

Definition manager_with_soil (soil : DataFrame) : Manager :=
  {| monitoring_data := frame [] [];
     weather_data := frame [] [];
     soil_data := soil;
     yield_history := frame [] [] |}.

Definition sample_stress : DataFrame :=
  stress_table [ [Str "P1"; Num (1 # 2); Num 20];
                 [Str "P2"; Num (1 # 4); Num 22];
                 [Str "P2"; Num (3 # 4); Num 24] ].

Definition sample_retention : DataFrame :=
  retention_table [ [Str "P1"; Num (1 # 2)]; [Str "P2"; Num (1 # 4)] ].


(** A soil table with a record that has a retention but no parcel id. *)
Definition anonymous_retention : DataFrame :=
  retention_table [ [Null; Num (3 # 10)]; [Str "P1"; Num (1 # 2)]; [Str "P2"; Num (1 # 4)] ].

(** A stand-in for the square root where its value does not matter. *)
Definition no_sqrt (q : Q) : Q := q.

(** Yield histories of zero (P9), one (P3) and two (P1) records. *)
Definition yield_manager : Manager :=
  self sample_state.

(** ** Vocabulary of the properties *)

(** Rows 24k to min(24(k+1), N) - 1 of the raw table. *)
Definition block (weather : DataFrame) (k : nat) : list (Cell * Row) :=
  firstn chunk_size (skipn (24 * k) (rows weather)).

Definition block_cells (weather : DataFrame) (k : nat) (c : string) : list Cell :=
  map (fun r => get c (snd r)) (block weather k).

(** No two keys of the list are the same key. *)
Fixpoint distinct_keys (l : list Cell) : bool :=
  match l with
  | [] => true
  | x :: t => forallb (fun y => negb (key_eqb x y)) t && distinct_keys t
  end.

(** A float cell: a number or NaN. *)
Definition numeric (c : Cell) : bool :=
  match c with Null | Num _ => true | _ => false end.

(** What the risk scorer needs of its two tables: the columns it reads,
    holding floats. *)
Definition risk_input_typed (m : Manager) (data : DataFrame) : bool :=
  has_column "stress_hydrique" data
  && has_column "temperature" data
  && has_column "parcelle_id" data
  && has_column "parcelle_id" (soil_data m)
  && has_column "capacite_retention_eau" (soil_data m)
  && forallb numeric (column "stress_hydrique" data)
  && forallb numeric (column "temperature" data)
  && forallb numeric (column "capacite_retention_eau" (soil_data m)).

(** Some [stress_hydrique] or [temperature] value is null. *)
Definition missing_measure (data : DataFrame) : bool :=
  existsb isnull (column "stress_hydrique" data ++ column "temperature" data).

(** Some soil record lacks its parcel id or its retention capacity. *)
Definition missing_soil_value (m : Manager) : bool :=
  existsb isnull (column "parcelle_id" (soil_data m)
                    ++ column "capacite_retention_eau" (soil_data m)).

Definition has_soil_record (m : Manager) (id : Cell) : bool :=
  existsb (fun s => key_eqb (get "parcelle_id" (snd s)) id) (rows (soil_data m)).

(** Some parcel of the input has no soil record. *)
Definition parcel_without_soil (m : Manager) (data : DataFrame) : bool :=
  existsb (fun id => notnull id && negb (has_soil_record m id))
          (column "parcelle_id" data).

(** The rows of the input that belong to the parcel of key [k]. *)
Definition parcel_rows (data : DataFrame) (k : Cell) : list (Cell * Row) :=
  filter (fun r => key_eqb (get "parcelle_id" (snd r)) k) (rows data).


(** The index holds at least one date. *)
Definition has_date (df : DataFrame) : bool := existsb notnull (index df).

Definition is_num (c : Cell) : bool :=
  match c with Num _ => true | _ => false end.

(** The yield history has the two columns the analyzer reads, and no
    missing yield (which [load_data] sees to). *)
Definition yield_history_typed (m : Manager) : bool :=
  has_column "parcelle_id" (yield_history m)
  && has_column "rendement_final" (yield_history m)
  && forallb is_num (column "rendement_final" (yield_history m)).

(** The yield records of a parcel. *)
Definition yield_records (m : Manager) (parcelle_id : string) : list (Cell * Row) :=
  filter (in_parcel (Str parcelle_id)) (rows (yield_history m)).

(** The yield records that match a row of a table on (date,
    parcelle_id), as the merge of [_enrich_with_yield_history] pairs
    them: the date is the row's label where the table is indexed by
    date. *)
Definition yield_matches (m : Manager) (features : DataFrame) (r : Cell * Row)
    : list (Cell * Row) :=
  matches ["date"; "parcelle_id"] features (yield_history m) r.

(** The culture of the first of some yield records, NaN without any. *)
Definition culture_of (records : list (Cell * Row)) : Cell :=
  match records with
  | [] => Null
  | y :: _ => get "culture" (snd y)
  end.

(** The slice of column [c] that belongs to a parcel. *)
Definition parcel_slice (parcelle : Cell) (c : string) (df : DataFrame) : list Cell :=
  map (fun r => get c (snd r)) (filter (in_parcel parcelle) (rows df)).

(** What the map's risk layer does before it asks for the features
    again: [reset_index(inplace=True)] on the three dated tables. *)
Definition reset_indices (s : State) : State :=
  {| self := {| monitoring_data := reset_index (monitoring_data (self s));
                weather_data := reset_index (weather_data (self s));
                soil_data := soil_data (self s);
                yield_history := reset_index (yield_history (self s)) |};
     stdout := stdout s |}.

(** The part of [prepare_features] that follows the two method calls, as
    a function of the tables it reads. *)
Definition features_of (m : Manager) : result DataFrame :=
  let? combined_1 := merge_asof (sort_index (monitoring_data m))
                                (sort_index (weather_data m)) in
  let? merged := merge_left ["parcelle_id"; "latitude"; "longitude"]
                            combined_1 (soil_data m) in
  let? combined_2 := set_index_labels (index_name combined_1) (index combined_1) merged in
  let? features := _enrich_with_yield_history m combined_2 in
  let? features := fill_gaps features in
  let? features := interpolate_gaps features in
  fillna_column "rendement_final" (Num (0 # 1)) features.

(** A cell of a datetime column: a timestamp or NaT. *)
Definition timeish (c : Cell) : bool :=
  match c with Null | Time _ => true | _ => false end.

(** A raw weather table as [load_data] expects it: a [date] column of
    timestamps, floats in every other column. *)
Definition weather_typed (weather : DataFrame) : bool :=
  has_column "date" weather
  && forallb (fun c => if String.eqb c "date"
                       then forallb timeish (column c weather)
                       else forallb numeric (column c weather))
             (columns weather).

(** The state [load_data] leaves on a weather file without any reading. *)
Definition state_without_weather : State :=
  loaded (load_data sample_monitoring (frame weather_columns []) sample_soil sample_yields).

(** An index of [n] consecutive days from [start], one label a day. *)
Definition daily (start : Z) (n : nat) : list Cell :=
  map (fun k => Time (start + Z.of_nat k * ns_per_day)) (seq 0 n).

(** The monitoring table of the samples once its date is the index. *)
Definition state_with_indices : State := fst (_setup_temporal_indices sample_state).

(** A feature table of one parcel whose estimated yield is known on rows
    1 and 5 only. *)
Definition sparse_features : DataFrame :=
  frame ["parcelle_id"; "rendement_estime"; "progression"]
        (map (fun v => [Str "P1"; v; Null])
             [Null; Num 2; Null; Null; Null; Num 6; Null]).

(** Every join key names a column or the index, on both sides. *)
Definition join_keys_known (keys : list string) (left right : DataFrame) : bool :=
  forallb (fun k => has_key k right && has_key k left) keys.

(** No left row of the join has two matching right rows. *)
Definition single_matches (keys : list string) (left right : DataFrame) : bool :=
  forallb (fun l => Nat.leb (List.length (matches keys left right l)) 1) (rows left).

(** The sample state with a second soil record for parcel P1. *)
Definition state_with_duplicated_soil : State :=
  {| self := {| monitoring_data := monitoring_data (self sample_state);
                weather_data := weather_data (self sample_state);
                soil_data := duplicated_soil;
                yield_history := yield_history (self sample_state) |};
     stdout := [] |}.

(** A merged table of one row, and a yield history, indexed by date,
    with two records for that row. *)
Definition one_merged_row : DataFrame :=
  {| index_name := Some "date";
     columns := ["parcelle_id"; "culture"];
     rows := [(Time (date 2021 1 1), [("parcelle_id", Str "P1"); ("culture", Str "ble")])] |}.

Definition manager_with_yields (yields : DataFrame) : Manager :=
  {| monitoring_data := frame [] [];
     weather_data := frame [] [];
     soil_data := frame [] [];
     yield_history := yields |}.

Definition duplicated_yields : DataFrame :=
  {| index_name := Some "date";
     columns := ["parcelle_id"; "rendement_final"; "culture"];
     rows := [(Time (date 2021 1 1),
               [("parcelle_id", Str "P1"); ("rendement_final", Num 7); ("culture", Str "orge")]);
              (Time (date 2021 1 1),
               [("parcelle_id", Str "P1"); ("rendement_final", Num 8); ("culture", Str "ble")])] |}.

(** The soil records of the parcel of key [k]. *)
Definition soil_records (m : Manager) (k : Cell) : list (Cell * Row) :=
  filter (fun s => key_eqb (get "parcelle_id" (snd s)) k) (rows (soil_data m)).

(** Labels in increasing order, each one at or below the next. *)
Fixpoint ascending (l : list Cell) : bool :=
  match l with
  | [] => true
  | x :: t =>
      match t with
      | [] => true
      | y :: _ => cell_leb x y && ascending t
      end
  end.

(** The retention table with a second record for parcel P2. *)
Definition duplicated_retention : DataFrame :=
  retention_table [ [Str "P2"; Num (1 # 4)]; [Str "P1"; Num (1 # 2)]; [Str "P2"; Num (3 # 4)] ].

(** [s] ends with [suffix]. *)
Fixpoint ends_with (suffix s : string) : bool :=
  String.eqb s suffix
  || match s with
     | EmptyString => false
     | String _ t => ends_with suffix t
     end.

(** Every row of the table has a value under [c]. *)
Definition in_every_row (c : string) (df : DataFrame) : bool :=
  forallb (fun r => match lookup c (snd r) with Some _ => true | None => false end)
          (rows df).

(** A column of the monitoring table that [prepare_features] has no
    reason to touch: it is not the date, not a column the weather, soil
    or yield tables also have (join keys apart), not one of the columns
    the method fills, drops or interpolates, and its name does not look
    like a suffixed one. *)
Definition monitoring_only (c : string) (m : Manager) : bool :=
  in_every_row c (monitoring_data m)
  && negb (mem c ["date"; "culture"; "rendement_final"])
  && negb (mem c columns_to_fill)
  && negb (mem c columns_to_interpolate)
  && negb (ends_with "_x" c)
  && negb (ends_with "_y" c)
  && negb (has_column c (weather_data m))
  && (mem c ["parcelle_id"; "latitude"; "longitude"] || negb (has_column c (soil_data m)))
  && (mem c ["date"; "parcelle_id"] || negb (has_column c (yield_history m))).

(** ** The map of [src/map_visualization.py] *)

(** State passing over any state, with the exceptions of [result]; [M] is
    the instance for the data manager. *)
Definition St (S A : Type) : Type := S -> S * result A.

Definition sbind {S A B : Type} (c : St S A) (k : A -> St S B) : St S B :=
  fun s =>
    match c s with
    | (s', Ok a) => k a s'
    | (s', Raise e) => (s', Raise e)
    end.

Notation "x <~ c ;; k" := (sbind c (fun x => k))
  (at level 61, c at next level, right associativity).
Notation "c ~;; k" := (sbind c (fun _ => k))
  (at level 61, right associativity).

(** What the class hands to folium: a map, and the layers added to it,
    each with the arguments of its constructor. *)
Inductive Layer : Type :=
| TileLayer (tiles : string)
| CircleMarker (location : Cell * Cell) (radius : Z) (color : string)
               (fill : bool) (fill_opacity : Q) (tooltip : string)
| HeatMap (data : list (list Cell)) (name : string) (radius blur max_zoom : Z).

Record FoliumMap : Type := mkFoliumMap {
  location : Cell * Cell;
  zoom_start : Z;
  children : list Layer
}.

(** [layer.add_to(m)]. *)
Definition add_child (layer : Layer) (m : FoliumMap) : FoliumMap :=
  {| location := location m;
     zoom_start := zoom_start m;
     children := children m ++ [layer] |}.

(** An [AgriculturalMap] with the data manager it refers to -- state and
    output -- and the files written so far. *)
Record MapState : Type := mkMapState {
  data_manager : State;
  self_map : option FoliumMap;
  files : list (string * FoliumMap)
}.

(** [AgriculturalMap(data_manager)]: no map yet. *)
Definition new_map (d : State) (written : list (string * FoliumMap)) : MapState :=
  {| data_manager := d; self_map := None; files := written |}.

Definition msg_no_map : string :=
  "La carte n'a pas encore été initialisée. Utilisez `create_base_map` d'abord.".

Definition msg_no_map_heat : string :=
  "La carte n'a pas encore été initialisée. Utilisez create_base_map d'abord.".

(** The name [reset_index] gives the column it makes of the index. *)
Definition reset_index_name (df : DataFrame) : string :=
  match index_name df with
  | Some n => n
  | None => if has_column "index" df then "level_0" else "index"
  end.

(** [df.reset_index()], in place or not, with its refusal to insert a
    column that exists. *)
Definition reset_index_checked (df : DataFrame) : result DataFrame :=
  let name := reset_index_name df in
  if has_column name df
  then Raise (ValueError ("cannot insert " ++ name ++ ", already exists"))
  else Ok {| index_name := None;
             columns := name :: columns df;
             rows := with_range_index (map (fun r => (name, fst r) :: snd r) (rows df)) |}.

(** The rows of [left.merge(right, on=keys)], an inner join, as
    [iterrows] yields them and without their labels: the left rows in
    their order, each one once per matching right row; a key that is an
    index level on the left comes as a cell of its own. *)
Definition merge_inner_rows (keys : list string) (left right : DataFrame)
    : result (list Row) :=
  match find (fun k => negb (has_key k right && has_key k left)) keys with
  | Some k => Raise (KeyError k)
  | None =>
      let overlap := overlapping keys (columns left) (columns right) in
      let index_keys := filter (fun k => negb (has_column k left)) keys in
      Ok (flat_map
            (fun l =>
               map (fun r =>
                      rename_row (suffixed overlap "_x") (snd l)
                        ++ map (fun k => (k, key_value k left l)) index_keys
                        ++ rename_row (suffixed overlap "_y") (remove_keys keys (snd r)))
                   (matches keys left right l))
            (rows left))
  end.

(** The three [reset_index(inplace=True)] of the risk layer. *)
Definition reset_temporal_indices : M unit :=
  m <- read ;;
  monitoring <- lift (reset_index_checked (monitoring_data m)) ;;
  assign_monitoring_data monitoring ;;;
  weather <- lift (reset_index_checked (weather_data m)) ;;
  assign_weather_data weather ;;;
  yields <- lift (reset_index_checked (yield_history m)) ;;
  assign_yield_history yields.

(** [[row['latitude'], row['longitude'], row['risk_score']]]. *)
Definition heat_point (row : Row) : result (list Cell) :=
  let? latitude := series_get "latitude" row in
  let? longitude := series_get "longitude" row in
  let? score := series_get "risk_score" row in
  Ok [latitude; longitude; score].

Section Folium.

(** What the class calls and does not define: the square root of the
    risk scorer, the colour scale [self.yield_colormap] (a branca
    [LinearColormap] from red to green over 0..3), [str(x)] and
    [format(x, '.2f')] as f-strings use them, and the checks folium makes
    of a location and of the data of a heat map. *)
Variable sqrt : Q -> Q.
Variable yield_colormap : Cell -> result string.
Variable str_of : Cell -> string.
Variable format_2f : Cell -> result string.
Variable check_location : Cell * Cell -> result unit.
Variable check_heat_data : list (list Cell) -> result unit.

Definition folium_Map (loc : Cell * Cell) (zoom : Z) : result FoliumMap :=
  let? checked := check_location loc in
  Ok {| location := loc; zoom_start := zoom; children := [] |}.

Definition folium_CircleMarker (loc : Cell * Cell) (radius : Z) (color : string)
    (fill : bool) (fill_opacity : Q) (tooltip : string) : result Layer :=
  let? checked := check_location loc in
  Ok (CircleMarker loc radius color fill fill_opacity tooltip).

Definition plugins_HeatMap (data : list (list Cell)) (name : string)
    (radius blur max_zoom : Z) : result Layer :=
  let? checked := check_heat_data data in
  Ok (HeatMap data name radius blur max_zoom).

(** [create_base_map]: a map centred on the mean position of the
    monitoring rows, with its tile layer, replaces [self.map]. *)
Definition create_base_map : St MapState unit :=
  fun s =>
    let monitoring := monitoring_data (self (data_manager s)) in
    let base :=
      let? latitudes := get_column "latitude" monitoring in
      let? mean_lat := column_mean latitudes in
      let? longitudes := get_column "longitude" monitoring in
      let? mean_lon := column_mean longitudes in
      folium_Map (mean_lat, mean_lon) 12 in
    match base with
    | Ok m =>
        ({| data_manager := data_manager s;
            self_map := Some (add_child (TileLayer "OpenStreetMap") m);
            files := files s |}, Ok tt)
    | Raise e => (s, Raise e)
    end.

(** [if self.map is None: raise ValueError(msg)], and the code that
    follows it, which runs on the data manager and on a map that
    exists. *)
Definition after_guard (msg : string) (body : St (State * FoliumMap) unit)
    : St MapState unit :=
  fun s =>
    match self_map s with
    | None => (s, Raise (ValueError msg))
    | Some m =>
        let (after, r) := body (data_manager s, m) in
        ({| data_manager := fst after; self_map := Some (snd after); files := files s |}, r)
    end.

(** [for _, row in table.iterrows(): marker(row).add_to(self.map)]: the
    markers added before a failing row stay on the map. *)
Fixpoint add_markers (marker : Row -> result Layer) (table : list (Cell * Row))
    (m : FoliumMap) : FoliumMap * result unit :=
  match table with
  | [] => (m, Ok tt)
  | row :: rest =>
      match marker (snd row) with
      | Ok layer => add_markers marker rest (add_child layer m)
      | Raise e => (m, Raise e)
      end
  end.

(** The body of the loop of [add_yield_history_layer]. *)
Definition yield_marker (m : Manager) (row : Row) : result Layer :=
  let? parcelle_id := series_get "parcelle_id" row in
  let? latitude := series_get "latitude" row in
  let? longitude := series_get "longitude" row in
  let? ids := get_column "parcelle_id" (yield_history m) in
  let yield_data := filter (in_parcel parcelle_id) (rows (yield_history m)) in
  let? summary :=
    match yield_data with
    | [] => Ok (Num 0, "Pas de données disponibles")
    | _ =>
        if has_column "rendement_final" (yield_history m) then
          let? mean_yield :=
            column_mean (map (fun r => get "rendement_final" (snd r)) yield_data) in
          let? text := format_2f mean_yield in
          Ok (mean_yield, ("Tendance : " ++ text)%string)
        else Raise (KeyError "rendement_final")
    end in
  let? color := yield_colormap (fst summary) in
  let? text := format_2f (fst summary) in
  folium_CircleMarker
    (latitude, longitude) 8 color true (7 # 10)
    ("Parcelle ID: " ++ str_of parcelle_id ++ "<br>" ++ snd summary
       ++ "<br>rendement_final moyen : " ++ text ++ " tonnes/ha")%string.

Definition add_yield_history_layer : St MapState unit :=
  create_base_map ~;;
  after_guard msg_no_map
    (fun st =>
       let m := self (fst st) in
       let (map', r) := add_markers (yield_marker m) (rows (soil_data m)) (snd st) in
       ((fst st, map'), r)).

(** The body of the loop of [add_current_ndvi_layer]. *)
Definition ndvi_marker (row : Row) : result Layer :=
  let? latitude := series_get "latitude" row in
  let? longitude := series_get "longitude" row in
  let? ndvi := series_get "ndvi" row in
  let? text := format_2f ndvi in
  folium_CircleMarker
    (latitude, longitude) 6 "Green" true (6 # 10)
    ("Latitude: " ++ str_of latitude ++ "<br>Longitude: " ++ str_of longitude
       ++ "<br>NDVI: " ++ text)%string.

Definition add_current_ndvi_layer : St MapState unit :=
  create_base_map ~;;
  after_guard msg_no_map
    (fun st =>
       let m := self (fst st) in
       let (map', r) := add_markers ndvi_marker (rows (monitoring_data m)) (snd st) in
       ((fst st, map'), r)).

(** The data of the heat map, from the data manager: the indices come
    back as columns, the features are prepared anew, the risk table is
    joined with the monitoring rows of each parcel. *)
Definition risk_heat_data : M (list (list Cell)) :=
  reset_temporal_indices ;;;
  features <- prepare_features ;;
  m <- read ;;
  risk_data <- lift (calculate_risk_metrics sqrt m features) ;;
  monitoring <- lift (reset_index_checked (monitoring_data m)) ;;
  risk_with_coords <- lift (merge_inner_rows ["parcelle_id"] risk_data monitoring) ;;
  lift (mapM heat_point risk_with_coords).

Definition add_risk_heatmap : St MapState unit :=
  create_base_map ~;;
  after_guard msg_no_map_heat
    (fun st =>
       match risk_heat_data (fst st) with
       | (d, Ok heat_data) =>
           match plugins_HeatMap heat_data "Carte de chaleur des risques" 10 15 12 with
           | Ok layer => ((d, add_child layer (snd st)), Ok tt)
           | Raise e => ((d, snd st), Raise e)
           end
       | (d, Raise e) => ((d, snd st), Raise e)
       end).

(** [save_map]: the file takes the map as it is (what the file system
    may refuse is not modelled). *)
Definition save_map (file_path : string) : St MapState unit :=
  fun s =>
    match self_map s with
    | None => (s, Raise (ValueError msg_no_map))
    | Some m =>
        ({| data_manager := data_manager s;
            self_map := self_map s;
            files := files s ++ [(file_path, m)] |}, Ok tt)
    end.

End Folium.

(** Stand-ins for the library calls, where their value does not matter. *)
Definition any_colour (c : Cell) : result string := Ok "#00ff00".
Definition any_text (c : Cell) : string := "".
Definition two_decimals (c : Cell) : result string := Ok "0.00".
Definition any_location (loc : Cell * Cell) : result unit := Ok tt.
Definition any_heat_data (data : list (list Cell)) : result unit := Ok tt.

(** The same object with another value of [self.map]. *)
Definition with_self_map (o : option FoliumMap) (s : MapState) : MapState :=
  {| data_manager := data_manager s; self_map := o; files := files s |}.

(** A map that already carries a heat layer. *)
Definition used_map : FoliumMap :=
  {| location := (Num 0, Num 0);
     zoom_start := 12;
     children := [TileLayer "OpenStreetMap";
                  HeatMap [] "Carte de chaleur des risques" 10 15 12] |}.

(** The yield records whose parcel is [id], as the yield layer selects
    them. *)
Definition yield_records_of (m : Manager) (id : Cell) : list (Cell * Row) :=
  filter (in_parcel id) (rows (yield_history m)).

(** A monitoring table with an NDVI reading per row, parcel P1 seen on
    two dates. *)
Definition ndvi_monitoring : DataFrame :=
  frame ["date"; "parcelle_id"; "latitude"; "longitude"; "ndvi"]
        [ [Time (date 2021 1 1); Str "P1"; Num 1; Num 2; Num (1 # 2)];
          [Time (date 2021 1 1); Str "P2"; Num 3; Num 4; Num (1 # 4)];
          [Time (date 2021 1 2); Str "P1"; Num 1; Num 2; Num (3 # 4)] ].

Definition ndvi_state : State :=
  {| self := {| monitoring_data := ndvi_monitoring;
                weather_data := weather_data (self sample_state);
                soil_data := sample_soil;
                yield_history := yield_history (self sample_state) |};
     stdout := [] |}.

(** The rows of a table that belong to the parcel of key [k]. *)
Definition observations (df : DataFrame) (k : Cell) : list (Cell * Row) :=
  filter (fun o => key_eqb k (get "parcelle_id" (snd o))) (rows df).

(** ** The dashboards of [src/dashboard.py], as far as they drive the
    data manager and the map *)

Section Streamlit.

Variable check_location : Cell * Cell -> result unit.

(** One tab of [IntegratedDashboard.create_streamlit_dashboard]: a new
    [AgriculturalMap] on the shared data manager, [create_base_map], then
    the layer of the tab; the page then shows [self.map] (the streamlit
    calls around it only display). *)
Definition tab (add_layer : St MapState unit) (d : State)
    (written : list (string * FoliumMap)) : MapState * result unit :=
  (create_base_map check_location ~;; add_layer) (new_map d written).

End Streamlit.

Section Bokeh.

(** Bokeh's [ColumnDataSource], and the column arithmetic of
    [prepare_stress_data] (whose division can give infinities, which the
    cells do not have), are left to the library. *)
Variable Source : Type.
Variable ColumnDataSource : DataFrame -> result Source.
Variable with_stress_combine : DataFrame -> result DataFrame.

Record Dashboard : Type := mkDashboard {
  dashboard_manager : State;
  source : option Source;
  hist_source : option Source
}.

(** [create_data_sources]. *)
Definition create_data_sources : St Dashboard unit :=
  fun s =>
    match prepare_features (dashboard_manager s) with
    | (d, Raise e) =>
        ({| dashboard_manager := d; source := source s; hist_source := hist_source s |},
         Raise e)
    | (d, Ok features) =>
        let unchanged :=
          {| dashboard_manager := d; source := source s; hist_source := hist_source s |} in
        match reset_index_checked (yield_history (self d)) with
        | Raise e => (unchanged, Raise e)
        | Ok yield_history =>
            match ColumnDataSource features with
            | Raise e => (unchanged, Raise e)
            | Ok src =>
                match ColumnDataSource yield_history with
                | Raise e =>
                    ({| dashboard_manager := d;
                        source := Some src;
                        hist_source := hist_source s |}, Raise e)
                | Ok hist =>
                    ({| dashboard_manager :=
                          {| self := self d;
                             stdout := stdout d ++ ["Sources de données préparées."] |};
                        source := Some src;
                        hist_source := Some hist |}, Ok tt)
                end
            end
        end
    end.

(** [AgriculturalDashboard(data_manager)]. *)
Definition new_dashboard (d : State) : Dashboard * result unit :=
  create_data_sources {| dashboard_manager := d; source := None; hist_source := None |}.

(** [prepare_stress_data]. *)
Definition prepare_stress_data : St Dashboard unit :=
  fun s =>
    match prepare_features (dashboard_manager s) with
    | (d, Raise e) =>
        ({| dashboard_manager := d; source := source s; hist_source := hist_source s |},
         Raise e)
    | (d, Ok data) =>
        let unchanged :=
          {| dashboard_manager := d; source := source s; hist_source := hist_source s |} in
        match with_stress_combine data with
        | Raise e => (unchanged, Raise e)
        | Ok data' =>
            match ColumnDataSource data' with
            | Raise e => (unchanged, Raise e)
            | Ok src =>
                ({| dashboard_manager := d;
                    source := Some src;
                    hist_source := hist_source s |}, Ok tt)
            end
        end
    end.

End Bokeh.

Arguments dashboard_manager {Source} _.
Arguments source {Source} _.
Arguments hist_source {Source} _.
Arguments create_data_sources {Source} ColumnDataSource _.
Arguments new_dashboard {Source} ColumnDataSource d.
Arguments prepare_stress_data {Source} ColumnDataSource with_stress_combine _.

(** A stand-in for Bokeh's data source: the table itself. *)
Definition table_source (df : DataFrame) : result DataFrame := Ok df.

(** A yield history without any record, its date already the index. *)
Definition state_without_yields : State :=
  {| self := {| monitoring_data := spanning (date 2021 1 1) (date 2021 1 2);
                weather_data := spanning (date 2021 1 1) (date 2021 1 2);
                soil_data := sample_soil;
                yield_history := no_rows ["parcelle_id"; "rendement_final"] |};
     stdout := [] |}.

(** * Properties *)

(** ** Exceptions and the state monad *)

Lemma rbind_ok {A B : Type} (r : result A) (k : A -> result B) (b : B) :
  rbind r k = Ok b -> exists a, r = Ok a /\ k a = Ok b.
Proof.
  destruct r as [a | e]; simpl; intros H; [eauto | discriminate].
Qed.

Lemma bind_ok {A B : Type} (m : M A) (k : A -> M B) (s s' : State) (b : B) :
  bind m k s = (s', Ok b) ->
  exists a s1, m s = (s1, Ok a) /\ k a s1 = (s', Ok b).
Proof.
  unfold bind. destruct (m s) as [s1 [a | e]]; intros H.
  - eauto.
  - inversion H.
Qed.

Lemma lift_ok {A : Type} (r : result A) (s s' : State) (a : A) :
  lift r s = (s', Ok a) -> s' = s /\ r = Ok a.
Proof.
  unfold lift. intros H. inversion H. auto.
Qed.

Lemma read_ok (s s' : State) (m : Manager) :
  read s = (s', Ok m) -> s' = s /\ m = self s.
Proof.
  unfold read. intros H. inversion H. auto.
Qed.

(** Peels one [rbind] or [bind] off a hypothesis that says a computation
    returned. *)
Ltac returned H :=
  match type of H with
  | rbind _ _ = Ok _ =>
      let a := fresh "a" in
      let Ha := fresh "Ha" in
      apply rbind_ok in H; destruct H as (a & Ha & H)
  | bind _ _ _ = (_, Ok _) =>
      let a := fresh "a" in
      let s := fresh "s" in
      let Ha := fresh "Ha" in
      apply bind_ok in H; destruct H as (a & s & Ha & H)
  end.

Lemma mapM_length {A B : Type} (f : A -> result B) (l : list A) (ys : list B) :
  mapM f l = Ok ys -> List.length ys = List.length l.
Proof.
  revert ys. induction l as [| x t IH]; simpl; intros ys H.
  - inversion H. reflexivity.
  - returned H. returned H. inversion H. simpl. f_equal. auto.
Qed.

Lemma mapM_nth {A B : Type} (f : A -> result B) (l : list A) (ys : list B)
    (i : nat) (x : A) :
  mapM f l = Ok ys -> nth_error l i = Some x ->
  exists y, nth_error ys i = Some y /\ f x = Ok y.
Proof.
  revert ys i. induction l as [| h t IH]; simpl; intros ys i H Hi.
  - destruct i; discriminate.
  - returned H. returned H. inversion H; subst. destruct i as [| i]; simpl in *.
    + inversion Hi; subst. eauto.
    + eauto.
Qed.

Lemma mapM_In {A B : Type} (f : A -> result B) (l : list A) (ys : list B) (y : B) :
  mapM f l = Ok ys -> In y ys -> exists x, In x l /\ f x = Ok y.
Proof.
  revert ys. induction l as [| h t IH]; simpl; intros ys H Hy.
  - inversion H; subst. contradiction.
  - returned H. returned H. inversion H; subst. destruct Hy as [-> | Hy].
    + eauto.
    + destruct (IH _ Ha0 Hy) as (x & Hx & Hf). eauto.
Qed.

Lemma mapM_total {A B : Type} (f : A -> result B) (l : list A) :
  Forall (fun x => exists y, f x = Ok y) l -> exists ys, mapM f l = Ok ys.
Proof.
  induction 1 as [| x t (y & Hy) _ (ys & Hys)]; simpl.
  - eauto.
  - rewrite Hy, Hys. simpl. eauto.
Qed.

(** ** Rows *)

Lemma get_set_same (c : string) (v : Cell) (r : Row) : get c (set c v r) = v.
Proof.
  unfold get. induction r as [| [k w] t IH]; simpl.
  - rewrite String.eqb_refl. reflexivity.
  - destruct (String.eqb c k) eqn:E; simpl; rewrite E; auto.
Qed.

Lemma get_set_other (c c' : string) (v : Cell) (r : Row) :
  c <> c' -> get c' (set c v r) = get c' r.
Proof.
  intros Hne. unfold get. induction r as [| [k w] t IH]; simpl.
  - destruct (String.eqb c' c) eqn:E; [| reflexivity].
    apply String.eqb_eq in E. congruence.
  - destruct (String.eqb c k) eqn:E; simpl.
    + apply String.eqb_eq in E; subst k.
      destruct (String.eqb c' c) eqn:E'; [| reflexivity].
      apply String.eqb_eq in E'. congruence.
    + destruct (String.eqb c' k); auto.
Qed.

Lemma mem_In (c : string) (l : list string) : mem c l = true <-> In c l.
Proof.
  unfold mem. rewrite existsb_exists. split.
  - intros (x & Hx & E). apply String.eqb_eq in E. subst. exact Hx.
  - intros H. exists c. split; [exact H | apply String.eqb_refl].
Qed.

Lemma with_range_index_length (rs : list Row) :
  List.length (with_range_index rs) = List.length rs.
Proof.
  unfold with_range_index.
  rewrite length_combine, length_map, length_seq. apply Nat.min_id.
Qed.

Lemma with_range_index_rows (rs : list Row) : map snd (with_range_index rs) = rs.
Proof.
  unfold with_range_index.
  assert (H : forall (l : list Row) (ls : list Cell),
             List.length ls = List.length l -> map snd (combine ls l) = l).
  { induction l as [| x t IH]; intros [| y ys] Hl; simpl in *; try discriminate; auto.
    f_equal. apply IH. lia. }
  apply H. rewrite length_map, length_seq. reflexivity.
Qed.

(** ** Weather aggregator *)

Lemma ceil_div_step (x : nat) :
  (0 < x)%nat -> ((x + 23) / 24 = S ((x - 24 + 23) / 24))%nat.
Proof.
  intros Hx. destruct (Nat.le_gt_cases 24 x) as [Hge | Hlt].
  - replace (x + 23)%nat with ((x - 24 + 23) + 1 * 24)%nat by lia.
    rewrite Nat.div_add by lia. lia.
  - replace (x - 24)%nat with 0%nat by lia.
    rewrite (Nat.div_small (0 + 23) 24) by lia.
    symmetry. apply (Nat.div_unique (x + 23) 24 1 (x - 1)); lia.
Qed.

Lemma range_step_length (fuel i n : nat) :
  (n - i <= fuel)%nat ->
  List.length (range_step fuel i n) = ((n - i + 23) / 24)%nat.
Proof.
  revert i. induction fuel as [| fuel IH]; intros i Hf.
  - replace (n - i)%nat with 0%nat by lia. reflexivity.
  - cbn [range_step]. destruct (Nat.ltb i n) eqn:E.
    + apply Nat.ltb_lt in E. cbn [List.length].
      rewrite IH by (unfold chunk_size; lia).
      unfold chunk_size. rewrite (ceil_div_step (n - i)) by lia.
      do 3 f_equal. lia.
    + apply Nat.ltb_ge in E. replace (n - i)%nat with 0%nat by lia. reflexivity.
Qed.

(** The loop of [load_data] runs once per started block of 24 rows. *)
Lemma chunk_starts_length (n : nat) :
  List.length (chunk_starts n) = ((n + 23) / 24)%nat.
Proof.
  unfold chunk_starts. rewrite range_step_length by lia.
  rewrite Nat.sub_0_r. reflexivity.
Qed.

Lemma range_step_nth (fuel i n k : nat) :
  (n - i <= fuel)%nat -> (i + 24 * k < n)%nat ->
  nth_error (range_step fuel i n) k = Some (i + 24 * k)%nat.
Proof.
  revert i k. induction fuel as [| fuel IH]; intros i k Hf Hk.
  - lia.
  - simpl. assert (E : Nat.ltb i n = true) by (apply Nat.ltb_lt; lia).
    rewrite E. destruct k as [| k]; simpl.
    + f_equal. lia.
    + unfold chunk_size. rewrite IH by lia. f_equal. lia.
Qed.

(** The aggregator emits exactly ceil(N / 24) records. *)
Theorem aggregate_weather_count (weather daily : DataFrame) :
  aggregate_weather weather = Ok daily ->
  nrows daily = ((nrows weather + 23) / 24)%nat.
Proof.
  unfold aggregate_weather. intros H. returned H. inversion H; subst. clear H.
  unfold nrows at 1. simpl. rewrite with_range_index_length.
  rewrite (mapM_length _ _ _ Ha). apply chunk_starts_length.
Qed.

Lemma mapM_cons_ok {A B : Type} (f : A -> result B) (x : A) (t : list A)
    (ys : list B) :
  mapM f (x :: t) = Ok ys ->
  exists y ys', f x = Ok y /\ mapM f t = Ok ys' /\ ys = y :: ys'.
Proof.
  simpl. intros H. destruct (f x) as [y | e]; simpl in H; [| discriminate].
  destruct (mapM f t) as [ys' | e]; simpl in H; [| discriminate].
  inversion H. eauto.
Qed.

Lemma tagged_ok {A : Type} (r : result A) (c : string) (p : string * A) :
  (let? v := r in Ok (c, v)) = Ok p -> exists v, r = Ok v /\ p = (c, v).
Proof.
  destruct r as [v | e]; simpl; intros H; inversion H. eauto.
Qed.

Lemma frame_mean_lookup (cols : list string) (rs : list (Cell * Row)) (r : Row)
    (c : string) (v : Cell) :
  frame_mean cols rs = Ok r -> lookup c r = Some v ->
  column_mean (map (fun x => get c (snd x)) rs) = Ok v.
Proof.
  unfold frame_mean. revert r. induction cols as [| c0 cols IH]; intros r H Hl.
  - inversion H; subst. discriminate.
  - apply mapM_cons_ok in H. destruct H as (p & r' & Hp & Hr' & ->).
    apply tagged_ok in Hp. destruct Hp as (v0 & Hv0 & ->).
    simpl in Hl. destruct (String.eqb c c0) eqn:E.
    + apply String.eqb_eq in E. inversion Hl. subst. exact Hv0.
    + apply (IH r'); assumption.
Qed.

Lemma frame_mean_keys (cols : list string) (rs : list (Cell * Row)) (r : Row) :
  frame_mean cols rs = Ok r -> map fst r = cols.
Proof.
  unfold frame_mean. revert r. induction cols as [| c0 cols IH]; intros r H.
  - inversion H. reflexivity.
  - apply mapM_cons_ok in H. destruct H as (p & r' & Hp & Hr' & ->).
    apply tagged_ok in Hp. destruct Hp as (v0 & Hv0 & ->).
    simpl. f_equal. auto.
Qed.

Lemma lookup_In_keys (c : string) (r : Row) :
  In c (map fst r) -> exists v, lookup c r = Some v.
Proof.
  induction r as [| [k w] t IH]; simpl; intros H.
  - contradiction.
  - destruct (String.eqb c k) eqn:E; [eauto |].
    destruct H as [H | H]; [| auto].
    subst. rewrite String.eqb_refl in E. discriminate.
Qed.

Lemma to_datetime_keeps (x y : Cell) : to_datetime x = Ok y -> y = x.
Proof.
  destruct x; simpl; intros H; inversion H; reflexivity.
Qed.

(** Every field of an aggregated record, its date included, is the mean
    of the field over the block: [to_datetime] leaves the mean timestamp
    as it is. *)
Lemma aggregate_chunk_means (weather : DataFrame) (k : nat) (r : Row) (c : string) :
  aggregate_chunk weather (24 * k) = Ok r ->
  In c (columns weather) ->
  column_mean (block_cells weather k c) = Ok (get c r).
Proof.
  unfold aggregate_chunk. intros H Hc.
  apply rbind_ok in H. destruct H as (chunk_mean & Hmean & H).
  apply rbind_ok in H. destruct H as (d & Hd & H).
  apply rbind_ok in H. destruct H as (d' & Hd' & H).
  inversion H; subst. clear H.
  apply to_datetime_keeps in Hd'. subst d'.
  unfold series_get in Hd.
  destruct (lookup "date" chunk_mean) as [d0 |] eqn:Hd0; [| discriminate].
  inversion Hd; subst. clear Hd.
  destruct (String.eqb "date" c) eqn:E.
  - apply String.eqb_eq in E. subst c. rewrite get_set_same.
    apply (frame_mean_lookup _ _ _ _ _ Hmean Hd0).
  - apply String.eqb_neq in E. rewrite get_set_other by exact E.
    destruct (lookup_In_keys c chunk_mean) as (v & Hv).
    { rewrite (frame_mean_keys _ _ _ Hmean). exact Hc. }
    unfold get. rewrite Hv. apply (frame_mean_lookup _ _ _ _ _ Hmean Hv).
Qed.

Lemma combine_range_nth (r : Row) (l : list Row) (j start : nat) :
  nth_error l j = Some r ->
  nth_error (combine (map range_label (seq start (List.length l))) l) j
  = Some (range_label (start + j), r).
Proof.
  revert j start. induction l as [| x t IH]; intros [| j] start Hj;
    simpl in *; try discriminate.
  - inversion Hj. rewrite Nat.add_0_r. reflexivity.
  - rewrite (IH j (S start) Hj). do 3 f_equal. lia.
Qed.

Lemma with_range_index_nth (rs : list Row) (k : nat) (r : Row) :
  nth_error rs k = Some r ->
  nth_error (with_range_index rs) k = Some (range_label k, r).
Proof.
  intros Hk. unfold with_range_index.
  rewrite (combine_range_nth r rs k 0 Hk). reflexivity.
Qed.

(** Record [k] of the aggregated table is the mean of block [k], field by
    field. *)
Theorem aggregated_record_is_block_mean (weather daily : DataFrame) (k : nat) :
  aggregate_weather weather = Ok daily ->
  (k < nrows daily)%nat ->
  exists r,
    nth_error (rows daily) k = Some (range_label k, r)
    /\ forall c, In c (columns weather) ->
                 column_mean (block_cells weather k c) = Ok (get c r).
Proof.
  intros H Hk. pose proof (aggregate_weather_count _ _ H) as Hn.
  unfold aggregate_weather in H. returned H. inversion H; subst. clear H.
  simpl in *. unfold nrows in Hk. simpl in Hk.
  rewrite with_range_index_length in Hk.
  pose proof (mapM_length _ _ _ Ha) as Hlen. rewrite chunk_starts_length in Hlen.
  assert (Hstart : nth_error (chunk_starts (nrows weather)) k = Some (24 * k)%nat).
  { unfold chunk_starts. rewrite range_step_nth; [reflexivity | lia |].
    rewrite Hlen in Hk.
    assert (Hd : (24 * ((nrows weather + 23) / 24) <= nrows weather + 23)%nat)
      by (apply Nat.Div0.mul_div_le).
    lia. }
  destruct (mapM_nth _ _ _ _ _ Ha Hstart) as (r & Hr & Hagg).
  exists r. split.
  - apply with_range_index_nth. exact Hr.
  - intros c Hc. apply aggregate_chunk_means; assumption.
Qed.

Lemma all_some_map {A B : Type} (f : A -> option B) (g : B -> A) (l : list B) :
  (forall x, f (g x) = Some x) -> all_some f (map g l) = Some l.
Proof.
  intros Hfg. induction l as [| x t IH]; simpl.
  - reflexivity.
  - rewrite Hfg, IH. reflexivity.
Qed.

Lemma dropna_present (l : list Cell) :
  forallb notnull l = true -> dropna l = l.
Proof.
  unfold dropna. induction l as [| x t IH]; simpl; intros H.
  - reflexivity.
  - apply andb_true_iff in H. destruct H as [Hx Ht]. rewrite Hx. f_equal. auto.
Qed.

(** On a block of numbers the mean is the sum over the count; on a block
    of timestamps it is the mean timestamp. *)
Lemma column_mean_numbers (qs : list Q) :
  qs <> [] -> column_mean (map Num qs) = Ok (Num (Qsum qs / Qlen qs)%Q).
Proof.
  intros Hne. unfold column_mean. rewrite dropna_present.
  - rewrite (all_some_map as_num Num) by reflexivity.
    destruct qs; [congruence | reflexivity].
  - apply forallb_forall. intros x Hx. apply in_map_iff in Hx.
    destruct Hx as (q & <- & _). reflexivity.
Qed.

Lemma column_mean_timestamps (ts : list Z) :
  ts <> [] ->
  column_mean (map Time ts)
  = Ok (Time (Z.quot (Zsum ts) (Z.of_nat (List.length ts)))).
Proof.
  intros Hne. unfold column_mean. rewrite dropna_present.
  - destruct ts as [| t ts]; [congruence |].
    simpl. rewrite (all_some_map as_time Time) by reflexivity. reflexivity.
  - apply forallb_forall. intros x Hx. apply in_map_iff in Hx.
    destruct Hx as (q & <- & _). reflexivity.
Qed.

(** C1 (the date of an aggregated record): on one day of hourly readings,
    from 00:00 to 23:00 on 2021-01-01, [load_data]'s loop yields one record
    whose numeric fields are the means of the day and whose date is the
    mean timestamp 2021-01-01 11:30:00, time of day included: the call to
    [to_datetime] does not bring it back to midnight. *)
Theorem aggregated_date_keeps_time_of_day :
  exists daily,
    aggregate_weather one_day_of_weather = Ok daily
    /\ nrows daily = 1%nat
    /\ column "temperature" daily = [Num (240 # 24)]
    /\ column "date" daily = [Time (timestamp 2021 1 1 11 30 0)]
    /\ forallb at_midnight (column "date" daily) = false
    /\ column "date" daily <> [Time (normalize (timestamp 2021 1 1 11 30 0))].
Proof.
  eexists. split; [vm_compute; reflexivity |].
  repeat split; try (vm_compute; reflexivity).
  vm_compute. discriminate.
Qed.

(** ** Keys *)

Lemma cell_eqb_key_eqb (a b : Cell) : cell_eqb a b = true -> key_eqb a b = true.
Proof.
  destruct a, b; simpl; auto.
Qed.

Lemma key_eqb_refl (a : Cell) : key_eqb a a = true.
Proof.
  destruct a; simpl.
  - reflexivity.
  - apply Qeq_bool_iff. reflexivity.
  - apply String.eqb_refl.
  - apply Z.eqb_refl.
Qed.

Lemma key_eqb_sym (a b : Cell) : key_eqb a b = true -> key_eqb b a = true.
Proof.
  destruct a, b; simpl; try discriminate; auto.
  - intros H. apply Qeq_bool_iff in H. apply Qeq_bool_iff. symmetry. exact H.
  - intros H. apply String.eqb_eq in H. subst. apply String.eqb_refl.
  - intros H. apply Z.eqb_eq in H. subst. apply Z.eqb_refl.
Qed.

Lemma key_eqb_trans (a b c : Cell) :
  key_eqb a b = true -> key_eqb b c = true -> key_eqb a c = true.
Proof.
  destruct a, b, c; simpl; try discriminate; auto.
  - intros H1 H2. apply Qeq_bool_iff in H1. apply Qeq_bool_iff in H2.
    apply Qeq_bool_iff. rewrite H1. exact H2.
  - intros H1 H2. apply String.eqb_eq in H1. apply String.eqb_eq in H2.
    subst. apply String.eqb_refl.
  - intros H1 H2. apply Z.eqb_eq in H1. apply Z.eqb_eq in H2.
    subst. apply Z.eqb_refl.
Qed.

Lemma key_eqb_congr (a b c : Cell) :
  key_eqb a b = true -> key_eqb c a = key_eqb c b.
Proof.
  intros Hab. destruct (key_eqb c a) eqn:Ea, (key_eqb c b) eqn:Eb; auto.
  - rewrite (key_eqb_trans c a b Ea Hab) in Eb. discriminate.
  - apply key_eqb_sym in Hab. rewrite (key_eqb_trans c b a Eb Hab) in Ea. discriminate.
Qed.

Lemma key_eqb_notnull (a b : Cell) :
  notnull a = true -> key_eqb a b = cell_eqb a b.
Proof.
  destruct a; simpl; [discriminate | reflexivity ..].
Qed.

Lemma distinct_keys_filter (f : Cell -> bool) (l : list Cell) :
  distinct_keys l = true -> distinct_keys (filter f l) = true.
Proof.
  induction l as [| x t IH]; simpl; intros H.
  - reflexivity.
  - apply andb_true_iff in H. destruct H as [Hx Ht].
    destruct (f x); simpl; [| auto].
    rewrite IH by exact Ht. rewrite andb_true_r.
    apply forallb_forall. intros y Hy. apply filter_In in Hy.
    rewrite forallb_forall in Hx. apply Hx. tauto.
Qed.

Lemma unique_distinct (l : list Cell) : distinct_keys (unique l) = true.
Proof.
  induction l as [| x t IH]; simpl.
  - reflexivity.
  - rewrite distinct_keys_filter by exact IH. rewrite andb_true_r.
    apply forallb_forall. intros y Hy. apply filter_In in Hy. tauto.
Qed.

Lemma unique_In (l : list Cell) (x : Cell) : In x (unique l) -> In x l.
Proof.
  induction l as [| h t IH]; simpl.
  - auto.
  - intros [H | H]; [auto |]. apply filter_In in H. right. tauto.
Qed.

Lemma unique_covers (l : list Cell) (x : Cell) :
  In x l -> exists k, In k (unique l) /\ key_eqb k x = true.
Proof.
  induction l as [| h t IH]; simpl.
  - contradiction.
  - intros [-> | H].
    + exists x. split; [auto | apply key_eqb_refl].
    + destruct (IH H) as (k & Hk & Hkx).
      destruct (key_eqb h k) eqn:E.
      * exists h. split; [auto |]. apply (key_eqb_trans h k x); assumption.
      * exists k. split; [| exact Hkx]. right. apply filter_In. rewrite E. auto.
Qed.

Lemma insert_key_perm (k : Cell) (l : list Cell) :
  Permutation (insert_key k l) (k :: l).
Proof.
  induction l as [| h t IH]; simpl.
  - reflexivity.
  - destruct (cell_leb k h); [reflexivity |].
    rewrite IH. apply perm_swap.
Qed.

Lemma sort_keys_perm (l : list Cell) : Permutation (sort_keys l) l.
Proof.
  unfold sort_keys. induction l as [| h t IH]; simpl.
  - reflexivity.
  - rewrite insert_key_perm. constructor. exact IH.
Qed.

Lemma group_keys_In (ids : list Cell) (k : Cell) :
  In k (group_keys ids) -> In k ids /\ notnull k = true.
Proof.
  unfold group_keys. intros H.
  apply (Permutation_in _ (sort_keys_perm _)) in H.
  apply unique_In in H. unfold dropna in H. apply filter_In in H. exact H.
Qed.

Lemma group_keys_covers (ids : list Cell) (x : Cell) :
  In x ids -> notnull x = true ->
  exists k, In k (group_keys ids) /\ key_eqb k x = true.
Proof.
  intros Hx Hn.
  destruct (unique_covers (dropna ids) x) as (k & Hk & Hkx).
  { unfold dropna. apply filter_In. auto. }
  exists k. split; [| exact Hkx].
  unfold group_keys. apply (Permutation_in _ (Permutation_sym (sort_keys_perm _))).
  exact Hk.
Qed.

Lemma group_keys_length (ids : list Cell) :
  List.length (group_keys ids) = List.length (unique (dropna ids)).
Proof.
  unfold group_keys. apply Permutation_length. apply sort_keys_perm.
Qed.

(** ** Risk scorer *)

Lemma get_column_ok (c : string) (df : DataFrame) :
  has_column c df = true -> get_column c df = Ok (column c df).
Proof.
  unfold get_column. intros ->. reflexivity.
Qed.

Lemma all_some_numeric (cells : list Cell) :
  forallb numeric cells = true ->
  exists qs, all_some as_num (dropna cells) = Some qs
             /\ List.length qs = List.length (dropna cells).
Proof.
  induction cells as [| c t IH]; simpl; intros H.
  - exists []. auto.
  - apply andb_true_iff in H. destruct H as [Hc Ht].
    destruct (IH Ht) as (qs & Hqs & Hlen).
    destruct c; simpl in *; try discriminate.
    + exists qs. auto.
    + rewrite Hqs. exists (q :: qs). simpl. auto.
Qed.

Lemma mean_q_numeric (qs : list Q) : numeric (mean_q qs) = true.
Proof.
  destruct qs; reflexivity.
Qed.

Lemma column_mean_numeric (cells : list Cell) :
  forallb numeric cells = true ->
  exists v, column_mean cells = Ok v /\ numeric v = true.
Proof.
  intros H. destruct (all_some_numeric cells H) as (qs & Hqs & _).
  unfold column_mean. rewrite Hqs. eexists. split; [reflexivity | apply mean_q_numeric].
Qed.

Lemma std_q_numeric (sqrt : Q -> Q) (qs : list Q) : numeric (std_q sqrt qs) = true.
Proof.
  destruct qs as [| a [| b t]]; reflexivity.
Qed.

Lemma column_std_numeric (sqrt : Q -> Q) (cells : list Cell) :
  forallb numeric cells = true ->
  exists v, column_std sqrt cells = Ok v /\ numeric v = true.
Proof.
  intros H. destruct (all_some_numeric cells H) as (qs & Hqs & _).
  unfold column_std. rewrite Hqs. eexists. split; [reflexivity | apply std_q_numeric].
Qed.

Lemma group_values_numeric (key c : string) (df : DataFrame) (k : Cell) :
  forallb numeric (column c df) = true ->
  forallb numeric (group_values key c df k) = true.
Proof.
  unfold column, group_values. rewrite !forallb_forall. intros H x Hx.
  apply in_map_iff in Hx. destruct Hx as (r & <- & Hr). apply filter_In in Hr.
  apply H. apply in_map_iff. exists r. tauto.
Qed.

Lemma arith_numeric (op : Q -> Q -> Q) (a b : Cell) :
  numeric a = true -> numeric b = true ->
  exists v, arith op a b = Ok v /\ numeric v = true.
Proof.
  destruct a, b; simpl; try discriminate; eauto.
Qed.

Lemma risk_score_cell_total (a b c d : Cell) :
  numeric a = true -> numeric b = true -> numeric c = true -> numeric d = true ->
  exists v, risk_score_cell a b c d = Ok v.
Proof.
  intros Ha Hb Hc Hd.
  destruct a; try discriminate Ha; destruct b; try discriminate Hb;
    destruct c; try discriminate Hc; destruct d; try discriminate Hd;
    eexists; reflexivity.
Qed.

(** On numbers the cell expression is the composite score. *)
Lemma risk_score_cell_numbers (ms sv cr mt : Q) :
  risk_score_cell (Num ms) (Num sv) (Num cr) (Num mt)
  = Ok (Num (risk_score ms sv cr mt)).
Proof.
  reflexivity.
Qed.

(** NaN variability makes the score NaN. *)
Lemma risk_score_cell_nan (ms cr mt : Q) :
  risk_score_cell (Num ms) Null (Num cr) (Num mt) = Ok Null.
Proof.
  reflexivity.
Qed.

Lemma has_soil_record_congr (m : Manager) (a b : Cell) :
  key_eqb a b = true -> has_soil_record m a = has_soil_record m b.
Proof.
  intros Hab. unfold has_soil_record.
  induction (rows (soil_data m)) as [| s t IH]; simpl.
  - reflexivity.
  - rewrite IH. rewrite (key_eqb_congr a b _ Hab). reflexivity.
Qed.

Lemma stress_row_ok (sqrt : Q -> Q) (data : DataFrame) (k : Cell) :
  forallb numeric (column "stress_hydrique" data) = true ->
  forallb numeric (column "temperature" data) = true ->
  exists a b d,
    stress_row sqrt data k
    = Ok (k, [("mean_stress", a); ("stress_variability", b); ("mean_temperature", d)])
    /\ column_mean (group_values "parcelle_id" "stress_hydrique" data k) = Ok a
    /\ column_std sqrt (group_values "parcelle_id" "stress_hydrique" data k) = Ok b
    /\ column_mean (group_values "parcelle_id" "temperature" data k) = Ok d
    /\ numeric a = true /\ numeric b = true /\ numeric d = true.
Proof.
  intros Hs Ht. unfold stress_row.
  destruct (column_mean_numeric _ (group_values_numeric "parcelle_id" _ data k Hs))
    as (a & Ha & Hna).
  destruct (column_std_numeric sqrt _ (group_values_numeric "parcelle_id" _ data k Hs))
    as (b & Hb & Hnb).
  destruct (column_mean_numeric _ (group_values_numeric "parcelle_id" _ data k Ht))
    as (d & Hd & Hnd).
  exists a, b, d. rewrite Ha, Hb, Hd. simpl. repeat split; auto.
Qed.

Lemma mapM_In_source {A B : Type} (f : A -> result B) (l : list A) (ys : list B) (x : A) :
  mapM f l = Ok ys -> In x l -> exists y, In y ys /\ f x = Ok y.
Proof.
  revert ys. induction l as [| h t IH]; intros ys H Hx.
  - contradiction.
  - apply mapM_cons_ok in H. destruct H as (y & ys' & Hy & Hys & ->).
    destruct Hx as [-> | Hx].
    + exists y. simpl. auto.
    + destruct (IH _ Hys Hx) as (y' & Hy' & Hf). exists y'. simpl. auto.
Qed.

Lemma mapM_map {A B C : Type} (f : A -> result B) (g : B -> C) (h : A -> C)
    (l : list A) (ys : list B) :
  (forall x y, f x = Ok y -> g y = h x) ->
  mapM f l = Ok ys -> map g ys = map h l.
Proof.
  intros Hgh. revert ys. induction l as [| x t IH]; intros ys H.
  - inversion H. reflexivity.
  - apply mapM_cons_ok in H. destruct H as (y & ys' & Hy & Hys & ->).
    simpl. f_equal; auto.
Qed.

Lemma stress_row_inv (sqrt : Q -> Q) (data : DataFrame) (k : Cell) (r : Cell * Row) :
  stress_row sqrt data k = Ok r ->
  exists a b d,
    r = (k, [("mean_stress", a); ("stress_variability", b); ("mean_temperature", d)])
    /\ column_mean (group_values "parcelle_id" "stress_hydrique" data k) = Ok a
    /\ column_std sqrt (group_values "parcelle_id" "stress_hydrique" data k) = Ok b
    /\ column_mean (group_values "parcelle_id" "temperature" data k) = Ok d.
Proof.
  unfold stress_row. intros H.
  apply rbind_ok in H. destruct H as (a & Ha & H).
  apply rbind_ok in H. destruct H as (b & Hb & H).
  apply rbind_ok in H. destruct H as (d & Hd & H).
  inversion H. exists a, b, d. auto.
Qed.

Lemma existsb_false_filter {A : Type} (f : A -> bool) (l : list A) :
  existsb f l = false -> filter f l = [].
Proof.
  induction l as [| x t IH]; simpl; intros H.
  - reflexivity.
  - apply orb_false_iff in H. destruct H as [-> Ht]. auto.
Qed.

Lemma filter_nonempty_existsb {A : Type} (f : A -> bool) (l : list A) :
  existsb f l = true -> filter f l <> [].
Proof.
  induction l as [| x t IH]; simpl; intros H.
  - discriminate.
  - destruct (f x); [discriminate | auto].
Qed.

(** The rows a parcel gets from the join with the soil table. *)
Lemma join_retention_inv (soil : DataFrame) (r j : Cell * Row) :
  In j (join_retention soil r) ->
  (existsb (fun s => key_eqb (get "parcelle_id" (snd s)) (fst r)) (rows soil) = false
   /\ j = (fst r, snd r ++ [("capacite_retention_eau", Null)]))
  \/ (exists s, In s (rows soil)
               /\ key_eqb (get "parcelle_id" (snd s)) (fst r) = true
               /\ j = (fst r, snd r ++ [("capacite_retention_eau",
                                          get "capacite_retention_eau" (snd s))])).
Proof.
  unfold join_retention.
  destruct (filter (fun s => key_eqb (get "parcelle_id" (snd s)) (fst r)) (rows soil))
    as [| s0 ms] eqn:E.
  - intros [<- | []]. left. split; [| reflexivity].
    destruct (existsb _ (rows soil)) eqn:Ex; [| reflexivity].
    apply filter_nonempty_existsb in Ex. congruence.
  - intros Hj. apply in_map_iff in Hj. destruct Hj as (s & <- & Hs).
    rewrite <- E in Hs. apply filter_In in Hs. right. exists s. tauto.
Qed.

Lemma join_retention_nonempty (soil : DataFrame) (r : Cell * Row) :
  exists j, In j (join_retention soil r).
Proof.
  unfold join_retention.
  destruct (filter _ (rows soil)) as [| s0 ms]; simpl; eauto.
Qed.

Lemma filter_distinct_le1 {A : Type} (key : A -> Cell) (k : Cell) (l : list A) :
  distinct_keys (map key l) = true ->
  (List.length (filter (fun s => key_eqb (key s) k) l) <= 1)%nat.
Proof.
  induction l as [| x t IH]; simpl; intros H.
  - lia.
  - apply andb_true_iff in H. destruct H as [Hx Ht].
    destruct (key_eqb (key x) k) eqn:E; [| auto].
    rewrite (existsb_false_filter _ t); [simpl; lia |].
    destruct (existsb _ t) eqn:Ex; [| reflexivity].
    apply existsb_exists in Ex. destruct Ex as (y & Hy & Eyk).
    rewrite forallb_forall in Hx.
    assert (Hneg : negb (key_eqb (key x) (key y)) = true)
      by (apply Hx; apply in_map; exact Hy).
    apply key_eqb_sym in Eyk.
    rewrite (key_eqb_trans _ _ _ E Eyk) in Hneg. discriminate.
Qed.

Lemma join_retention_single (soil : DataFrame) (r : Cell * Row) :
  distinct_keys (column "parcelle_id" soil) = true ->
  map fst (join_retention soil r) = [fst r].
Proof.
  intros Hd. unfold join_retention.
  pose proof (filter_distinct_le1 (fun s => get "parcelle_id" (snd s)) (fst r)
                                  (rows soil) Hd) as Hle.
  destruct (filter _ (rows soil)) as [| s0 [| s1 ms]]; simpl in *;
    [reflexivity | reflexivity | lia].
Qed.

Lemma with_risk_score_inv (j r : Cell * Row) :
  with_risk_score j = Ok r ->
  exists score,
    r = (fst j, snd j ++ [("risk_score", score)])
    /\ risk_score_cell (get "mean_stress" (snd j)) (get "stress_variability" (snd j))
                       (get "capacite_retention_eau" (snd j))
                       (get "mean_temperature" (snd j)) = Ok score.
Proof.
  unfold with_risk_score. intros H.
  apply rbind_ok in H. destruct H as (score & Hs & H). inversion H. eauto.
Qed.

(** The body of [calculate_risk_metrics] once its columns are found. *)
Lemma risk_metrics_unfold (sqrt : Q -> Q) (m : Manager) (data : DataFrame) :
  risk_input_typed m data = true ->
  calculate_risk_metrics sqrt m data
  = if missing_measure data then Raise (ValueError msg_missing_values)
    else if missing_soil_value m then Raise (ValueError msg_missing_soil)
    else
      let? stress_metrics :=
        mapM (stress_row sqrt data) (group_keys (column "parcelle_id" data)) in
      let joined := flat_map (join_retention (soil_data m)) stress_metrics in
      if existsb (fun r => isnull (get "capacite_retention_eau" (snd r))) joined
      then Raise (ValueError msg_missing_retention)
      else
        let? scored := mapM with_risk_score joined in
        Ok {| index_name := Some "parcelle_id";
              columns := ["mean_stress"; "stress_variability"; "mean_temperature";
                          "capacite_retention_eau"; "risk_score"];
              rows := scored |}.
Proof.
  unfold risk_input_typed. intros H.
  repeat (apply andb_true_iff in H; destruct H as [H ?]).
  unfold calculate_risk_metrics, missing_measure, missing_soil_value.
  repeat (rewrite get_column_ok by assumption; cbn [rbind]).
  reflexivity.
Qed.

Lemma typed_stress (m : Manager) (data : DataFrame) :
  risk_input_typed m data = true ->
  forallb numeric (column "stress_hydrique" data) = true
  /\ forallb numeric (column "temperature" data) = true
  /\ forallb numeric (column "capacite_retention_eau" (soil_data m)) = true.
Proof.
  unfold risk_input_typed. intros H.
  repeat (apply andb_true_iff in H; destruct H as [H ?]). auto.
Qed.

Lemma stress_metrics_total (sqrt : Q -> Q) (m : Manager) (data : DataFrame)
    (keys : list Cell) :
  risk_input_typed m data = true ->
  exists metrics, mapM (stress_row sqrt data) keys = Ok metrics.
Proof.
  intros Ht. destruct (typed_stress _ _ Ht) as (Hs & Htm & _).
  apply mapM_total. apply Forall_forall. intros k _.
  destruct (stress_row_ok sqrt data k Hs Htm) as (a & b & d & H & _). eauto.
Qed.

(** Every row the risk scorer returns: the statistics of one parcel, the
    retention of one of its soil records, and the score of those four. *)
Lemma risk_metrics_rows (sqrt : Q -> Q) (m : Manager) (data out : DataFrame) :
  risk_input_typed m data = true ->
  calculate_risk_metrics sqrt m data = Ok out ->
  missing_measure data = false
  /\ missing_soil_value m = false
  /\ forall r, In r (rows out) ->
       exists k a b d s score,
         In k (group_keys (column "parcelle_id" data))
         /\ In s (rows (soil_data m))
         /\ key_eqb (get "parcelle_id" (snd s)) k = true
         /\ r = (k, [("mean_stress", a); ("stress_variability", b);
                     ("mean_temperature", d);
                     ("capacite_retention_eau", get "capacite_retention_eau" (snd s));
                     ("risk_score", score)])
         /\ column_mean (group_values "parcelle_id" "stress_hydrique" data k) = Ok a
         /\ column_std sqrt (group_values "parcelle_id" "stress_hydrique" data k) = Ok b
         /\ column_mean (group_values "parcelle_id" "temperature" data k) = Ok d
         /\ risk_score_cell a b (get "capacite_retention_eau" (snd s)) d = Ok score.
Proof.
  intros Ht H. rewrite (risk_metrics_unfold sqrt m data Ht) in H.
  destruct (missing_measure data); [discriminate |].
  destruct (missing_soil_value m); [discriminate |].
  apply rbind_ok in H. destruct H as (metrics & Hmetrics & H). cbv zeta in H.
  destruct (existsb _ (flat_map _ metrics)) eqn:Hnull; [discriminate |].
  apply rbind_ok in H. destruct H as (scored & Hscored & H).
  inversion H; subst out; clear H. simpl.
  split; [reflexivity |]. split; [reflexivity |].
  intros r Hr.
  destruct (mapM_In _ _ _ _ Hscored Hr) as (j & Hj & Hjr).
  apply in_flat_map in Hj. destruct Hj as (r0 & Hr0 & Hj).
  destruct (mapM_In _ _ _ _ Hmetrics Hr0) as (k & Hk & Hkr).
  apply stress_row_inv in Hkr. destruct Hkr as (a & b & d & -> & Ha & Hb & Hd).
  apply with_risk_score_inv in Hjr. destruct Hjr as (score & -> & Hscore).
  pose proof Hj as Hin.
  apply join_retention_inv in Hj. simpl in Hj.
  destruct Hj as [(_ & ->) | (s & Hs & Hsk & ->)].
  - exfalso.
    assert (Hex : existsb (fun r => isnull (get "capacite_retention_eau" (snd r)))
                          (flat_map (join_retention (soil_data m)) metrics) = true).
    { apply existsb_exists. eexists. split.
      - apply in_flat_map. eexists. split; [exact Hr0 | exact Hin].
      - reflexivity. }
    rewrite Hex in Hnull. discriminate.
  - exists k, a, b, d, s, score. simpl in Hscore. simpl.
    repeat split; auto.
Qed.

Lemma column_In (c : string) (df : DataFrame) (r : Cell * Row) :
  In r (rows df) -> In (get c (snd r)) (column c df).
Proof.
  intros H. unfold column. apply in_map_iff. exists r. auto.
Qed.

Lemma existsb_app_false {A : Type} (f : A -> bool) (l1 l2 : list A) :
  existsb f (l1 ++ l2) = false -> existsb f l1 = false /\ existsb f l2 = false.
Proof.
  rewrite existsb_app. apply orb_false_iff.
Qed.

Lemma existsb_false_In {A : Type} (f : A -> bool) (l : list A) (x : A) :
  existsb f l = false -> In x l -> f x = false.
Proof.
  intros H Hx. destruct (f x) eqn:E; [| reflexivity].
  assert (existsb f l = true) by (apply existsb_exists; eauto). congruence.
Qed.

(** A parcel of the input without soil record makes the join leave a
    null retention. *)
Lemma joined_null_iff (sqrt : Q -> Q) (m : Manager) (data : DataFrame)
    (metrics : list (Cell * Row)) :
  mapM (stress_row sqrt data) (group_keys (column "parcelle_id" data)) = Ok metrics ->
  existsb isnull (column "capacite_retention_eau" (soil_data m)) = false ->
  existsb (fun r => isnull (get "capacite_retention_eau" (snd r)))
          (flat_map (join_retention (soil_data m)) metrics)
  = parcel_without_soil m data.
Proof.
  intros Hmetrics Hret.
  destruct (parcel_without_soil m data) eqn:Hp.
  - unfold parcel_without_soil in Hp. apply existsb_exists in Hp.
    destruct Hp as (id & Hid & Hc). apply andb_true_iff in Hc. destruct Hc as [Hn Hs].
    destruct (group_keys_covers _ id Hid Hn) as (k & Hk & Hkid).
    rewrite <- (has_soil_record_congr m k id Hkid) in Hs.
    destruct (mapM_In_source _ _ _ _ Hmetrics Hk) as (r & Hr & Hkr).
    apply stress_row_inv in Hkr. destruct Hkr as (a & b & d & -> & _).
    apply existsb_exists.
    exists (k, [("mean_stress", a); ("stress_variability", b); ("mean_temperature", d)]
                 ++ [("capacite_retention_eau", Null)]).
    split; [| reflexivity].
    apply in_flat_map. eexists. split; [exact Hr |].
    unfold join_retention. simpl. unfold has_soil_record in Hs.
    apply negb_true_iff in Hs. rewrite (existsb_false_filter _ _ Hs). left. reflexivity.
  - destruct (existsb _ (flat_map _ metrics)) eqn:Hex; [| reflexivity].
    exfalso. apply existsb_exists in Hex. destruct Hex as (j & Hj & Hnull).
    apply in_flat_map in Hj. destruct Hj as (r & Hr & Hj).
    destruct (mapM_In _ _ _ _ Hmetrics Hr) as (k & Hk & Hkr).
    apply stress_row_inv in Hkr. destruct Hkr as (a & b & d & -> & _).
    apply join_retention_inv in Hj. simpl in Hj.
    destruct Hj as [(Hnone & ->) | (s & Hs & Hsk & ->)].
    + apply group_keys_In in Hk. destruct Hk as [Hk Hn].
      pose proof (existsb_false_In _ _ k Hp Hk) as Hc. simpl in Hc.
      rewrite Hn in Hc. unfold has_soil_record in Hc. rewrite Hnone in Hc.
      discriminate.
    + pose proof (existsb_false_In _ _ _ Hret
                    (column_In "capacite_retention_eau" _ _ Hs)) as Hc.
      change (isnull (get "capacite_retention_eau" (snd s)) = true) in Hnull.
      congruence.
Qed.

Lemma forallb_In {A : Type} (f : A -> bool) (l : list A) (x : A) :
  forallb f l = true -> In x l -> f x = true.
Proof.
  intros H Hx. rewrite forallb_forall in H. auto.
Qed.

Lemma with_risk_score_joined (k a b d c : Cell) :
  with_risk_score (k, [("mean_stress", a); ("stress_variability", b);
                       ("mean_temperature", d); ("capacite_retention_eau", c)])
  = let? score := risk_score_cell a b c d in
    Ok (k, [("mean_stress", a); ("stress_variability", b); ("mean_temperature", d);
            ("capacite_retention_eau", c); ("risk_score", score)]).
Proof.
  reflexivity.
Qed.

(** With typed inputs the risk scorer raises exactly on its three
    validations, each time a ValueError with its own message. *)
Lemma risk_metrics_outcome (sqrt : Q -> Q) (m : Manager) (data : DataFrame) :
  risk_input_typed m data = true ->
  (missing_measure data = true
   /\ calculate_risk_metrics sqrt m data = Raise (ValueError msg_missing_values))
  \/ (missing_measure data = false /\ missing_soil_value m = true
      /\ calculate_risk_metrics sqrt m data = Raise (ValueError msg_missing_soil))
  \/ (missing_measure data = false /\ missing_soil_value m = false
      /\ parcel_without_soil m data = true
      /\ calculate_risk_metrics sqrt m data = Raise (ValueError msg_missing_retention))
  \/ (missing_measure data = false /\ missing_soil_value m = false
      /\ parcel_without_soil m data = false
      /\ exists out, calculate_risk_metrics sqrt m data = Ok out).
Proof.
  intros Ht. rewrite (risk_metrics_unfold sqrt m data Ht).
  destruct (missing_measure data) eqn:Hm; [left; auto |]. right.
  destruct (missing_soil_value m) eqn:Hs; [left; auto |]. right.
  destruct (stress_metrics_total sqrt m data (group_keys (column "parcelle_id" data)) Ht)
    as (metrics & Hmetrics).
  rewrite Hmetrics. cbn [rbind]. cbv zeta.
  unfold missing_soil_value in Hs. apply existsb_app_false in Hs.
  destruct Hs as [_ Hret].
  rewrite (joined_null_iff sqrt m data metrics Hmetrics Hret).
  destruct (parcel_without_soil m data) eqn:Hp; [left; auto |]. right.
  repeat split; try reflexivity.
  destruct (typed_stress _ _ Ht) as (Hst & Htm & Hsoil).
  destruct (mapM_total with_risk_score
              (flat_map (join_retention (soil_data m)) metrics)) as (scored & Hscored).
  { apply Forall_forall. intros j Hj.
    apply in_flat_map in Hj. destruct Hj as (r & Hr & Hj).
    destruct (mapM_In _ _ _ _ Hmetrics Hr) as (k & Hk & Hkr).
    destruct (stress_row_ok sqrt data k Hst Htm)
      as (a & b & d & Hrow & _ & _ & _ & Hna & Hnb & Hnd).
    rewrite Hrow in Hkr. inversion Hkr; subst r. clear Hkr.
    apply join_retention_inv in Hj. simpl in Hj.
    destruct Hj as [(_ & ->) | (s & Hs & _ & ->)];
      cbn [app fst snd]; rewrite with_risk_score_joined.
    - destruct (risk_score_cell_total a b Null d Hna Hnb eq_refl Hnd) as (v & Hv).
      rewrite Hv. simpl. eauto.
    - pose proof (forallb_In _ _ _ Hsoil (column_In "capacite_retention_eau" _ _ Hs))
        as Hnc.
      destruct (risk_score_cell_total a b _ d Hna Hnb Hnc Hnd) as (v & Hv).
      rewrite Hv. simpl. eauto. }
  rewrite Hscored. simpl. eauto.
Qed.

(** With one soil record per parcel the result has one row per distinct
    parcel of the input, in the order of the sorted ids. *)
Lemma risk_metrics_index (sqrt : Q -> Q) (m : Manager) (data out : DataFrame) :
  risk_input_typed m data = true ->
  calculate_risk_metrics sqrt m data = Ok out ->
  distinct_keys (column "parcelle_id" (soil_data m)) = true ->
  index out = group_keys (column "parcelle_id" data).
Proof.
  intros Ht H Hd. rewrite (risk_metrics_unfold sqrt m data Ht) in H.
  destruct (missing_measure data); [discriminate |].
  destruct (missing_soil_value m); [discriminate |].
  apply rbind_ok in H. destruct H as (metrics & Hmetrics & H). cbv zeta in H.
  destruct (existsb _ (flat_map _ metrics)); [discriminate |].
  apply rbind_ok in H. destruct H as (scored & Hscored & H).
  inversion H; subst out; clear H. unfold index. simpl.
  rewrite (mapM_map with_risk_score fst fst _ _) with (2 := Hscored).
  2:{ intros j r Hjr. apply with_risk_score_inv in Hjr.
      destruct Hjr as (score & -> & _). reflexivity. }
  assert (Hkeys : map fst metrics = group_keys (column "parcelle_id" data)).
  { rewrite (mapM_map (stress_row sqrt data) fst (fun k => k) _ _) with (2 := Hmetrics).
    - apply map_id.
    - intros k r Hkr. apply stress_row_inv in Hkr.
      destruct Hkr as (a & b & d & -> & _). reflexivity. }
  rewrite <- Hkeys. clear Hmetrics Hscored Hkeys.
  induction metrics as [| r t IH]; simpl.
  - reflexivity.
  - rewrite map_app, IH, (join_retention_single _ r Hd). reflexivity.
Qed.

Lemma risk_metrics_covers (sqrt : Q -> Q) (m : Manager) (data out : DataFrame) (k : Cell) :
  risk_input_typed m data = true ->
  calculate_risk_metrics sqrt m data = Ok out ->
  In k (group_keys (column "parcelle_id" data)) ->
  exists r, In r (rows out) /\ fst r = k.
Proof.
  intros Ht H Hk. rewrite (risk_metrics_unfold sqrt m data Ht) in H.
  destruct (missing_measure data); [discriminate |].
  destruct (missing_soil_value m); [discriminate |].
  apply rbind_ok in H. destruct H as (metrics & Hmetrics & H). cbv zeta in H.
  destruct (existsb _ (flat_map _ metrics)); [discriminate |].
  apply rbind_ok in H. destruct H as (scored & Hscored & H).
  inversion H; subst out; clear H. simpl.
  destruct (mapM_In_source _ _ _ _ Hmetrics Hk) as (r0 & Hr0 & Hkr).
  apply stress_row_inv in Hkr. destruct Hkr as (a & b & d & -> & _).
  destruct (join_retention_nonempty (soil_data m)
              (k, [("mean_stress", a); ("stress_variability", b);
                   ("mean_temperature", d)])) as (j & Hj).
  assert (Hfst : fst j = k).
  { apply join_retention_inv in Hj. destruct Hj as [(_ & ->) | (s & _ & _ & ->)];
      reflexivity. }
  assert (Hjoined : In j (flat_map (join_retention (soil_data m)) metrics)).
  { apply in_flat_map. eexists. split; [exact Hr0 | exact Hj]. }
  destruct (mapM_In_source _ _ _ _ Hscored Hjoined) as (r & Hr & Hjr).
  apply with_risk_score_inv in Hjr. destruct Hjr as (score & -> & _).
  eexists. split; [exact Hr | exact Hfst].
Qed.

Lemma all_numbers (l : list Cell) :
  forallb numeric l = true -> existsb isnull l = false ->
  exists qs, l = map Num qs.
Proof.
  induction l as [| c t IH]; simpl; intros Hn Hz.
  - exists []. reflexivity.
  - apply andb_true_iff in Hn. destruct Hn as [Hc Ht].
    apply orb_false_iff in Hz. destruct Hz as [Hz Hzt].
    destruct (IH Ht Hzt) as (qs & ->).
    destruct c; try discriminate. exists (q :: qs). reflexivity.
Qed.

Lemma group_values_present (key c : string) (df : DataFrame) (k : Cell) :
  existsb isnull (column c df) = false ->
  existsb isnull (group_values key c df k) = false.
Proof.
  intros H. destruct (existsb isnull (group_values key c df k)) eqn:E; [| reflexivity].
  apply existsb_exists in E. destruct E as (x & Hx & Hnull).
  unfold group_values in Hx. apply in_map_iff in Hx. destruct Hx as (r & <- & Hr).
  apply filter_In in Hr. destruct Hr as [Hr _].
  rewrite (existsb_false_In _ _ _ H (column_In c df r Hr)) in Hnull. discriminate.
Qed.

Lemma group_values_length (c : string) (data : DataFrame) (k : Cell) :
  List.length (group_values "parcelle_id" c data k) = List.length (parcel_rows data k).
Proof.
  unfold group_values, parcel_rows. apply length_map.
Qed.

Lemma column_std_numbers (sqrt : Q -> Q) (qs : list Q) :
  column_std sqrt (map Num qs) = Ok (std_q sqrt qs).
Proof.
  unfold column_std. rewrite dropna_present.
  - rewrite (all_some_map as_num Num) by reflexivity. reflexivity.
  - apply forallb_forall. intros x Hx. apply in_map_iff in Hx.
    destruct Hx as (q & <- & _). reflexivity.
Qed.

Lemma numeric_present (c : Cell) :
  numeric c = true -> isnull c = false -> exists q, c = Num q.
Proof.
  destruct c; simpl; try discriminate; eauto.
Qed.

(** C5, as amended: with the columns it reads holding floats,
    [calculate_risk_metrics] raises if and only if some [stress_hydrique] or
    [temperature] value is null, or some soil record lacks its
    [parcelle_id] or its [capacite_retention_eau], or a parcel of the input
    has no soil record; what it raises is a ValueError with a message; when
    it returns and the soil table has one record per parcel, the result has
    exactly one row per distinct [parcelle_id] of the input. *)
Theorem risk_metrics_raise_iff (sqrt : Q -> Q) (m : Manager) (data : DataFrame) :
  risk_input_typed m data = true ->
  is_ok (calculate_risk_metrics sqrt m data)
  = negb (missing_measure data || missing_soil_value m || parcel_without_soil m data)
  /\ (forall e, calculate_risk_metrics sqrt m data = Raise e ->
                e = ValueError msg_missing_values
                \/ e = ValueError msg_missing_soil
                \/ e = ValueError msg_missing_retention)
  /\ (forall out, calculate_risk_metrics sqrt m data = Ok out ->
                  distinct_keys (column "parcelle_id" (soil_data m)) = true ->
                  index out = group_keys (column "parcelle_id" data)
                  /\ nrows out
                     = List.length (unique (dropna (column "parcelle_id" data)))).
Proof.
  intros Ht. split; [| split].
  - destruct (risk_metrics_outcome sqrt m data Ht)
      as [(-> & ->) | [(-> & -> & ->) | [(-> & -> & -> & ->) | (-> & -> & -> & out & ->)]]];
      reflexivity.
  - intros e He.
    destruct (risk_metrics_outcome sqrt m data Ht)
      as [(_ & H) | [(_ & _ & H) | [(_ & _ & _ & H) | (_ & _ & _ & out & H)]]];
      rewrite H in He; inversion He; auto.
  - intros out Hout Hd.
    pose proof (risk_metrics_index sqrt m data out Ht Hout Hd) as Hi.
    split; [exact Hi |].
    unfold nrows. rewrite <- group_keys_length, <- Hi. unfold index.
    symmetry. apply length_map.
Qed.

(** C5, as stated, fails: no measure is null, no soil record lacks its
    retention capacity and every parcel of the input has a soil record, yet
    the soil record without [parcelle_id] makes the scorer raise. *)
Lemma risk_metrics_raise_on_anonymous_soil_record :
  missing_measure sample_stress = false
  /\ existsb isnull (column "capacite_retention_eau" anonymous_retention) = false
  /\ parcel_without_soil (manager_with_soil anonymous_retention) sample_stress = false
  /\ calculate_risk_metrics no_sqrt (manager_with_soil anonymous_retention) sample_stress
     = Raise (ValueError msg_missing_soil).
Proof.
  repeat split; vm_compute; reflexivity.
Qed.

Lemma risk_metrics_raise_iff_witness :
  risk_input_typed (manager_with_soil sample_retention) sample_stress = true
  /\ is_ok (calculate_risk_metrics no_sqrt (manager_with_soil sample_retention)
                                   sample_stress) = true.
Proof.
  split; [reflexivity |].
  destruct (risk_metrics_raise_iff no_sqrt (manager_with_soil sample_retention)
                                   sample_stress eq_refl) as (H & _).
  rewrite H. reflexivity.
Defined.

(** C10, as amended: on float columns, when no measure is null, no soil
    record lacks its [parcelle_id] or its [capacite_retention_eau] and
    every parcel of the input has a soil record, [calculate_risk_metrics]
    does not raise; every parcel of the input has a row; a parcel with
    exactly one input row has a null [stress_variability] (the sample
    standard deviation of one value) and hence a null [risk_score], while
    a parcel with two rows or more has a numeric score. *)
Theorem single_row_parcel_has_null_score (sqrt : Q -> Q) (m : Manager)
    (data : DataFrame) :
  risk_input_typed m data = true ->
  missing_measure data = false ->
  missing_soil_value m = false ->
  parcel_without_soil m data = false ->
  exists out,
    calculate_risk_metrics sqrt m data = Ok out
    /\ (forall id, In id (column "parcelle_id" data) -> notnull id = true ->
                   exists r, In r (rows out) /\ key_eqb (fst r) id = true)
    /\ (forall r, In r (rows out) ->
          (List.length (parcel_rows data (fst r)) = 1%nat ->
           get "stress_variability" (snd r) = Null
           /\ get "risk_score" (snd r) = Null)
          /\ ((2 <= List.length (parcel_rows data (fst r)))%nat ->
              exists q, get "risk_score" (snd r) = Num q)).
Proof.
  intros Ht Hm Hs Hp.
  destruct (risk_metrics_outcome sqrt m data Ht)
    as [(H & _) | [(_ & H & _) | [(_ & _ & H & _) | (_ & _ & _ & out & Hout)]]];
    try congruence.
  exists out. split; [exact Hout |]. split.
  - intros id Hid Hn.
    destruct (group_keys_covers _ id Hid Hn) as (k & Hk & Hkid).
    destruct (risk_metrics_covers sqrt m data out k Ht Hout Hk) as (r & Hr & <-).
    eauto.
  - intros r Hr.
    destruct (risk_metrics_rows sqrt m data out Ht Hout) as (_ & _ & Hrows).
    destruct (Hrows r Hr)
      as (k & a & b & d & s & score & Hk & Hsoil & _ & -> & Ha & Hb & Hd & Hscore).
    destruct (typed_stress _ _ Ht) as (Hst & Htm & Hret).
    unfold missing_measure in Hm. apply existsb_app_false in Hm.
    destruct Hm as [Hm1 Hm2].
    unfold missing_soil_value in Hs. apply existsb_app_false in Hs.
    destruct Hs as [_ Hs2].
    destruct (all_numbers _ (group_values_numeric "parcelle_id" _ data k Hst)
                          (group_values_present "parcelle_id" _ data k Hm1))
      as (xs & Hxs).
    destruct (all_numbers _ (group_values_numeric "parcelle_id" _ data k Htm)
                          (group_values_present "parcelle_id" _ data k Hm2))
      as (ts & Hts).
    destruct (numeric_present _
                (forallb_In _ _ _ Hret (column_In "capacite_retention_eau" _ _ Hsoil))
                (existsb_false_In _ _ _ Hs2
                   (column_In "capacite_retention_eau" _ _ Hsoil)))
      as (c & Hc).
    assert (Hlx : List.length xs = List.length (parcel_rows data k)).
    { rewrite <- (group_values_length "stress_hydrique"), Hxs. symmetry.
      apply length_map. }
    assert (Hlt : List.length ts = List.length (parcel_rows data k)).
    { rewrite <- (group_values_length "temperature"), Hts. symmetry.
      apply length_map. }
    rewrite Hxs in Ha, Hb. rewrite Hts in Hd. rewrite Hc in Hscore.
    rewrite column_std_numbers in Hb. inversion Hb; subst b. clear Hb.
    cbn [fst snd]. split.
    + intros H1. rewrite H1 in Hlx, Hlt.
      destruct xs as [| x [| x' xs]]; try discriminate.
      destruct ts as [| t [| t' ts]]; try discriminate.
      rewrite column_mean_numbers in Ha, Hd by discriminate.
      inversion Ha; subst a. inversion Hd; subst d.
      simpl in Hscore. inversion Hscore. split; reflexivity.
    + intros H2. rewrite <- Hlx in H2.
      destruct xs as [| x [| x' xs]]; simpl in H2; try lia.
      destruct ts as [| t ts]; [simpl in Hlt, Hlx; lia |].
      rewrite column_mean_numbers in Ha, Hd by discriminate.
      inversion Ha; subst a. inversion Hd; subst d.
      cbn [std_q] in Hscore. rewrite risk_score_cell_numbers in Hscore.
      inversion Hscore. eexists. reflexivity.
Qed.

(** C10, as stated, fails: parcel P1 has exactly one row, no measure is
    null, every soil record has its retention capacity and every parcel of
    the input its soil record; the scorer raises all the same, on the soil
    record that has no [parcelle_id]. *)
Lemma single_row_parcel_raises_on_anonymous_soil_record :
  List.length (parcel_rows sample_stress (Str "P1")) = 1%nat
  /\ missing_measure sample_stress = false
  /\ existsb isnull (column "capacite_retention_eau" anonymous_retention) = false
  /\ parcel_without_soil (manager_with_soil anonymous_retention) sample_stress = false
  /\ (forall sqrt : Q -> Q,
         calculate_risk_metrics sqrt (manager_with_soil anonymous_retention) sample_stress
         = Raise (ValueError msg_missing_soil)).
Proof.
  split; [reflexivity |]. split; [reflexivity |]. split; [reflexivity |].
  split; [reflexivity |]. intros sqrt. reflexivity.
Qed.

Lemma single_row_parcel_has_null_score_witness :
  exists out,
    calculate_risk_metrics no_sqrt (manager_with_soil sample_retention) sample_stress
    = Ok out
    /\ map isnull (column "risk_score" out) = [true; false].
Proof.
  destruct (single_row_parcel_has_null_score
              no_sqrt (manager_with_soil sample_retention) sample_stress
              eq_refl eq_refl eq_refl eq_refl) as (out & Hout & _).
  exists out. split; [exact Hout |].
  vm_compute in Hout. inversion Hout. reflexivity.
Defined.

(** ** The composite score and rounding *)


Lemma pow2_add (a b : Z) : (pow2 (a + b) == pow2 a * pow2 b)%Q.
Proof. apply Qpower_plus. discriminate. Qed.




Lemma pow2_cancel (a : Z) : (pow2 a * pow2 (- a) == 1)%Q.
Proof. rewrite <- pow2_add. replace (a + - a) with 0 by lia. reflexivity. Qed.



















(** ** Temporal consistency check *)






(** ** Pattern analyzer *)

Lemma insert_row_length (r : Cell * Row) (l : list (Cell * Row)) :
  List.length (insert_row r l) = S (List.length l).
Proof.
  induction l as [| h t IH]; simpl.
  - reflexivity.
  - destruct (cell_leb (fst r) (fst h)); simpl; auto.
Qed.

Lemma sort_rows_length (l : list (Cell * Row)) :
  List.length (sort_rows l) = List.length l.
Proof.
  unfold sort_rows. induction l as [| h t IH]; simpl.
  - reflexivity.
  - rewrite insert_row_length. auto.
Qed.

Lemma insert_row_perm (r : Cell * Row) (l : list (Cell * Row)) :
  Permutation (insert_row r l) (r :: l).
Proof.
  induction l as [| h t IH]; simpl.
  - reflexivity.
  - destruct (cell_leb (fst r) (fst h)); [reflexivity |].
    rewrite IH. apply perm_swap.
Qed.

Lemma sort_rows_perm (l : list (Cell * Row)) : Permutation (sort_rows l) l.
Proof.
  unfold sort_rows. induction l as [| h t IH]; simpl.
  - reflexivity.
  - rewrite insert_row_perm. constructor. exact IH.
Qed.

Lemma all_some_is_num (l : list Cell) :
  forallb is_num l = true ->
  exists qs, all_some as_num l = Some qs /\ List.length qs = List.length l.
Proof.
  induction l as [| c t IH]; simpl; intros H.
  - exists []. auto.
  - apply andb_true_iff in H. destruct H as [Hc Ht].
    destruct (IH Ht) as (qs & -> & Hlen).
    destruct c; try discriminate. exists (q :: qs). simpl. auto.
Qed.

Lemma convolution_filter_length (x filt : list Q) :
  List.length (convolution_filter x filt) = List.length x.
Proof.
  unfold convolution_filter. rewrite length_map, length_seq. reflexivity.
Qed.

(** The four components of a decomposition have the length of the series. *)
Lemma seasonal_decompose_lengths (x : list Cell) (period : nat) (d : DecomposeResult) :
  seasonal_decompose x period = Ok d ->
  List.length (trend d) = List.length x
  /\ List.length (seasonal d) = List.length x
  /\ List.length (resid d) = List.length x
  /\ List.length (observed d) = List.length x.
Proof.
  unfold seasonal_decompose.
  destruct (existsb _ x); [discriminate |].
  destruct (all_some as_num x) as [xs |] eqn:Hxs; [| discriminate].
  destruct (Nat.ltb (List.length xs) (2 * period)); [discriminate |].
  intros H. inversion H; subst d; clear H. cbn [trend seasonal resid observed].
  assert (Hlen : List.length xs = List.length x).
  { clear -Hxs. revert xs Hxs. induction x as [| c t IH]; simpl; intros xs H.
    - inversion H. reflexivity.
    - destruct (as_num c); [| discriminate].
      destruct (all_some as_num t); [| discriminate].
      inversion H. simpl. f_equal. auto. }
  rewrite !length_map, !length_combine, !length_map, !length_combine,
    !length_seq, !convolution_filter_length, !Nat.min_id, Hlen.
  auto.
Qed.

Lemma seasonal_decompose_outcome (x : list Cell) :
  forallb is_num x = true ->
  ((List.length x < 2)%nat ->
   seasonal_decompose x 1 = Raise (ValueError (msg_two_cycles 1 (List.length x))))
  /\ ((2 <= List.length x)%nat -> exists d, seasonal_decompose x 1 = Ok d).
Proof.
  intros H. unfold seasonal_decompose.
  assert (Hk : existsb (fun c => match c with Str _ | Time _ => true | _ => false end) x
               = false).
  { clear -H. induction x as [| c t IH]; simpl in *; [reflexivity |].
    apply andb_true_iff in H. destruct H as [Hc Ht].
    destruct c; try discriminate. simpl. auto. }
  rewrite Hk. destruct (all_some_is_num x H) as (xs & -> & Hlen). rewrite Hlen.
  split; intros Hn.
  - assert (E : Nat.ltb (List.length x) (2 * 1) = true) by (apply Nat.ltb_lt; lia).
    rewrite E. reflexivity.
  - assert (E : Nat.ltb (List.length x) (2 * 1) = false) by (apply Nat.ltb_ge; lia).
    rewrite E. eauto.
Qed.

Lemma yields_of_records_numeric (m : Manager) (parcelle_id : string) :
  forallb is_num (column "rendement_final" (yield_history m)) = true ->
  forallb is_num
    (map (fun r => get "rendement_final" (snd r))
         (sort_rows (yield_records m parcelle_id))) = true.
Proof.
  intros H. apply forallb_forall. intros c Hc.
  apply in_map_iff in Hc. destruct Hc as (r & <- & Hr).
  apply (Permutation_in _ (sort_rows_perm _)) in Hr.
  unfold yield_records in Hr. apply filter_In in Hr. destruct Hr as [Hr _].
  apply (forallb_In _ _ _ H). apply column_In. exact Hr.
Qed.

(** After [load_data] no yield is missing: a missing [rendement_final] has
    become 0. *)
Lemma load_data_fills_missing_yields (monitoring weather soil yields : DataFrame)
    (m : Manager) :
  load_data monitoring weather soil yields = Ok m ->
  existsb isnull (column "rendement_final" (yield_history m)) = false.
Proof.
  unfold load_data. intros H.
  apply rbind_ok in H. destruct H as (yields' & Hy & H).
  apply rbind_ok in H. destruct H as (weather' & _ & H).
  inversion H; subst m; clear H. cbn [yield_history].
  unfold fillna_column in Hy. destruct (has_column _ yields); [| discriminate].
  inversion Hy; subst yields'; clear Hy. unfold column. cbn [rows].
  rewrite map_map. cbn [snd].
  induction (rows yields) as [| r t IH]; simpl; [reflexivity |].
  rewrite get_set_same, IH. destruct (get "rendement_final" (snd r)); reflexivity.
Qed.

(** C8: [analyze_yield_patterns] raises the ValueError "Aucune donnée de
    rendement ..." for a parcel without yield record, fails (a ValueError
    of the decomposition, which wants two observations for period 1) for
    a parcel with exactly one, and for a parcel with two records or more
    returns the columns trend, seasonal, resid and observed, each of the
    length of the parcel's yield history. *)
Theorem analyze_yield_patterns_by_history_length (m : Manager) (parcelle_id : string) :
  yield_history_typed m = true ->
  (List.length (yield_records m parcelle_id) = 0%nat ->
   analyze_yield_patterns m parcelle_id = Raise (ValueError (msg_no_yield parcelle_id)))
  /\ (List.length (yield_records m parcelle_id) = 1%nat ->
      analyze_yield_patterns m parcelle_id
      = Raise (ValueError "x must have 2 complete cycles requires 2 observations. x only has 1 observation(s)"))
  /\ ((2 <= List.length (yield_records m parcelle_id))%nat ->
      exists out,
        analyze_yield_patterns m parcelle_id = Ok out
        /\ columns out = ["trend"; "seasonal"; "resid"; "observed"]
        /\ nrows out = List.length (yield_records m parcelle_id)
        /\ forall c, List.length (column c out)
                     = List.length (yield_records m parcelle_id)).
Proof.
  unfold yield_history_typed. intros Ht.
  apply andb_true_iff in Ht. destruct Ht as [Ht Hnum].
  apply andb_true_iff in Ht. destruct Ht as [Hid Hcol].
  pose proof (yields_of_records_numeric m parcelle_id Hnum) as Hys.
  assert (Hlen : List.length (map (fun r => get "rendement_final" (snd r))
                                  (sort_rows (yield_records m parcelle_id)))
                 = List.length (yield_records m parcelle_id)).
  { rewrite length_map. apply sort_rows_length. }
  destruct (seasonal_decompose_outcome _ Hys) as (Hshort & Hlong).
  rewrite Hlen in Hshort, Hlong.
  unfold analyze_yield_patterns. rewrite (get_column_ok _ _ Hid). cbn [rbind rows].
  fold (yield_records m parcelle_id).
  destruct (yield_records m parcelle_id) as [| r0 rs] eqn:Hrec.
  - split; [reflexivity |]. split; simpl; intros; [discriminate | lia].
  - unfold get_column, has_column, sort_index. cbn [columns rows index_name].
    unfold has_column in Hcol. rewrite Hcol. cbn [rbind]. unfold column. cbn [rows].
    split; [discriminate |]. split.
    + intros H1. rewrite (Hshort ltac:(lia)), H1. reflexivity.
    + intros H2. destruct (Hlong H2) as (d & Hd). rewrite Hd. cbn [rbind].
      destruct (seasonal_decompose_lengths _ _ _ Hd) as (L1 & L2 & L3 & L4).
      rewrite Hlen in L1, L2, L3, L4.
      eexists. split; [reflexivity |]. split; [reflexivity |].
      assert (Hn : forall A (f : _ -> A),
                 List.length
                   (map f (combine (index {| index_name := index_name (yield_history m);
                                             columns := columns (yield_history m);
                                             rows := sort_rows (r0 :: rs) |})
                                   (combine (combine (trend d) (seasonal d))
                                            (combine (resid d) (observed d)))))
                 = List.length (r0 :: rs)).
      { intros A f. unfold index. cbn [rows].
        rewrite length_map, !length_combine, length_map, sort_rows_length,
          L1, L2, L3, L4, !Nat.min_id. reflexivity. }
      split.
      * unfold nrows. cbn [rows]. apply Hn.
      * intros c. unfold column. cbn [rows]. rewrite length_map. apply Hn.
Qed.

Lemma analyze_yield_patterns_by_history_length_witness :
  analyze_yield_patterns yield_manager "P9" = Raise (ValueError (msg_no_yield "P9"))
  /\ analyze_yield_patterns yield_manager "P3"
     = Raise (ValueError "x must have 2 complete cycles requires 2 observations. x only has 1 observation(s)")
  /\ exists out, analyze_yield_patterns yield_manager "P1" = Ok out /\ nrows out = 2%nat.
Proof.
  destruct (analyze_yield_patterns_by_history_length yield_manager "P9" eq_refl)
    as (H0 & _).
  destruct (analyze_yield_patterns_by_history_length yield_manager "P3" eq_refl)
    as (_ & H1 & _).
  destruct (analyze_yield_patterns_by_history_length yield_manager "P1" eq_refl)
    as (_ & _ & H2).
  split; [apply H0; reflexivity |]. split; [apply H1; reflexivity |].
  destruct (H2 ltac:(vm_compute; lia)) as (out & Hout & _ & Hn & _).
  exists out. split; [exact Hout | exact Hn].
Defined.

(** ** Gap filler *)

Lemma bfill_length (l : list Cell) : List.length (bfill l) = List.length l.
Proof.
  induction l as [| x t IH]; simpl.
  - reflexivity.
  - destruct x; simpl; rewrite IH; reflexivity.
Qed.

Lemma ffill_from_length (last : Cell) (l : list Cell) :
  List.length (ffill_from last l) = List.length l.
Proof.
  revert last. induction l as [| x t IH]; intros last; simpl.
  - reflexivity.
  - destruct x; simpl; rewrite IH; reflexivity.
Qed.

Lemma carry_fill_length (l vs : list Cell) :
  carry_fill l = Ok vs -> List.length vs = List.length l.
Proof.
  unfold carry_fill, ffill. intros H. inversion H.
  rewrite ffill_from_length, bfill_length. reflexivity.
Qed.

Lemma interpolate_from_length (prev : option (nat * Q)) (l : list Cell) :
  List.length (interpolate_from prev l) = List.length l.
Proof.
  revert prev. induction l as [| x t IH]; intros prev; simpl.
  - reflexivity.
  - destruct x; simpl; rewrite IH; reflexivity.
Qed.

Lemma interpolate_linear_length (l vs : list Cell) :
  interpolate_linear l = Ok vs -> List.length vs = List.length l.
Proof.
  unfold interpolate_linear. destruct (existsb _ l); intros H; inversion H.
  apply interpolate_from_length.
Qed.

Lemma map_nth_seq (vs : list Cell) (n : nat) :
  map (fun i => nth i vs Null) (seq n (List.length vs - n)) = skipn n vs.
Proof.
  revert n. induction vs as [| v t IH]; intros n.
  - destruct n; reflexivity.
  - destruct n as [| n].
    + simpl. f_equal. rewrite <- seq_shift, map_map.
      specialize (IH 0%nat). rewrite Nat.sub_0_r in IH. simpl in IH. exact IH.
    + simpl. rewrite <- (IH n). rewrite <- seq_shift, map_map. reflexivity.
Qed.

Lemma cell_eqb_congr (x p q : Cell) :
  key_eqb p q = true -> cell_eqb x p = cell_eqb x q.
Proof.
  intros Hpq.
  destruct x, p, q; simpl in *; try discriminate; try reflexivity.
  - exact (key_eqb_congr (Num _) (Num _) (Num _) Hpq).
  - exact (key_eqb_congr (Str _) (Str _) (Str _) Hpq).
  - exact (key_eqb_congr (Time _) (Time _) (Time _) Hpq).
Qed.

Lemma cell_eqb_both (x p q : Cell) :
  cell_eqb x p = true -> cell_eqb x q = true -> key_eqb p q = true.
Proof.
  intros Hp Hq. apply cell_eqb_key_eqb in Hp. apply cell_eqb_key_eqb in Hq.
  apply key_eqb_sym in Hp. apply (key_eqb_trans p x q); assumption.
Qed.

Lemma assign_cells_get_other (filled : list (string * list Cell)) (j : nat) (r : Row)
    (c : string) :
  ~ In c (map fst filled) -> get c (assign_cells filled j r) = get c r.
Proof.
  unfold assign_cells. revert r. induction filled as [| [c0 v0] t IH]; intros r Hc.
  - reflexivity.
  - simpl in *. rewrite IH by tauto. apply get_set_other. tauto.
Qed.

Lemma assign_cells_get (filled : list (string * list Cell)) (j : nat) (r : Row)
    (c : string) (vs : list Cell) :
  NoDup (map fst filled) -> In (c, vs) filled ->
  get c (assign_cells filled j r) = nth j vs Null.
Proof.
  unfold assign_cells. revert r. induction filled as [| [c0 v0] t IH]; intros r Hnd Hin.
  - contradiction.
  - simpl in *. inversion Hnd as [| ? ? Hnot Hnd']; subst.
    destruct Hin as [Heq | Hin].
    + inversion Heq; subst.
      change (fold_left _ t ?x) with (assign_cells t j x).
      rewrite assign_cells_get_other by exact Hnot. apply get_set_same.
    + apply IH; assumption.
Qed.

(** What the masked assignment does to the rows, one by one. *)
Lemma assign_masked_rows (p : Cell) (filled : list (string * list Cell)) (j : nat)
    (rs : list (Cell * Row)) :
  Forall2 (fun r r' =>
             fst r' = fst r
             /\ (in_parcel p r = false -> r' = r)
             /\ forall c, ~ In c (map fst filled) -> get c (snd r') = get c (snd r))
          rs (assign_masked p filled j rs).
Proof.
  revert j. induction rs as [| r t IH]; intros j; simpl.
  - constructor.
  - destruct (in_parcel p r) eqn:E; constructor; auto.
    + simpl. split; [reflexivity |]. split; [intros; congruence |].
      intros c Hc. apply assign_cells_get_other. exact Hc.
Qed.

Lemma assign_masked_length (p : Cell) (filled : list (string * list Cell)) (j : nat)
    (rs : list (Cell * Row)) :
  List.length (assign_masked p filled j rs) = List.length rs.
Proof.
  symmetry. apply (Forall2_length (assign_masked_rows p filled j rs)).
Qed.

Lemma assign_masked_mask (p q : Cell) (filled : list (string * list Cell)) (j : nat)
    (rs : list (Cell * Row)) :
  ~ In "parcelle_id" (map fst filled) ->
  map (in_parcel q) (assign_masked p filled j rs) = map (in_parcel q) rs.
Proof.
  intros Hid. revert j. induction rs as [| r t IH]; intros j; simpl.
  - reflexivity.
  - destruct (in_parcel p r); simpl; rewrite IH; [| reflexivity].
    f_equal. unfold in_parcel. simpl. rewrite assign_cells_get_other by exact Hid.
    reflexivity.
Qed.

(** The parcel's slice of an assigned column is the assigned values. *)
Lemma assign_masked_slice (p : Cell) (filled : list (string * list Cell)) (j : nat)
    (rs : list (Cell * Row)) (c : string) (vs : list Cell) :
  ~ In "parcelle_id" (map fst filled) ->
  NoDup (map fst filled) -> In (c, vs) filled ->
  map (fun r => get c (snd r)) (filter (in_parcel p) (assign_masked p filled j rs))
  = map (fun i => nth i vs Null) (seq j (List.length (filter (in_parcel p) rs))).
Proof.
  intros Hid Hnd Hin. revert j. induction rs as [| r t IH]; intros j; simpl.
  - reflexivity.
  - destruct (in_parcel p r) eqn:E; simpl.
    + assert (E' : in_parcel p (fst r, assign_cells filled j (snd r)) = true).
      { unfold in_parcel in *. simpl.
        rewrite assign_cells_get_other by exact Hid. exact E. }
      rewrite E'. simpl. rewrite IH. f_equal.
      apply assign_cells_get; assumption.
    + rewrite E. apply IH.
Qed.

(** Rows of another parcel, and columns that are not assigned, keep their
    slice. *)
Lemma assign_masked_other_parcel (p q : Cell) (filled : list (string * list Cell))
    (j : nat) (rs : list (Cell * Row)) :
  ~ In "parcelle_id" (map fst filled) ->
  key_eqb p q = false ->
  filter (in_parcel q) (assign_masked p filled j rs) = filter (in_parcel q) rs.
Proof.
  intros Hid Hpq. revert j. induction rs as [| r t IH]; intros j; simpl.
  - reflexivity.
  - destruct (in_parcel p r) eqn:Ep; simpl.
    + assert (Eq : in_parcel q r = false).
      { destruct (in_parcel q r) eqn:Eq; [| reflexivity].
        unfold in_parcel in *. rewrite (cell_eqb_both _ _ _ Ep Eq) in Hpq.
        discriminate. }
      rewrite Eq.
      assert (Eq' : in_parcel q (fst r, assign_cells filled j (snd r)) = false).
      { unfold in_parcel in *. simpl.
        rewrite assign_cells_get_other by exact Hid. exact Eq. }
      rewrite Eq'. apply IH.
    + destruct (in_parcel q r); [f_equal |]; apply IH.
Qed.

Lemma assign_masked_other_column (p q : Cell) (filled : list (string * list Cell))
    (j : nat) (rs : list (Cell * Row)) (c : string) :
  ~ In "parcelle_id" (map fst filled) ->
  ~ In c (map fst filled) ->
  map (fun r => get c (snd r)) (filter (in_parcel q) (assign_masked p filled j rs))
  = map (fun r => get c (snd r)) (filter (in_parcel q) rs).
Proof.
  intros Hid Hc. revert j. induction rs as [| r t IH]; intros j; simpl.
  - reflexivity.
  - destruct (in_parcel p r) eqn:Ep; simpl.
    + assert (Eq : in_parcel q (fst r, assign_cells filled j (snd r)) = in_parcel q r).
      { unfold in_parcel. simpl. rewrite assign_cells_get_other by exact Hid.
        reflexivity. }
      rewrite Eq. destruct (in_parcel q r); simpl; rewrite IH; [| reflexivity].
      f_equal. apply assign_cells_get_other. exact Hc.
    + destruct (in_parcel q r); simpl; rewrite IH; reflexivity.
Qed.

Lemma parcel_slice_congr (p q : Cell) (c : string) (df : DataFrame) :
  key_eqb p q = true -> parcel_slice p c df = parcel_slice q c df.
Proof.
  intros Hpq. unfold parcel_slice. f_equal. apply filter_ext.
  intros r. unfold in_parcel. apply cell_eqb_congr. exact Hpq.
Qed.

Lemma filled_columns {A : Type} (g : string -> result A) (cols : list string)
    (filled : list (string * A)) :
  mapM (fun c => let? vs := g c in Ok (c, vs)) cols = Ok filled ->
  map fst filled = cols
  /\ (forall c vs, In (c, vs) filled -> g c = Ok vs)
  /\ (forall c, In c cols -> exists vs, In (c, vs) filled).
Proof.
  revert filled. induction cols as [| c0 cols IH]; intros filled H.
  - inversion H. repeat split; simpl; intros; contradiction.
  - apply mapM_cons_ok in H. destruct H as (p & t & Hp & Ht & ->).
    apply tagged_ok in Hp. destruct Hp as (v0 & Hv0 & ->).
    destruct (IH _ Ht) as (Hk & Hv & Hex). repeat split.
    + simpl. f_equal. exact Hk.
    + intros c vs [Heq | Hin]; [inversion Heq; subst; exact Hv0 | eauto].
    + intros c [-> | Hin]; [exists v0; left; reflexivity |].
      destruct (Hex c Hin) as (vs & Hvs). exists vs. right. exact Hvs.
Qed.

Lemma transform_parcel_inv (f : list Cell -> result (list Cell)) (cols : list string)
    (df df' : DataFrame) (p : Cell) :
  transform_parcel f cols df p = Ok df' ->
  exists filled,
    mapM (fun c => let? vs := f (parcel_slice p c df) in Ok (c, vs)) cols = Ok filled
    /\ df' = {| index_name := index_name df;
                columns := columns df;
                rows := assign_masked p filled 0 (rows df) |}.
Proof.
  unfold transform_parcel. destruct (find _ cols); [discriminate |].
  intros H. apply rbind_ok in H. destruct H as (filled & Hf & H).
  inversion H. exists filled. split; [exact Hf | reflexivity].
Qed.

Section PerParcel.

(** A transformation of a slice that keeps its length, applied to
    columns that do not include the parcel id. *)
Variable f : list Cell -> result (list Cell).
Variable cols : list string.
Hypothesis f_length : forall l vs, f l = Ok vs -> List.length vs = List.length l.
Hypothesis cols_distinct : NoDup cols.
Hypothesis cols_not_id : ~ In "parcelle_id" cols.

(** One turn of the loop transforms the slices of its parcel and of no
    other. *)
Lemma transform_parcel_slices (df df' : DataFrame) (p : Cell) :
  transform_parcel f cols df p = Ok df' ->
  (forall c, In c cols -> f (parcel_slice p c df) = Ok (parcel_slice p c df'))
  /\ (forall q c, key_eqb p q = false -> parcel_slice q c df' = parcel_slice q c df)
  /\ (forall q c, ~ In c cols -> parcel_slice q c df' = parcel_slice q c df)
  /\ nrows df' = nrows df
  /\ index df' = index df
  /\ columns df' = columns df
  /\ index_name df' = index_name df.
Proof.
  intros H. apply transform_parcel_inv in H. destruct H as (filled & Hf & ->).
  destruct (filled_columns _ _ _ Hf) as (Hk & Hv & Hex).
  assert (Hid : ~ In "parcelle_id" (map fst filled)) by (rewrite Hk; exact cols_not_id).
  assert (Hnd : NoDup (map fst filled)) by (rewrite Hk; exact cols_distinct).
  repeat split.
  - intros c Hc. destruct (Hex c Hc) as (vs & Hvs).
    rewrite (Hv c vs Hvs). f_equal. unfold parcel_slice at 1. cbn [rows].
    rewrite (assign_masked_slice p filled 0 (rows df) c vs Hid Hnd Hvs).
    pose proof (f_length _ _ (Hv c vs Hvs)) as Hlen.
    unfold parcel_slice in Hlen. rewrite length_map in Hlen. rewrite <- Hlen.
    pose proof (map_nth_seq vs 0) as Hs. rewrite Nat.sub_0_r in Hs.
    symmetry. exact Hs.
  - intros q c Hpq. unfold parcel_slice. cbn [rows].
    rewrite (assign_masked_other_parcel p q filled 0 (rows df) Hid Hpq). reflexivity.
  - intros q c Hc. unfold parcel_slice. cbn [rows].
    apply assign_masked_other_column; [exact Hid | rewrite Hk; exact Hc].
  - unfold nrows. cbn [rows]. apply assign_masked_length.
  - unfold index. cbn [rows].
    pose proof (assign_masked_rows p filled 0 (rows df)) as HF.
    induction HF as [| r r' t t' (Hfst & _) _ IH]; simpl; [reflexivity |].
    rewrite Hfst, IH. reflexivity.
Qed.

Lemma distinct_keys_no_other (q p : Cell) (ps : list Cell) :
  forallb (fun y => negb (key_eqb q y)) ps = true ->
  key_eqb p q = true ->
  existsb (key_eqb p) ps = false.
Proof.
  intros Hd Hpq. destruct (existsb (key_eqb p) ps) eqn:E; [| reflexivity].
  apply existsb_exists in E. destruct E as (y & Hy & Hpy).
  pose proof (forallb_In _ _ _ Hd Hy) as Hn. simpl in Hn.
  apply key_eqb_sym in Hpq. rewrite (key_eqb_trans q p y Hpq Hpy) in Hn.
  discriminate.
Qed.

(** The whole loop, over distinct parcel keys: a parcel that is among
    them has each listed column of its slice transformed once; the
    slices of any other parcel stay. *)
Lemma for_each_parcel_slices (ps : list Cell) (df df' : DataFrame) (p : Cell)
    (c : string) :
  distinct_keys ps = true ->
  for_each_parcel (transform_parcel f cols) df ps = Ok df' ->
  In c cols ->
  (existsb (key_eqb p) ps = false -> parcel_slice p c df' = parcel_slice p c df)
  /\ (existsb (key_eqb p) ps = true ->
      f (parcel_slice p c df) = Ok (parcel_slice p c df')).
Proof.
  intros Hd H Hc. revert df Hd H.
  induction ps as [| q ps IH]; intros df Hd H; simpl in *.
  - inversion H; subst. split; [reflexivity | discriminate].
  - apply andb_true_iff in Hd. destruct Hd as [Hq Hd].
    apply rbind_ok in H. destruct H as (df1 & H1 & H).
    destruct (transform_parcel_slices _ _ _ H1) as (Hown & Hother & _).
    destruct (IH df1 Hd H) as (IHno & IHyes).
    destruct (key_eqb p q) eqn:Epq; simpl.
    + split; [discriminate |]. intros _.
      rewrite (IHno (distinct_keys_no_other q p ps Hq Epq)).
      rewrite (parcel_slice_congr p q c df Epq), (parcel_slice_congr p q c df1 Epq).
      apply Hown. exact Hc.
    + assert (Eqp : key_eqb q p = false).
      { destruct (key_eqb q p) eqn:E; [| reflexivity].
        apply key_eqb_sym in E. congruence. }
      rewrite <- (Hother p c Eqp). split; assumption.
Qed.

Lemma for_each_parcel_frame (ps : list Cell) (df df' : DataFrame) :
  for_each_parcel (transform_parcel f cols) df ps = Ok df' ->
  nrows df' = nrows df
  /\ index df' = index df
  /\ columns df' = columns df
  /\ index_name df' = index_name df
  /\ forall q c, ~ In c cols -> parcel_slice q c df' = parcel_slice q c df.
Proof.
  revert df. induction ps as [| q ps IH]; intros df H; simpl in H.
  - inversion H; subst. repeat split.
  - apply rbind_ok in H. destruct H as (df1 & H1 & H).
    destruct (transform_parcel_slices _ _ _ H1) as (_ & _ & Hc & Hn & Hi & Hcols & Hname).
    destruct (IH df1 H) as (Hn' & Hi' & Hcols' & Hname' & Hc').
    repeat split; try congruence.
    intros q0 c Hnc. rewrite Hc' by exact Hnc. apply Hc. exact Hnc.
Qed.

End PerParcel.

Lemma columns_to_fill_distinct : NoDup columns_to_fill.
Proof.
  unfold columns_to_fill.
  repeat (constructor; [simpl; intuition discriminate |]). constructor.
Qed.

Lemma columns_to_fill_not_id : ~ In "parcelle_id" columns_to_fill.
Proof.
  simpl. intuition discriminate.
Qed.

Lemma columns_to_interpolate_distinct : NoDup columns_to_interpolate.
Proof.
  unfold columns_to_interpolate.
  repeat (constructor; [simpl; intuition discriminate |]). constructor.
Qed.

Lemma columns_to_interpolate_not_id : ~ In "parcelle_id" columns_to_interpolate.
Proof.
  simpl. intuition discriminate.
Qed.

(** A parcel that has rows is one of the parcels the loop visits. *)
Lemma parcel_is_visited (p : Cell) (c : string) (df : DataFrame) :
  parcel_slice p c df <> [] ->
  existsb (key_eqb p) (unique (column "parcelle_id" df)) = true.
Proof.
  unfold parcel_slice. intros Hne.
  destruct (filter (in_parcel p) (rows df)) as [| r t] eqn:E; [contradiction |].
  assert (Hr : In r (filter (in_parcel p) (rows df))) by (rewrite E; left; reflexivity).
  apply filter_In in Hr. destruct Hr as [Hr Hp]. unfold in_parcel in Hp.
  destruct (unique_covers _ _ (column_In "parcelle_id" df r Hr)) as (k & Hk & Hkx).
  apply existsb_exists. exists k. split; [exact Hk |].
  apply cell_eqb_key_eqb in Hp. apply key_eqb_sym.
  apply (key_eqb_trans k _ p Hkx Hp).
Qed.

(** The gap filler works parcel by parcel: in the result, the slice of a
    carry-fill column for a parcel is the backward then forward fill of
    that slice alone. *)
Theorem fill_gaps_per_parcel (features features' : DataFrame) (p : Cell) (c : string) :
  fill_gaps features = Ok features' ->
  In c columns_to_fill ->
  parcel_slice p c features' = ffill (bfill (parcel_slice p c features)).
Proof.
  unfold fill_gaps. intros H Hc.
  apply rbind_ok in H. destruct H as (ids & Hids & H).
  unfold get_column in Hids. destruct (has_column "parcelle_id" features); [| discriminate].
  inversion Hids; subst ids. clear Hids.
  destruct (for_each_parcel_slices carry_fill columns_to_fill carry_fill_length
              columns_to_fill_distinct columns_to_fill_not_id
              _ _ _ p c (unique_distinct _) H Hc) as (Hno & Hyes).
  destruct (existsb (key_eqb p) (unique (column "parcelle_id" features))) eqn:E.
  - specialize (Hyes eq_refl). unfold carry_fill in Hyes. inversion Hyes. reflexivity.
  - rewrite (Hno eq_refl).
    destruct (parcel_slice p c features) as [| x t] eqn:Es; [reflexivity |].
    assert (Hv : existsb (key_eqb p) (unique (column "parcelle_id" features)) = true).
    { apply (parcel_is_visited p c). rewrite Es. discriminate. }
    congruence.
Qed.

Lemma bfill_nulls (k : nat) : bfill (repeat Null k) = repeat Null k.
Proof.
  induction k as [| k IH]; simpl.
  - reflexivity.
  - rewrite IH. destruct k; reflexivity.
Qed.

Lemma ffill_from_nulls (v : Cell) (k : nat) :
  ffill_from v (repeat Null k) = repeat v k.
Proof.
  induction k as [| k IH]; simpl.
  - reflexivity.
  - rewrite IH. reflexivity.
Qed.

(** C3, as amended: in a slice of a carry-fill column whose first ten
    rows have valid values at positions 2, 5 and 9 only, and whose rows
    beyond 9, if any, are null, the gap filler gives positions 0 to 1 the
    value at 2, positions 3 to 4 the value at 5 (the next valid value,
    carried backward), positions 6 to 8 the value at 9, and every position
    beyond 9 the value at 9. *)
Theorem gap_filler_takes_next_valid_value (features features' : DataFrame)
    (p : Cell) (c : string) (v2 v5 v9 : Cell) (beyond : nat) :
  fill_gaps features = Ok features' ->
  In c columns_to_fill ->
  notnull v2 = true -> notnull v5 = true -> notnull v9 = true ->
  parcel_slice p c features
  = [Null; Null; v2; Null; Null; v5; Null; Null; Null; v9] ++ repeat Null beyond ->
  parcel_slice p c features'
  = [v2; v2; v2; v5; v5; v5; v9; v9; v9; v9] ++ repeat v9 beyond.
Proof.
  intros H Hc H2 H5 H9 Hs.
  rewrite (fill_gaps_per_parcel _ _ p c H Hc), Hs.
  unfold ffill.
  destruct v2; try discriminate; destruct v5; try discriminate;
    destruct v9; try discriminate;
    cbn [app bfill hd ffill_from]; rewrite bfill_nulls;
    cbn [hd ffill_from]; rewrite ffill_from_nulls; reflexivity.
Qed.

(** C3, as stated, fails: on a parcel whose temperature is known at
    positions 2, 5 and 9 (12, 15 and 19), positions 3 to 4 take 15, the
    value at 5, and not 12, the value at 2; positions 6 to 8 take 19 and
    not 15. *)
Lemma gap_filler_does_not_repeat_previous_value :
  exists features',
    fill_gaps gappy_features = Ok features'
    /\ parcel_slice (Str "P1") "temperature" gappy_features
       = [Null; Null; Num 12; Null; Null; Num 15; Null; Null; Null; Num 19]
    /\ nth 3 (parcel_slice (Str "P1") "temperature" features') Null = Num 15
    /\ nth 3 (parcel_slice (Str "P1") "temperature" features') Null
       <> nth 2 (parcel_slice (Str "P1") "temperature" gappy_features) Null
    /\ nth 6 (parcel_slice (Str "P1") "temperature" features') Null
       <> nth 5 (parcel_slice (Str "P1") "temperature" gappy_features) Null.
Proof.
  eexists. split; [vm_compute; reflexivity |].
  repeat split; try (vm_compute; reflexivity); vm_compute; discriminate.
Qed.

Lemma gap_filler_takes_next_valid_value_witness :
  exists features',
    fill_gaps gappy_features = Ok features'
    /\ parcel_slice (Str "P1") "temperature" features'
       = [Num 12; Num 12; Num 12; Num 15; Num 15; Num 15; Num 19; Num 19; Num 19; Num 19].
Proof.
  assert (H : exists features', fill_gaps gappy_features = Ok features').
  { eexists. vm_compute. reflexivity. }
  destruct H as (features' & H). exists features'. split; [exact H |].
  apply (gap_filler_takes_next_valid_value gappy_features features' (Str "P1")
           "temperature" (Num 12) (Num 15) (Num 19) 0 H).
  - simpl. auto.
  - reflexivity.
  - reflexivity.
  - reflexivity.
  - reflexivity.
Defined.

(** ** Feature preparation *)

Lemma mem_remove_names (c : string) (l : list string) :
  mem c (remove_names [c] l) = false.
Proof.
  unfold remove_names. induction l as [| k t IH]; simpl.
  - reflexivity.
  - destruct (String.eqb k c) eqn:E; simpl.
    + exact IH.
    + rewrite String.eqb_sym, E. exact IH.
Qed.

Lemma set_index_inv (c : string) (df df' : DataFrame) :
  set_index c df = Ok df' ->
  has_column c df = true
  /\ has_column c df' = false
  /\ nrows df' = nrows df
  /\ index_name df' = Some c
  /\ index df' = column c df.
Proof.
  unfold set_index. destruct (has_column c df) eqn:E; [| discriminate].
  intros H. inversion H; subst df'; clear H. repeat split.
  - unfold has_column. cbn [columns]. apply mem_remove_names.
  - unfold nrows. cbn [rows]. apply length_map.
  - unfold index, column. cbn [rows]. rewrite map_map. reflexivity.
Qed.

(** [_setup_temporal_indices] returns only after it has replaced the three
    tables by their date-indexed versions. *)
Lemma setup_temporal_indices_inv (s s' : State) (u : unit) :
  _setup_temporal_indices s = (s', Ok u) ->
  exists monitoring weather yields,
    set_index "date" (monitoring_data (self s)) = Ok monitoring
    /\ set_index "date" (weather_data (self s)) = Ok weather
    /\ set_index "date" (yield_history (self s)) = Ok yields
    /\ s' = {| self := {| monitoring_data := monitoring;
                          weather_data := weather;
                          soil_data := soil_data (self s);
                          yield_history := yields |};
               stdout := stdout s |}.
Proof.
  unfold _setup_temporal_indices, bind, read, lift, assign_monitoring_data,
    assign_weather_data, assign_yield_history. cbn [self stdout].
  destruct (set_index "date" (monitoring_data (self s))) as [mon | e];
    [| intros H; inversion H].
  cbn [self stdout monitoring_data weather_data soil_data yield_history].
  destruct (set_index "date" (weather_data (self s))) as [w | e];
    [| intros H; inversion H].
  cbn [self stdout monitoring_data weather_data soil_data yield_history].
  destruct (set_index "date" (yield_history (self s))) as [y | e];
    [| intros H; inversion H].
  cbn [self stdout monitoring_data weather_data soil_data yield_history].
  intros H. inversion H. exists mon, w, y. auto.
Qed.

(** The consistency check changes nothing but the output. *)
Lemma verify_temporal_consistency_inv (s s' : State) (u : unit) :
  _verify_temporal_consistency s = (s', Ok u) ->
  exists text, s' = {| self := self s; stdout := stdout s ++ [text] |}.
Proof.
  unfold _verify_temporal_consistency, bind, read, lift, print.
  destruct (index_range (monitoring_data (self s))) as [mr | e];
    [| intros H; inversion H].
  destruct (index_range (weather_data (self s))) as [wr | e];
    [| intros H; inversion H].
  destruct (index_range (yield_history (self s))) as [yr | e];
    [| intros H; inversion H].
  destruct (date_range (fst mr) (snd mr)) as [dates | e];
    [| intros H; inversion H].
  intros H. inversion H. eauto.
Qed.

(** Raising or not, the check leaves the four tables alone. *)
Lemma verify_temporal_consistency_pure (s : State) :
  self (fst (_verify_temporal_consistency s)) = self s.
Proof.
  unfold _verify_temporal_consistency, bind, read, lift, print.
  destruct (index_range (monitoring_data (self s))) as [mr | e]; [| reflexivity].
  destruct (index_range (weather_data (self s))) as [wr | e]; [| reflexivity].
  destruct (index_range (yield_history (self s))) as [yr | e]; [| reflexivity].
  destruct (date_range (fst mr) (snd mr)) as [dates | e]; reflexivity.
Qed.

(** The steps a returning [prepare_features] went through. *)
Lemma prepare_features_inv (s s' : State) (features : DataFrame) :
  prepare_features s = (s', Ok features) ->
  exists monitoring weather yields text combined_1 merged combined_2 f0 f1 f2,
    set_index "date" (monitoring_data (self s)) = Ok monitoring
    /\ set_index "date" (weather_data (self s)) = Ok weather
    /\ set_index "date" (yield_history (self s)) = Ok yields
    /\ s' = {| self := {| monitoring_data := monitoring;
                          weather_data := weather;
                          soil_data := soil_data (self s);
                          yield_history := yields |};
               stdout := stdout s ++ [text] |}
    /\ merge_asof (sort_index monitoring) (sort_index weather) = Ok combined_1
    /\ merge_left ["parcelle_id"; "latitude"; "longitude"] combined_1
                  (soil_data (self s)) = Ok merged
    /\ set_index_labels (index_name combined_1) (index combined_1) merged = Ok combined_2
    /\ _enrich_with_yield_history (self s') combined_2 = Ok f0
    /\ fill_gaps f0 = Ok f1
    /\ interpolate_gaps f1 = Ok f2
    /\ fillna_column "rendement_final" (Num (0 # 1)) f2 = Ok features.
Proof.
  unfold prepare_features. intros H.
  apply bind_ok in H. destruct H as (u1 & s1 & Hsetup & H).
  apply bind_ok in H. destruct H as (u2 & s2 & Hverify & H).
  apply bind_ok in H. destruct H as (m & s3 & Hread & H).
  apply read_ok in Hread. destruct Hread as [-> ->].
  apply bind_ok in H. destruct H as (combined_1 & s4 & H1 & H).
  apply lift_ok in H1. destruct H1 as [-> H1].
  apply bind_ok in H. destruct H as (merged & s5 & H2 & H).
  apply lift_ok in H2. destruct H2 as [-> H2].
  apply bind_ok in H. destruct H as (combined_2 & s6 & H3 & H).
  apply lift_ok in H3. destruct H3 as [-> H3].
  apply bind_ok in H. destruct H as (f0 & s7 & H4 & H).
  apply lift_ok in H4. destruct H4 as [-> H4].
  apply bind_ok in H. destruct H as (f1 & s8 & H5 & H).
  apply lift_ok in H5. destruct H5 as [-> H5].
  apply bind_ok in H. destruct H as (f2 & s9 & H6 & H).
  apply lift_ok in H6. destruct H6 as [-> H6].
  apply lift_ok in H. destruct H as [-> H].
  apply setup_temporal_indices_inv in Hsetup.
  destruct Hsetup as (mon & w & y & Hm & Hw & Hy & ->).
  apply verify_temporal_consistency_inv in Hverify. destruct Hverify as (text & ->).
  cbn [self stdout monitoring_data weather_data soil_data yield_history] in *.
  exists mon, w, y, text, combined_1, merged, combined_2, f0, f1, f2.
  repeat split; assumption.
Qed.

Lemma prepare_features_stops_at_first_index (s : State) (e : Error) :
  set_index "date" (monitoring_data (self s)) = Raise e ->
  prepare_features s = (s, Raise e).
Proof.
  intros H. cbv [prepare_features bind _setup_temporal_indices read lift].
  rewrite H. reflexivity.
Qed.

Lemma remove_keys_idempotent (ks : list string) (r : Row) :
  remove_keys ks (remove_keys ks r) = remove_keys ks r.
Proof.
  unfold remove_keys. induction r as [| kv t IH]; simpl.
  - reflexivity.
  - destruct (negb (mem (fst kv) ks)) eqn:E; simpl; rewrite ?E, IH; reflexivity.
Qed.

Lemma remove_names_idempotent (ks l : list string) :
  remove_names ks (remove_names ks l) = remove_names ks l.
Proof.
  unfold remove_names. induction l as [| k t IH]; simpl.
  - reflexivity.
  - destruct (negb (mem k ks)) eqn:E; simpl; rewrite ?E, IH; reflexivity.
Qed.

(** What the map's risk layer does before it calls [prepare_features]
    again: after [reset_index] the date is a column once more, and
    [set_index] gives back the indexed table. *)
Lemma set_index_after_reset_index (df df' : DataFrame) :
  set_index "date" df = Ok df' ->
  set_index "date" (reset_index df') = Ok df'.
Proof.
  unfold set_index at 1. destruct (has_column "date" df); [| discriminate].
  intros H. inversion H; subst df'; clear H.
  unfold set_index, reset_index, has_column.
  cbn [index_name columns rows mem existsb]. rewrite String.eqb_refl. cbn [orb].
  assert (Hcols : remove_names ["date"] ("date" :: remove_names ["date"] (columns df))
                  = remove_names ["date"] (columns df)).
  { exact (remove_names_idempotent ["date"] (columns df)). }
  assert (Hrows : forall l : list (Cell * Row),
             map (fun r => (get "date" (snd r), remove_keys ["date"] (snd r)))
                 (with_range_index
                    (map (fun r => ("date", fst r) :: snd r)
                         (map (fun r => (get "date" (snd r),
                                         remove_keys ["date"] (snd r))) l)))
             = map (fun r => (get "date" (snd r), remove_keys ["date"] (snd r))) l).
  { intros l.
    rewrite <- (map_map snd (fun r => (get "date" r, remove_keys ["date"] r))
                        (with_range_index _)).
    rewrite with_range_index_rows, !map_map. apply map_ext. intros r. cbn [fst snd].
    f_equal. exact (remove_keys_idempotent ["date"] (snd r)). }
  rewrite Hcols, Hrows. reflexivity.
Qed.

(** After the two method calls [prepare_features] only reads the tables. *)
Lemma prepare_features_factored (s : State) :
  prepare_features s
  = (_setup_temporal_indices ;;; _verify_temporal_consistency ;;;
     m <- read ;; lift (features_of m)) s.
Proof.
  unfold prepare_features, features_of, bind.
  destruct (_setup_temporal_indices s) as [s1 [u1 | e]]; [| reflexivity].
  destruct (_verify_temporal_consistency s1) as [s2 [u2 | e]]; [| reflexivity].
  unfold read, lift.
  destruct (merge_asof _ _) as [c1 | e]; [| reflexivity]. cbn [rbind].
  destruct (merge_left _ c1 _) as [mg | e]; [| reflexivity]. cbn [rbind].
  destruct (set_index_labels _ _ mg) as [c2 | e]; [| reflexivity]. cbn [rbind].
  destruct (_enrich_with_yield_history _ c2) as [f0 | e]; [| reflexivity]. cbn [rbind].
  destruct (fill_gaps f0) as [f1 | e]; [| reflexivity]. cbn [rbind].
  destruct (interpolate_gaps f1) as [f2 | e]; [| reflexivity]. cbn [rbind].
  destruct (fillna_column _ _ f2); reflexivity.
Qed.

(** The check reads the tables only: its outcome and its report do not
    depend on what was printed before. *)
Lemma verify_temporal_consistency_reads_self (m : Manager) (out out' : list string)
    (s1 : State) (u : unit) :
  _verify_temporal_consistency {| self := m; stdout := out |} = (s1, Ok u) ->
  exists text,
    s1 = {| self := m; stdout := out ++ [text] |}
    /\ _verify_temporal_consistency {| self := m; stdout := out' |}
       = ({| self := m; stdout := out' ++ [text] |}, Ok tt).
Proof.
  unfold _verify_temporal_consistency, bind, read, lift, print. cbn [self stdout].
  destruct (index_range (monitoring_data m)) as [mr | e]; [| intros H; inversion H].
  destruct (index_range (weather_data m)) as [wr | e]; [| intros H; inversion H].
  destruct (index_range (yield_history m)) as [yr | e]; [| intros H; inversion H].
  destruct (date_range (fst mr) (snd mr)) as [dates | e]; [| intros H; inversion H].
  cbn [self stdout]. intros H. inversion H. eauto.
Qed.

(** C2, as amended: [prepare_features] is not pure.  A call that returns
    has replaced [monitoring_data], [weather_data] and [yield_history] by
    their versions indexed by date (their [date] column is gone), has left
    [soil_data] alone, and a second call on that state raises a KeyError
    at once, changing nothing more; once the three indices are reset, a
    further call returns the same feature table. *)
Theorem prepare_features_moves_date_to_index (s s' : State) (features : DataFrame) :
  prepare_features s = (s', Ok features) ->
  set_index "date" (monitoring_data (self s)) = Ok (monitoring_data (self s'))
  /\ set_index "date" (weather_data (self s)) = Ok (weather_data (self s'))
  /\ set_index "date" (yield_history (self s)) = Ok (yield_history (self s'))
  /\ soil_data (self s') = soil_data (self s)
  /\ has_column "date" (monitoring_data (self s)) = true
  /\ has_column "date" (monitoring_data (self s')) = false
  /\ prepare_features s' = (s', Raise (KeyError "None of ['date'] are in the columns"))
  /\ exists text,
       prepare_features (reset_indices s')
       = ({| self := self s'; stdout := stdout s' ++ [text] |}, Ok features).
Proof.
  intros H. pose proof H as Hcall. apply prepare_features_inv in H.
  destruct H as (mon & w & y & text & c1 & mg & c2 & f0 & f1 & f2
                 & Hm & Hw & Hy & -> & _).
  cbn [self monitoring_data weather_data soil_data yield_history].
  destruct (set_index_inv _ _ _ Hm) as (Hhas & Hnot & _).
  repeat split; try assumption.
  - apply prepare_features_stops_at_first_index.
    cbn [self monitoring_data]. unfold set_index. rewrite Hnot. reflexivity.
  - rewrite prepare_features_factored in Hcall.
    apply bind_ok in Hcall. destruct Hcall as (u1 & s1 & Hsetup & Hcall).
    apply bind_ok in Hcall. destruct Hcall as (u2 & s2 & Hverify & Hcall).
    apply bind_ok in Hcall. destruct Hcall as (m & s3 & Hread & Hcall).
    apply read_ok in Hread. destruct Hread as [-> ->].
    apply lift_ok in Hcall. destruct Hcall as [Hs2 Hfeatures].
    apply setup_temporal_indices_inv in Hsetup.
    destruct Hsetup as (mon' & w' & y' & Hm' & Hw' & Hy' & ->).
    rewrite Hm in Hm'. rewrite Hw in Hw'. rewrite Hy in Hy'.
    inversion Hm'; subst mon'. inversion Hw'; subst w'. inversion Hy'; subst y'.
    destruct (verify_temporal_consistency_reads_self
                _ _ (stdout s ++ [text]) _ _ Hverify) as (text' & -> & Hagain).
    cbn [self] in Hfeatures.
    exists text'. rewrite prepare_features_factored.
    unfold bind at 1.
    assert (Hsetup : _setup_temporal_indices
                       (reset_indices
                          {| self := {| monitoring_data := mon;
                                        weather_data := w;
                                        soil_data := soil_data (self s);
                                        yield_history := y |};
                             stdout := stdout s ++ [text] |})
                     = ({| self := {| monitoring_data := mon;
                                      weather_data := w;
                                      soil_data := soil_data (self s);
                                      yield_history := y |};
                           stdout := stdout s ++ [text] |}, Ok tt)).
    { unfold _setup_temporal_indices, reset_indices, bind, read, lift,
        assign_monitoring_data, assign_weather_data, assign_yield_history.
      cbn [self stdout monitoring_data weather_data soil_data yield_history].
      rewrite (set_index_after_reset_index _ _ Hm),
        (set_index_after_reset_index _ _ Hw), (set_index_after_reset_index _ _ Hy).
      reflexivity. }
    rewrite Hsetup. unfold bind. rewrite Hagain. unfold read, lift. cbn [self].
    rewrite Hfeatures. reflexivity.
Qed.

(** C2, as stated, fails: on the sample tables the first call returns a
    feature table, but it has changed [monitoring_data], [weather_data] and
    [yield_history], and the second call raises instead of returning the
    table again. *)
Lemma prepare_features_is_not_idempotent :
  exists s' features,
    prepare_features sample_state = (s', Ok features)
    /\ monitoring_data (self s') <> monitoring_data (self sample_state)
    /\ weather_data (self s') <> weather_data (self sample_state)
    /\ yield_history (self s') <> yield_history (self sample_state)
    /\ snd (prepare_features s')
       = Raise (KeyError "None of ['date'] are in the columns").
Proof.
  do 2 eexists. split; [vm_compute; reflexivity |].
  split; [vm_compute; discriminate |].
  split; [vm_compute; discriminate |].
  split; [vm_compute; discriminate |].
  vm_compute. reflexivity.
Qed.

Lemma prepare_features_moves_date_to_index_witness :
  exists s' features,
    prepare_features sample_state = (s', Ok features)
    /\ prepare_features s' = (s', Raise (KeyError "None of ['date'] are in the columns")).
Proof.
  assert (H : exists s' features, prepare_features sample_state = (s', Ok features)).
  { do 2 eexists. vm_compute. reflexivity. }
  destruct H as (s' & features & H). exists s', features. split; [exact H |].
  apply (prepare_features_moves_date_to_index sample_state s' features H).
Defined.

(** *** Row counts *)

Lemma asof_keys_length (side : string) (df : DataFrame) (ts : list Z) :
  asof_keys side df = Ok ts -> List.length ts = nrows df.
Proof.
  unfold asof_keys, nrows, index.
  destruct (existsb _ (map fst (rows df))) eqn:E1; [discriminate |].
  destruct (existsb isnull (map fst (rows df))) eqn:E2; [discriminate |].
  destruct (sortedb _); [| discriminate].
  intros H. inversion H; subst ts; clear H.
  induction (rows df) as [| r t IH]; simpl in *.
  - reflexivity.
  - apply orb_false_iff in E1. destruct E1 as [E1 E1'].
    apply orb_false_iff in E2. destruct E2 as [E2 E2'].
    destruct (fst r); simpl in *; try discriminate. f_equal. auto.
Qed.

(** The as-of join keeps the left rows, one for one, with their labels. *)
Lemma merge_asof_rows (left right joined : DataFrame) :
  merge_asof left right = Ok joined ->
  nrows joined = nrows left /\ index joined = index left
  /\ index_name joined = index_name left.
Proof.
  unfold merge_asof. intros H.
  apply rbind_ok in H. destruct H as (lkeys & Hl & H).
  apply rbind_ok in H. destruct H as (rkeys & Hr & H).
  inversion H; subst joined; clear H.
  apply asof_keys_length in Hl. unfold nrows, index in *. cbn [rows index_name].
  split; [| split; [| reflexivity]].
  - rewrite length_map, length_combine, Hl. apply Nat.min_id.
  - rewrite map_map. cbn [fst].
    revert lkeys Hl. induction (rows left) as [| r t IH]; intros [| k ks] Hl;
      simpl in *; try discriminate; try reflexivity.
    f_equal. apply IH. lia.
Qed.

Lemma flat_map_length_sum {A B : Type} (g : A -> list B) (l : list A) :
  List.length (flat_map g l) = list_sum (map (fun x => List.length (g x)) l).
Proof.
  induction l as [| x t IH]; simpl.
  - reflexivity.
  - rewrite length_app, IH. reflexivity.
Qed.

(** The rows of a left join: each left row once per match, once when it
    has none. *)
Lemma merge_left_count (keys : list string) (left right joined : DataFrame) :
  merge_left keys left right = Ok joined ->
  nrows joined
  = list_sum (map (fun l => Nat.max 1 (List.length (matches keys left right l)))
                  (rows left)).
Proof.
  unfold merge_left. destruct (find _ keys); [discriminate |].
  intros H. inversion H; subst joined; clear H. unfold nrows. cbn [rows].
  assert (Hsum : forall (g : Cell * Row -> list (Cell * Row)) (f : Cell * Row -> nat),
             (forall l, List.length (g l) = f l) ->
             List.length (flat_map g (rows left)) = list_sum (map f (rows left))).
  { intros g f Hgf. rewrite flat_map_length_sum. f_equal. apply map_ext. exact Hgf. }
  match goal with
  | |- List.length (if ?b then ?j else _) = _ =>
      assert (Hj : List.length j
                   = list_sum (map (fun l => Nat.max 1 (List.length (matches keys left right l)))
                                   (rows left)))
  end.
  { apply Hsum. intros l.
    destruct (matches keys left right l) as [| y ys]; [reflexivity |].
    simpl. rewrite length_map. reflexivity. }
  destruct (existsb _ keys); [exact Hj |].
  rewrite with_range_index_length, length_map. exact Hj.
Qed.

Lemma list_sum_ones {A : Type} (f : A -> nat) (l : list A) :
  (forall x, In x l -> f x = 1%nat) -> list_sum (map f l) = List.length l.
Proof.
  induction l as [| x t IH]; intros H.
  - reflexivity.
  - cbn [map list_sum fold_right List.length].
    rewrite (H x (or_introl eq_refl)).
    change (fold_right Nat.add 0%nat (map f t)) with (list_sum (map f t)).
    rewrite IH by (intros; apply H; right; assumption). reflexivity.
Qed.

(** A left join in which every left row has at most one match neither
    drops nor duplicates a left row. *)
Lemma merge_left_unique_match (keys : list string) (left right joined : DataFrame) :
  merge_left keys left right = Ok joined ->
  (forall l, In l (rows left) ->
             (List.length (matches keys left right l) <= 1)%nat) ->
  nrows joined = nrows left.
Proof.
  intros H Hu. rewrite (merge_left_count _ _ _ _ H). unfold nrows.
  apply list_sum_ones. intros l Hl. specialize (Hu l Hl). lia.
Qed.

Lemma combine_map_snd {A B : Type} (labels : list A) (rs : list (A * B)) :
  List.length labels = List.length rs ->
  map fst (combine labels (map snd rs)) = labels
  /\ map snd (combine labels (map snd rs)) = map snd rs.
Proof.
  revert rs. induction labels as [| a t IH]; intros [| r rs] Hl; simpl in *;
    try discriminate; auto.
  destruct (IH rs ltac:(lia)) as (H1 & H2). rewrite H1, H2. auto.
Qed.

Lemma set_index_labels_inv (name : option string) (labels : list Cell)
    (df df' : DataFrame) :
  set_index_labels name labels df = Ok df' ->
  nrows df = List.length labels
  /\ nrows df' = List.length labels
  /\ index df' = labels
  /\ map snd (rows df') = map snd (rows df)
  /\ index_name df' = name
  /\ columns df' = columns df.
Proof.
  unfold set_index_labels. destruct (Nat.eqb _ _) eqn:E; [| discriminate].
  apply Nat.eqb_eq in E. intros H. inversion H; subst df'; clear H.
  unfold nrows, index in *. cbn [rows index_name columns].
  destruct (combine_map_snd labels (rows df) E) as (H1 & H2).
  repeat split; auto.
  rewrite <- H1 at 2. rewrite length_map. reflexivity.
Qed.

Lemma fillna_column_inv (c : string) (v : Cell) (df df' : DataFrame) :
  fillna_column c v df = Ok df' ->
  nrows df' = nrows df /\ index df' = index df
  /\ forall c', c' <> c -> column c' df' = column c' df.
Proof.
  unfold fillna_column. destruct (has_column c df); [| discriminate].
  intros H. inversion H; subst df'; clear H. unfold nrows, index, column.
  cbn [rows]. split; [apply length_map |]. split.
  - rewrite map_map. reflexivity.
  - intros c' Hc. rewrite map_map. apply map_ext. intros r.
    apply get_set_other. congruence.
Qed.

Lemma enrich_with_yield_history_inv (m : Manager) (data features : DataFrame) :
  _enrich_with_yield_history m data = Ok features ->
  exists data' merged,
    drop_columns ["culture"] data = Ok data'
    /\ merge_left ["date"; "parcelle_id"] data' (yield_history m) = Ok merged
    /\ set_index_labels (index_name data) (index data) merged = Ok features.
Proof.
  unfold _enrich_with_yield_history. intros H.
  apply rbind_ok in H. destruct H as (data' & Hd & H).
  apply rbind_ok in H. destruct H as (merged & Hm & H). eauto.
Qed.

Lemma fill_gaps_frame (features features' : DataFrame) :
  fill_gaps features = Ok features' ->
  nrows features' = nrows features
  /\ index features' = index features
  /\ forall q c, ~ In c columns_to_fill ->
                 parcel_slice q c features' = parcel_slice q c features.
Proof.
  unfold fill_gaps. intros H. apply rbind_ok in H. destruct H as (ids & _ & H).
  destruct (for_each_parcel_frame carry_fill columns_to_fill carry_fill_length
              columns_to_fill_distinct columns_to_fill_not_id _ _ _ H)
    as (Hn & Hi & _ & _ & Hc). auto.
Qed.

Lemma interpolate_gaps_frame (features features' : DataFrame) :
  interpolate_gaps features = Ok features' ->
  nrows features' = nrows features
  /\ index features' = index features
  /\ forall q c, ~ In c columns_to_interpolate ->
                 parcel_slice q c features' = parcel_slice q c features.
Proof.
  unfold interpolate_gaps. intros H. apply rbind_ok in H. destruct H as (ids & _ & H).
  destruct (for_each_parcel_frame interpolate_linear columns_to_interpolate
              interpolate_linear_length columns_to_interpolate_distinct
              columns_to_interpolate_not_id _ _ _ H)
    as (Hn & Hi & _ & _ & Hc). auto.
Qed.

(** C4: the as-of join keeps every left row; a left join in which each
    left row has at most one match keeps every left row, so that putting
    the left index back on its result succeeds; and the feature table
    [prepare_features] returns has exactly as many rows as the Monitoring
    table, with the Monitoring dates, sorted, as its index. *)
Theorem feature_table_has_one_row_per_monitoring_row :
  (forall left right joined,
      merge_asof left right = Ok joined -> nrows joined = nrows left)
  /\ (forall keys left right joined,
         merge_left keys left right = Ok joined ->
         (forall l, In l (rows left) ->
                    (List.length (matches keys left right l) <= 1)%nat) ->
         nrows joined = nrows left
         /\ exists indexed,
              set_index_labels (index_name left) (index left) joined = Ok indexed
              /\ nrows indexed = nrows left)
  /\ (forall s s' features,
         prepare_features s = (s', Ok features) ->
         nrows features = nrows (monitoring_data (self s))
         /\ index features = index (sort_index (monitoring_data (self s')))).
Proof.
  split; [| split].
  - intros left right joined H. apply (merge_asof_rows _ _ _ H).
  - intros keys left right joined H Hu.
    pose proof (merge_left_unique_match _ _ _ _ H Hu) as Hn.
    split; [exact Hn |]. unfold set_index_labels.
    assert (E : Nat.eqb (List.length (index left)) (nrows joined) = true).
    { apply Nat.eqb_eq. rewrite Hn. unfold index, nrows. apply length_map. }
    rewrite E. eexists. split; [reflexivity |].
    unfold nrows at 1. cbn [rows]. rewrite length_combine, length_map.
    apply Nat.eqb_eq in E. fold (nrows joined). rewrite E, Nat.min_id. exact Hn.
  - intros s s' features H. apply prepare_features_inv in H.
    destruct H as (mon & w & y & text & c1 & mg & c2 & f0 & f1 & f2
                   & Hm & _ & _ & -> & H1 & _ & H3 & H4 & H5 & H6 & H7).
    cbn [self monitoring_data].
    destruct (set_index_inv _ _ _ Hm) as (_ & _ & Hn0 & _).
    destruct (merge_asof_rows _ _ _ H1) as (Hn1 & Hi1 & _).
    destruct (set_index_labels_inv _ _ _ _ H3) as (_ & Hn3 & Hi3 & _).
    apply enrich_with_yield_history_inv in H4.
    destruct H4 as (data' & merged & _ & _ & H4).
    destruct (set_index_labels_inv _ _ _ _ H4) as (_ & Hn4 & Hi4 & _).
    destruct (fill_gaps_frame _ _ H5) as (Hn5 & Hi5 & _).
    destruct (interpolate_gaps_frame _ _ H6) as (Hn6 & Hi6 & _).
    destruct (fillna_column_inv _ _ _ _ H7) as (Hn7 & Hi7 & _).
    split.
    + rewrite Hn7, Hn6, Hn5, Hn4. unfold index. rewrite length_map.
      fold (nrows c2). rewrite Hn3. unfold index. rewrite length_map.
      fold (nrows c1). rewrite Hn1. unfold nrows at 1, sort_index. cbn [rows].
      rewrite sort_rows_length. exact Hn0.
    + rewrite Hi7, Hi6, Hi5, Hi4, Hi3, Hi1. reflexivity.
Qed.

Lemma feature_table_has_one_row_per_monitoring_row_witness :
  exists s' features,
    prepare_features sample_state = (s', Ok features)
    /\ nrows features = 5%nat.
Proof.
  assert (H : exists s' features, prepare_features sample_state = (s', Ok features)).
  { do 2 eexists. vm_compute. reflexivity. }
  destruct H as (s' & features & H). exists s', features. split; [exact H |].
  destruct feature_table_has_one_row_per_monitoring_row as (_ & _ & Hrows).
  destruct (Hrows sample_state s' features H) as (Hn & _).
  rewrite Hn. reflexivity.
Defined.

(** With a second soil record for parcel P1 the soil join duplicates the
    rows of P1, and [prepare_features] raises on the length mismatch. *)
Lemma duplicated_soil_record_raises :
  snd (prepare_features
         {| self := {| monitoring_data := monitoring_data (self sample_state);
                       weather_data := weather_data (self sample_state);
                       soil_data := duplicated_soil;
                       yield_history := yield_history (self sample_state) |};
            stdout := [] |})
  = Raise (ValueError "Length mismatch").
Proof.
  vm_compute. reflexivity.
Qed.

(** *** The culture column *)

Lemma suffix_x_not_culture (k : string) : (k ++ "_x")%string <> "culture".
Proof.
  intros H.
  do 7 (destruct k as [| ? k]; simpl in H; [discriminate H | injection H as _ H]).
  destruct k; discriminate H.
Qed.

Lemma suffix_y_not_culture (k : string) : (k ++ "_y")%string <> "culture".
Proof.
  intros H.
  do 7 (destruct k as [| ? k]; simpl in H; [discriminate H | injection H as _ H]).
  destruct k; discriminate H.
Qed.

Lemma lookup_app (c : string) (a b : Row) :
  lookup c (a ++ b) = match lookup c a with Some v => Some v | None => lookup c b end.
Proof.
  induction a as [| [k v] t IH]; simpl.
  - reflexivity.
  - destruct (String.eqb c k); [reflexivity | exact IH].
Qed.

Lemma lookup_remove_keys (c : string) (ks : list string) (r : Row) :
  lookup c (remove_keys ks r) = if mem c ks then None else lookup c r.
Proof.
  unfold remove_keys. induction r as [| [k v] t IH]; simpl.
  - destruct (mem c ks); reflexivity.
  - destruct (mem k ks) eqn:Ek; simpl.
    + rewrite IH. destruct (String.eqb c k) eqn:E; [| reflexivity].
      apply String.eqb_eq in E. subst. rewrite Ek. reflexivity.
    + rewrite IH. destruct (String.eqb c k) eqn:E; [| reflexivity].
      apply String.eqb_eq in E. subst. rewrite Ek. reflexivity.
Qed.

Lemma lookup_rename_none (f : string -> string) (c : string) (r : Row) :
  (forall k, k <> c -> f k <> c) -> lookup c r = None ->
  lookup c (rename_row f r) = None.
Proof.
  intros Hf. unfold rename_row. induction r as [| [k v] t IH]; simpl; intros H.
  - reflexivity.
  - destruct (String.eqb c k) eqn:E; [discriminate |].
    apply String.eqb_neq in E.
    destruct (String.eqb c (f k)) eqn:E'; [| auto].
    apply String.eqb_eq in E'. exfalso. apply (Hf k); congruence.
Qed.

Lemma lookup_rename_same (f : string -> string) (c : string) (r : Row) :
  (forall k, k <> c -> f k <> c) -> f c = c ->
  lookup c (rename_row f r) = lookup c r.
Proof.
  intros Hf Hc. unfold rename_row. induction r as [| [k v] t IH]; simpl.
  - reflexivity.
  - destruct (String.eqb c k) eqn:E.
    + apply String.eqb_eq in E. subst k. rewrite Hc, String.eqb_refl. reflexivity.
    + apply String.eqb_neq in E.
      destruct (String.eqb c (f k)) eqn:E'; [| exact IH].
      apply String.eqb_eq in E'. exfalso. apply (Hf k); congruence.
Qed.

Lemma lookup_null_row (c : string) (cols : list string) :
  lookup c (null_row cols) = if mem c cols then Some Null else None.
Proof.
  unfold null_row, mem. induction cols as [| k t IH]; simpl.
  - reflexivity.
  - destruct (String.eqb c k); [reflexivity | exact IH].
Qed.

Lemma suffixed_not_culture (overlap : list string) (suffix k : string) :
  suffix = "_x" \/ suffix = "_y" ->
  k <> "culture" -> suffixed overlap suffix k <> "culture".
Proof.
  intros Hs Hk. unfold suffixed. destruct (mem k overlap); [| exact Hk].
  destruct Hs as [-> | ->]; [apply suffix_x_not_culture | apply suffix_y_not_culture].
Qed.

(** The culture of a joined row, when the left row has none, is the
    culture of the matched right row, and NaN without a match. *)
Lemma joined_row_culture (keys lcols rcols : list string) (l : Row) (y : option Row) :
  mem "culture" keys = false ->
  mem "culture" lcols = false ->
  lookup "culture" l = None ->
  get "culture" (joined_row keys lcols rcols l y)
  = match y with Some y' => get "culture" y' | None => Null end.
Proof.
  intros Hk Hl Hnone. unfold joined_row, get. rewrite lookup_app.
  assert (Hov : mem "culture" (overlapping keys lcols rcols) = false).
  { destruct (mem "culture" (overlapping keys lcols rcols)) eqn:E; [| reflexivity].
    apply mem_In in E. unfold overlapping in E. apply filter_In in E.
    destruct E as [E _]. apply mem_In in E. congruence. }
  rewrite lookup_rename_none; [| | exact Hnone].
  2:{ intros k Hkc. apply suffixed_not_culture; auto. }
  destruct y as [y' |].
  - rewrite lookup_rename_same.
    + rewrite lookup_remove_keys, Hk. reflexivity.
    + intros k Hkc. apply suffixed_not_culture; auto.
    + unfold suffixed. rewrite Hov. reflexivity.
  - rewrite lookup_null_row. destruct (mem "culture" (map _ _)); reflexivity.
Qed.

Lemma list_sum_ones_inv {A : Type} (f : A -> nat) (l : list A) :
  (forall x, (1 <= f x)%nat) ->
  list_sum (map f l) = List.length l ->
  forall x, In x l -> f x = 1%nat.
Proof.
  intros Hf. induction l as [| y t IH]; intros Hs x Hx.
  - contradiction.
  - cbn [map list_sum fold_right List.length] in Hs.
    change (fold_right Nat.add 0%nat (map f t)) with (list_sum (map f t)) in Hs.
    assert (Ht : (List.length t <= list_sum (map f t))%nat).
    { clear -Hf. induction t as [| z t IH]; simpl; [lia |].
      change (fold_right Nat.add 0%nat (map f t)) with (list_sum (map f t)).
      specialize (Hf z). lia. }
    pose proof (Hf y) as Hy.
    destruct Hx as [-> | Hx]; [lia |]. apply IH; [lia | exact Hx].
Qed.

Lemma flat_map_singletons {A B : Type} (g : A -> list B) (h : A -> B) (l : list A) :
  (forall x, In x l -> g x = [h x]) -> flat_map g l = map h l.
Proof.
  induction l as [| x t IH]; intros H; simpl.
  - reflexivity.
  - rewrite (H x (or_introl eq_refl)), IH by (intros; apply H; right; assumption).
    reflexivity.
Qed.

(** A left join that kept the row count paired every left row with its
    only match, or with none. *)
Lemma merge_left_single_rows (keys : list string) (left right merged : DataFrame) :
  merge_left keys left right = Ok merged ->
  nrows merged = nrows left ->
  map snd (rows merged)
  = map (fun l => joined_row keys (columns left) (columns right) (snd l)
                             match matches keys left right l with
                             | [] => None
                             | y :: _ => Some (snd y)
                             end)
        (rows left).
Proof.
  intros H Hn. pose proof (merge_left_count _ _ _ _ H) as Hc. rewrite Hn in Hc.
  symmetry in Hc. unfold nrows in Hc.
  pose proof (list_sum_ones_inv _ _ (fun l => Nat.le_max_l 1 _) Hc) as Hone.
  unfold merge_left in H. destruct (find _ keys); [discriminate |].
  inversion H; subst merged; clear H. cbn [rows].
  match goal with
  | |- map snd (if ?b then ?j else _) = _ =>
      assert (Hj : map snd j
                   = map (fun l => joined_row keys (columns left) (columns right) (snd l)
                                              match matches keys left right l with
                                              | [] => None
                                              | y :: _ => Some (snd y)
                                              end) (rows left))
  end.
  { rewrite (flat_map_singletons _
               (fun l => (fst l, joined_row keys (columns left) (columns right) (snd l)
                                            match matches keys left right l with
                                            | [] => None
                                            | y :: _ => Some (snd y)
                                            end))).
    - rewrite map_map. reflexivity.
    - intros l Hl. specialize (Hone l Hl). cbv beta in Hone.
      destruct (matches keys left right l) as [| y [| y' ys]]; simpl in *;
        [reflexivity | reflexivity | lia]. }
  destruct (existsb _ keys); [exact Hj |].
  rewrite with_range_index_rows. exact Hj.
Qed.

Lemma drop_columns_inv (ks : list string) (df df' : DataFrame) :
  drop_columns ks df = Ok df' ->
  df' = {| index_name := index_name df;
           columns := remove_names ks (columns df);
           rows := map (fun r => (fst r, remove_keys ks (snd r))) (rows df) |}.
Proof.
  unfold drop_columns. destruct (find _ ks); [discriminate |].
  intros H. inversion H. reflexivity.
Qed.

(** The culture of an enriched table is the culture of the yield record
    that matches on (date, parcelle_id), and NaN for a row without match:
    the culture the data came with was dropped before the merge. *)
Lemma enrich_culture (m : Manager) (data features : DataFrame) :
  _enrich_with_yield_history m data = Ok features ->
  exists data',
    drop_columns ["culture"] data = Ok data'
    /\ has_column "culture" data' = false
    /\ (forall d, In d (rows data') -> lookup "culture" (snd d) = None)
    /\ index features = index data'
    /\ column "culture" features
       = map (fun d => match matches ["date"; "parcelle_id"] data' (yield_history m) d with
                       | [] => Null
                       | y :: _ => get "culture" (snd y)
                       end)
             (rows data').
Proof.
  intros H. apply enrich_with_yield_history_inv in H.
  destruct H as (data' & merged & Hd & Hm & Hs).
  exists data'. split; [exact Hd |].
  pose proof (drop_columns_inv _ _ _ Hd) as Hdata'.
  assert (Hcol : has_column "culture" data' = false).
  { subst data'. unfold has_column. cbn [columns]. apply mem_remove_names. }
  assert (Hrows : forall d, In d (rows data') -> lookup "culture" (snd d) = None).
  { subst data'. cbn [rows]. intros d Hin. apply in_map_iff in Hin.
    destruct Hin as (r & <- & _). cbn [snd]. rewrite lookup_remove_keys. reflexivity. }
  destruct (set_index_labels_inv _ _ _ _ Hs) as (Hn & _ & Hi & Hsnd & _).
  assert (Hidx : index data = index data').
  { subst data'. unfold index. cbn [rows]. rewrite map_map. reflexivity. }
  assert (Hnrows : nrows merged = nrows data').
  { rewrite Hn, Hidx. unfold index, nrows. apply length_map. }
  split; [exact Hcol |]. split; [exact Hrows |]. split; [congruence |].
  unfold column. rewrite <- (map_map snd (fun r => get "culture" r)), Hsnd.
  rewrite (merge_left_single_rows _ _ _ _ Hm Hnrows). rewrite map_map.
  apply map_ext_in. intros d Hin.
  rewrite joined_row_culture; [| reflexivity | exact Hcol | exact (Hrows d Hin)].
  destruct (matches _ data' (yield_history m) d); reflexivity.
Qed.

Lemma assign_masked_column (p : Cell) (filled : list (string * list Cell)) (j : nat)
    (rs : list (Cell * Row)) (c : string) :
  ~ In c (map fst filled) ->
  map (fun r => get c (snd r)) (assign_masked p filled j rs)
  = map (fun r => get c (snd r)) rs.
Proof.
  intros Hc. pose proof (assign_masked_rows p filled j rs) as HF.
  induction HF as [| r r' t t' (_ & _ & Hget) _ IH]; simpl; [reflexivity |].
  rewrite (Hget c Hc), IH. reflexivity.
Qed.

Lemma for_each_parcel_column (f : list Cell -> result (list Cell)) (cols : list string)
    (ps : list Cell) (df df' : DataFrame) (c : string) :
  for_each_parcel (transform_parcel f cols) df ps = Ok df' ->
  ~ In c cols -> column c df' = column c df.
Proof.
  intros H Hc. revert df H. induction ps as [| q ps IH]; intros df H; simpl in H.
  - inversion H. reflexivity.
  - apply rbind_ok in H. destruct H as (df1 & H1 & H).
    rewrite (IH df1 H). apply transform_parcel_inv in H1.
    destruct H1 as (filled & Hf & ->). unfold column. cbn [rows].
    apply assign_masked_column.
    destruct (filled_columns _ _ _ Hf) as (Hk & _). rewrite Hk. exact Hc.
Qed.

Lemma append_x_not_date (k : string) : (k ++ "_x")%string <> "date".
Proof.
  intros H.
  do 4 (destruct k as [| ? k]; simpl in H; [discriminate H | injection H as _ H]).
  destruct k; discriminate H.
Qed.

Lemma append_y_not_date (k : string) : (k ++ "_y")%string <> "date".
Proof.
  intros H.
  do 4 (destruct k as [| ? k]; simpl in H; [discriminate H | injection H as _ H]).
  destruct k; discriminate H.
Qed.

Lemma append_x_not_parcelle_id (k : string) : (k ++ "_x")%string <> "parcelle_id".
Proof.
  intros H.
  do 11 (destruct k as [| ? k]; simpl in H; [discriminate H | injection H as _ H]).
  destruct k; discriminate H.
Qed.

Lemma append_y_not_parcelle_id (k : string) : (k ++ "_y")%string <> "parcelle_id".
Proof.
  intros H.
  do 11 (destruct k as [| ? k]; simpl in H; [discriminate H | injection H as _ H]).
  destruct k; discriminate H.
Qed.

(** The two keys of the yield merge are no suffixed names. *)
Lemma suffixed_not_key (overlap : list string) (suffix k c : string) :
  suffix = "_x" \/ suffix = "_y" ->
  c = "date" \/ c = "parcelle_id" ->
  k <> c -> suffixed overlap suffix k <> c.
Proof.
  intros Hs Hc Hk. unfold suffixed. destruct (mem k overlap); [| exact Hk].
  destruct Hs as [-> | ->]; destruct Hc as [-> | ->];
    [apply append_x_not_date | apply append_x_not_parcelle_id
     | apply append_y_not_date | apply append_y_not_parcelle_id].
Qed.

Lemma key_not_overlapping (c : string) (keys lcols rcols : list string) :
  mem c keys = true -> mem c (overlapping keys lcols rcols) = false.
Proof.
  intros Hk. destruct (mem c (overlapping keys lcols rcols)) eqn:E; [| reflexivity].
  apply mem_In in E. unfold overlapping in E. apply filter_In in E.
  destruct E as [_ E]. rewrite Hk in E. rewrite andb_false_r in E. discriminate.
Qed.

Lemma mem_app (c : string) (a b : list string) : mem c (a ++ b) = mem c a || mem c b.
Proof.
  unfold mem. apply existsb_app.
Qed.

Lemma mem_suffixed_key (overlap : list string) (suffix c : string) (l : list string) :
  suffix = "_x" \/ suffix = "_y" ->
  c = "date" \/ c = "parcelle_id" ->
  mem c overlap = false ->
  mem c (map (suffixed overlap suffix) l) = mem c l.
Proof.
  intros Hs Hc Ho. unfold mem. induction l as [| k t IH]; simpl; [reflexivity |].
  rewrite IH. f_equal.
  destruct (String.eqb c k) eqn:E.
  - apply String.eqb_eq in E. subst k. unfold suffixed.
    rewrite Ho. apply String.eqb_refl.
  - apply String.eqb_neq in E. apply String.eqb_neq. intros E'.
    apply (suffixed_not_key overlap suffix k c Hs Hc); congruence.
Qed.

Lemma mem_remove_names_key (c : string) (keys l : list string) :
  mem c keys = true -> mem c (remove_names keys l) = false.
Proof.
  intros Hk. destruct (mem c (remove_names keys l)) eqn:E; [| reflexivity].
  apply mem_In in E. unfold remove_names in E. apply filter_In in E.
  destruct E as [_ E]. rewrite Hk in E. discriminate.
Qed.

(** A join key that is a column of the left table is a column of the
    joined table, and no other column takes its name. *)
Lemma joined_columns_key (keys lcols rcols : list string) (c : string) :
  c = "date" \/ c = "parcelle_id" ->
  mem c keys = true ->
  mem c (joined_columns keys lcols rcols) = mem c lcols.
Proof.
  intros Hc Hk. unfold joined_columns. rewrite mem_app.
  pose proof (key_not_overlapping c keys lcols rcols Hk) as Ho.
  rewrite !mem_suffixed_key by auto.
  rewrite (mem_remove_names_key c keys rcols Hk). apply orb_false_r.
Qed.

(** The joined row keeps the left row's value of a join key. *)
Lemma joined_row_key (keys lcols rcols : list string) (l : Row) (y : option Row)
    (c : string) :
  c = "date" \/ c = "parcelle_id" ->
  mem c keys = true ->
  lookup c (joined_row keys lcols rcols l y) = lookup c l.
Proof.
  intros Hc Hk. unfold joined_row. rewrite lookup_app.
  pose proof (key_not_overlapping c keys lcols rcols Hk) as Ho.
  rewrite lookup_rename_same.
  2:{ intros k Hkc. apply suffixed_not_key; auto. }
  2:{ unfold suffixed. rewrite Ho. reflexivity. }
  destruct (lookup c l) as [v |]; [reflexivity |].
  destruct y as [y' |].
  - rewrite lookup_rename_same.
    + rewrite lookup_remove_keys, Hk. reflexivity.
    + intros k Hkc. apply suffixed_not_key; auto.
    + unfold suffixed. rewrite Ho. reflexivity.
  - rewrite lookup_null_row, mem_suffixed_key by auto.
    rewrite (mem_remove_names_key c keys rcols Hk). reflexivity.
Qed.

Lemma mem_culture_right (overlap keys l : list string) :
  mem "culture" keys = false ->
  mem "culture" overlap = false ->
  mem "culture" (map (suffixed overlap "_y") (remove_names keys l)) = mem "culture" l.
Proof.
  intros Hk Ho. unfold remove_names. induction l as [| k t IH]; [reflexivity |].
  cbn [filter]. change (mem "culture" (k :: t))
    with (String.eqb "culture" k || mem "culture" t).
  destruct (String.eqb "culture" k) eqn:E.
  - apply String.eqb_eq in E. subst k. rewrite Hk. cbn [negb map].
    change (mem "culture" (?a :: ?b)) with (String.eqb "culture" a || mem "culture" b).
    unfold suffixed at 1. rewrite Ho, String.eqb_refl. reflexivity.
  - destruct (negb (mem k keys)); [| exact IH]. cbn [map].
    change (mem "culture" (?a :: ?b)) with (String.eqb "culture" a || mem "culture" b).
    rewrite IH.
    assert (Hne : String.eqb "culture" (suffixed overlap "_y" k) = false).
    { apply String.eqb_neq. intros E'. apply String.eqb_neq in E.
      apply (suffixed_not_culture overlap "_y" k (or_intror eq_refl)); congruence. }
    rewrite Hne. reflexivity.
Qed.

(** A left table without [culture]: the joined table has the column
    exactly when the right table has it. *)
Lemma joined_columns_culture (keys lcols rcols : list string) :
  mem "culture" keys = false ->
  mem "culture" lcols = false ->
  mem "culture" (joined_columns keys lcols rcols) = mem "culture" rcols.
Proof.
  intros Hk Hl. unfold joined_columns. rewrite mem_app.
  assert (Ho : mem "culture" (overlapping keys lcols rcols) = false).
  { destruct (mem "culture" (overlapping keys lcols rcols)) eqn:E; [| reflexivity].
    apply mem_In in E. unfold overlapping in E. apply filter_In in E.
    destruct E as [E _]. apply mem_In in E. congruence. }
  rewrite (mem_culture_right _ _ _ Hk Ho).
  destruct (mem "culture" (map (suffixed (overlapping keys lcols rcols) "_x") lcols))
    eqn:E; [| reflexivity].
  apply mem_In in E. apply in_map_iff in E. destruct E as (k & E & Hin).
  exfalso.
  apply (suffixed_not_culture (overlapping keys lcols rcols) "_x" k (or_introl eq_refl));
    [| exact E].
  intros ->. apply mem_In in Hin. congruence.
Qed.

Lemma merge_left_columns (keys : list string) (left right merged : DataFrame) :
  merge_left keys left right = Ok merged ->
  columns merged = joined_columns keys (columns left) (columns right).
Proof.
  unfold merge_left. destruct (find _ keys); [discriminate |].
  intros H. inversion H. reflexivity.
Qed.

Lemma for_each_parcel_columns (f : list Cell -> result (list Cell)) (cols : list string)
    (ps : list Cell) (df df' : DataFrame) :
  for_each_parcel (transform_parcel f cols) df ps = Ok df' ->
  columns df' = columns df.
Proof.
  revert df. induction ps as [| q ps IH]; intros df H; simpl in H.
  - inversion H. reflexivity.
  - apply rbind_ok in H. destruct H as (df1 & H1 & H).
    rewrite (IH df1 H). apply transform_parcel_inv in H1.
    destruct H1 as (filled & _ & ->). reflexivity.
Qed.

Lemma fillna_column_columns (c : string) (v : Cell) (df df' : DataFrame) :
  fillna_column c v df = Ok df' -> columns df' = columns df.
Proof.
  unfold fillna_column. destruct (has_column c df); [| discriminate].
  intros H. inversion H. reflexivity.
Qed.

(** The value of a join key on the rows of a table: a column of the
    table, or its index. *)
Lemma key_values (k : string) (df : DataFrame) :
  map (key_value k df) (rows df) = if has_column k df then column k df else index df.
Proof.
  unfold key_value, column, index. destruct (has_column k df); reflexivity.
Qed.

Lemma yield_matches_by_keys (m : Manager) (df df' : DataFrame) (r r' : Cell * Row) :
  key_value "date" df r = key_value "date" df' r' ->
  key_value "parcelle_id" df r = key_value "parcelle_id" df' r' ->
  yield_matches m df r = yield_matches m df' r'.
Proof.
  intros Hd Hp. unfold yield_matches, matches. apply filter_ext. intros y.
  unfold keys_match. cbn [forallb]. rewrite Hd, Hp. reflexivity.
Qed.

Lemma map_by_two_keys {A B C K : Type} (f1 f2 : A -> K) (g1 g2 : B -> K)
    (h : A -> C) (h' : B -> C) (l : list A) (l' : list B) :
  (forall a b, f1 a = g1 b -> f2 a = g2 b -> h a = h' b) ->
  map f1 l = map g1 l' -> map f2 l = map g2 l' ->
  map h l = map h' l'.
Proof.
  intros Hh. revert l'. induction l as [| a l IH]; intros [| b l'] H1 H2;
    simpl in *; try discriminate; [reflexivity |].
  injection H1 as E1 H1. injection H2 as E2 H2.
  rewrite (Hh a b E1 E2), (IH l' H1 H2). reflexivity.
Qed.

(** The enriched table, against the table the merge took on its left:
    the same keys row by row, the culture of the matching yield record,
    and never two of them. *)
Lemma enrich_by_own_keys (m : Manager) (data features : DataFrame) :
  _enrich_with_yield_history m data = Ok features ->
  exists data',
    has_column "culture" features = has_column "culture" (yield_history m)
    /\ columns features
       = joined_columns ["date"; "parcelle_id"] (columns data') (columns (yield_history m))
    /\ index features = index data'
    /\ column "date" features = column "date" data'
    /\ column "parcelle_id" features = column "parcelle_id" data'
    /\ (forall d, In d (rows data') ->
                  (List.length (yield_matches m data' d) <= 1)%nat)
    /\ column "culture" features
       = map (fun d => culture_of (yield_matches m data' d)) (rows data').
Proof.
  intros H. destruct (enrich_culture _ _ _ H) as (data' & Hd & Hcol & Hrows & Hi & Hc).
  apply enrich_with_yield_history_inv in H.
  destruct H as (data'' & merged & Hd' & Hm & Hs).
  assert (data'' = data') by congruence. subst data''. clear Hd'.
  exists data'.
  destruct (set_index_labels_inv _ _ _ _ Hs) as (Hn & _ & _ & Hsnd & _ & Hcols).
  pose proof (merge_left_columns _ _ _ _ Hm) as Hmc.
  pose proof (drop_columns_inv _ _ _ Hd) as Hdata'.
  assert (Hidx : index data = index data').
  { subst data'. unfold index. cbn [rows]. rewrite map_map. reflexivity. }
  assert (Hnrows : nrows merged = nrows data').
  { rewrite Hn, Hidx. unfold index, nrows. apply length_map. }
  pose proof (merge_left_single_rows _ _ _ _ Hm Hnrows) as Hrowsm.
  assert (Hkey : forall c, c = "date" \/ c = "parcelle_id" ->
                           column c features = column c data').
  { intros c Hck. unfold column, get.
    rewrite <- (map_map snd (fun r => match lookup c r with Some v => v | None => Null end)).
    rewrite Hsnd, Hrowsm, map_map. apply map_ext. intros l.
    rewrite joined_row_key; [reflexivity | exact Hck |].
    destruct Hck as [-> | ->]; reflexivity. }
  split.
  { unfold has_column. rewrite Hcols, Hmc.
    apply joined_columns_culture; [reflexivity | exact Hcol]. }
  split; [congruence |]. split; [congruence |].
  split; [apply Hkey; left; reflexivity |].
  split; [apply Hkey; right; reflexivity |].
  split.
  - intros d Hin.
    pose proof (merge_left_count _ _ _ _ Hm) as Hc'. rewrite Hnrows in Hc'.
    symmetry in Hc'. unfold nrows in Hc'.
    pose proof (list_sum_ones_inv _ _ (fun l => Nat.le_max_l 1 _) Hc' d Hin) as Hone.
    cbv beta in Hone. unfold yield_matches. lia.
  - rewrite Hc. apply map_ext. intros d. unfold culture_of, yield_matches.
    reflexivity.
Qed.

Lemma has_column_by_columns (c : string) (df df' : DataFrame) :
  columns df' = columns df -> has_column c df' = has_column c df.
Proof.
  unfold has_column. intros ->. reflexivity.
Qed.

(** C9, as amended: the culture of the feature table is YieldHistory's.
    In the table [prepare_features] returns, a row carries the culture of
    the YieldHistory record that matches the row's own date and
    [parcelle_id] -- there is never more than one -- and null when no
    record does; the table has a [culture] column exactly when YieldHistory
    has one.  The culture column that came with Monitoring was dropped
    before the merge. *)
Theorem feature_table_culture_comes_from_yield_history (s s' : State)
    (features : DataFrame) :
  prepare_features s = (s', Ok features) ->
  has_column "culture" features = has_column "culture" (yield_history (self s'))
  /\ (forall r, In r (rows features) ->
                (List.length (yield_matches (self s') features r) <= 1)%nat)
  /\ column "culture" features
     = map (fun r => culture_of (yield_matches (self s') features r)) (rows features).
Proof.
  intros H. apply prepare_features_inv in H.
  destruct H as (mon & w & y & text & c1 & mg & c2 & f0 & f1 & f2
                 & _ & _ & _ & -> & _ & _ & _ & H4 & H5 & H6 & H7).
  cbn [self].
  set (m := {| monitoring_data := mon; weather_data := w;
               soil_data := soil_data (self s); yield_history := y |}) in *.
  destruct (enrich_by_own_keys _ _ _ H4)
    as (data' & Hhas & Hcols & Hi & Kd & Kp & Hone & Hc).
  destruct (fill_gaps_frame _ _ H5) as (_ & Hi5 & _).
  destruct (interpolate_gaps_frame _ _ H6) as (_ & Hi6 & _).
  destruct (fillna_column_inv _ _ _ _ H7) as (_ & Hi7 & Hc7).
  pose proof (fillna_column_columns _ _ _ _ H7) as Hcols7.
  unfold interpolate_gaps in H6. apply rbind_ok in H6. destruct H6 as (ids6 & _ & H6).
  unfold fill_gaps in H5. apply rbind_ok in H5. destruct H5 as (ids5 & _ & H5).
  pose proof (for_each_parcel_columns _ _ _ _ _ H6) as Hcols6.
  pose proof (for_each_parcel_columns _ _ _ _ _ H5) as Hcols5.
  assert (Hcolumns : columns features = columns f0) by congruence.
  assert (Hindex : index features = index data') by congruence.
  assert (Hkeep : forall c, c = "date" \/ c = "parcelle_id" \/ c = "culture" ->
                            column c features = column c f0).
  { intros c Hck. rewrite Hc7 by (intuition (subst; discriminate)).
    rewrite (for_each_parcel_column _ _ _ _ _ c H6)
      by (simpl; intuition (subst; discriminate)).
    apply (for_each_parcel_column _ _ _ _ _ c H5).
    simpl; intuition (subst; discriminate). }
  (* the keys of a row of the feature table are those of the merged row *)
  assert (Hkeys : forall c, c = "date" \/ c = "parcelle_id" ->
                            map (key_value c features) (rows features)
                            = map (key_value c data') (rows data')).
  { intros c Hck. rewrite !key_values.
    assert (Hh : has_column c features = has_column c data').
    { unfold has_column. rewrite Hcolumns, Hcols. apply joined_columns_key; [exact Hck |].
      destruct Hck as [-> | ->]; reflexivity. }
    rewrite Hh. destruct (has_column c data'); [| exact Hindex].
    rewrite Hkeep by tauto. destruct Hck as [-> | ->]; assumption. }
  assert (Hmatches : map (yield_matches m features) (rows features)
                     = map (yield_matches m data') (rows data')).
  { apply (map_by_two_keys (key_value "date" features) (key_value "parcelle_id" features)
                           (key_value "date" data') (key_value "parcelle_id" data')).
    - intros a b. apply yield_matches_by_keys.
    - apply Hkeys. left. reflexivity.
    - apply Hkeys. right. reflexivity. }
  split.
  { rewrite (has_column_by_columns "culture" _ _ Hcolumns). exact Hhas. }
  split.
  - intros r Hr.
    assert (Hin : In (yield_matches m features r)
                     (map (yield_matches m features) (rows features))).
    { apply in_map. exact Hr. }
    rewrite Hmatches in Hin. apply in_map_iff in Hin. destruct Hin as (d & <- & Hd).
    apply Hone. exact Hd.
  - rewrite Hkeep by tauto. rewrite Hc.
    rewrite <- (map_map (yield_matches m features) culture_of), Hmatches, map_map.
    reflexivity.
Qed.

(** C9, as stated, fails: on the sample tables Monitoring grows "ble" and
    "mais", and the feature table carries YieldHistory's "orge" where a
    yield record matches and null elsewhere. *)
Lemma feature_table_culture_is_not_monitoring_culture :
  exists s' features,
    prepare_features sample_state = (s', Ok features)
    /\ column "culture" (monitoring_data (self sample_state))
       = [Str "ble"; Str "mais"; Str "ble"; Str "mais"; Str "ble"]
    /\ column "culture" features = [Str "orge"; Null; Str "orge"; Null; Null]
    /\ column "culture" features <> column "culture" (monitoring_data (self sample_state)).
Proof.
  do 2 eexists. split; [vm_compute; reflexivity |].
  split; [vm_compute; reflexivity |].
  split; [vm_compute; reflexivity |].
  vm_compute. discriminate.
Qed.

Lemma feature_table_culture_comes_from_yield_history_witness :
  exists s' features,
    prepare_features sample_state = (s', Ok features)
    /\ column "culture" features
       = map (fun r => culture_of (yield_matches (self s') features r)) (rows features).
Proof.
  assert (H : exists s' features, prepare_features sample_state = (s', Ok features)).
  { do 2 eexists. vm_compute. reflexivity. }
  destruct H as (s' & features & H). exists s', features. split; [exact H |].
  apply (feature_table_culture_comes_from_yield_history sample_state s' features H).
Defined.

(** * Further properties of the data manager *)

(** ** Loading *)

Lemma In_firstn {A : Type} (n : nat) (l : list A) (x : A) :
  In x (firstn n l) -> In x l.
Proof.
  revert l. induction n as [| n IH]; intros [| y t]; simpl; try contradiction.
  intros [H | H]; auto.
Qed.

Lemma In_skipn {A : Type} (n : nat) (l : list A) (x : A) :
  In x (skipn n l) -> In x l.
Proof.
  revert l. induction n as [| n IH]; intros [| y t]; simpl; auto.
Qed.

Lemma chunk_cells (P : Cell -> bool) (weather : DataFrame) (i : nat) (c : string) :
  forallb P (column c weather) = true ->
  forallb P (map (fun r => get c (snd r))
                 (firstn chunk_size (skipn i (rows weather)))) = true.
Proof.
  intros H. apply forallb_forall. intros x Hx.
  apply in_map_iff in Hx. destruct Hx as (r & <- & Hr).
  apply In_firstn, In_skipn in Hr.
  apply (forallb_In _ _ _ H). apply column_In. exact Hr.
Qed.

Lemma dropna_timeish (cells : list Cell) :
  forallb timeish cells = true -> exists ts, dropna cells = map Time ts.
Proof.
  induction cells as [| c t IH]; simpl; intros H.
  - exists []. reflexivity.
  - apply andb_true_iff in H. destruct H as [Hc Ht].
    destruct (IH Ht) as (ts & Hts).
    destruct c; try discriminate; simpl.
    + exists ts. exact Hts.
    + eexists (_ :: ts). unfold dropna in *. simpl. rewrite Hts. reflexivity.
Qed.

Lemma column_mean_timeish (cells : list Cell) :
  forallb timeish cells = true ->
  exists v, column_mean cells = Ok v /\ timeish v = true.
Proof.
  intros H. destruct (dropna_timeish cells H) as (ts & Hts).
  unfold column_mean. rewrite Hts. destruct ts as [| t ts].
  - simpl. eexists. split; reflexivity.
  - simpl. rewrite (all_some_map as_time Time) by reflexivity.
    eexists. split; reflexivity.
Qed.

Lemma frame_mean_total (cols : list string) (rs : list (Cell * Row)) :
  (forall c, In c cols ->
             exists v, column_mean (map (fun r => get c (snd r)) rs) = Ok v) ->
  exists r, frame_mean cols rs = Ok r.
Proof.
  intros H. unfold frame_mean. apply mapM_total. apply Forall_forall.
  intros c Hc. destruct (H c Hc) as (v & ->). simpl. eauto.
Qed.

Lemma aggregate_chunk_total (weather : DataFrame) (i : nat) :
  weather_typed weather = true -> exists r, aggregate_chunk weather i = Ok r.
Proof.
  unfold weather_typed. intros H. apply andb_true_iff in H. destruct H as [Hd Hc].
  destruct (frame_mean_total (columns weather)
              (firstn chunk_size (skipn i (rows weather)))) as (chunk_mean & Hmean).
  { intros c Hin. pose proof (forallb_In _ _ _ Hc Hin) as Ht. cbv beta in Ht.
    destruct (String.eqb c "date").
    - destruct (column_mean_timeish _ (chunk_cells timeish weather i c Ht)) as (v & Hv & _).
      eauto.
    - destruct (column_mean_numeric _ (chunk_cells numeric weather i c Ht)) as (v & Hv & _).
      eauto. }
  unfold aggregate_chunk. rewrite Hmean. cbn [rbind].
  destruct (lookup_In_keys "date" chunk_mean) as (d & Hd').
  { rewrite (frame_mean_keys _ _ _ Hmean). apply mem_In. exact Hd. }
  unfold series_get. rewrite Hd'. cbn [rbind].
  pose proof (frame_mean_lookup _ _ _ _ _ Hmean Hd') as Hcm.
  pose proof (forallb_In _ _ _ Hc (proj1 (mem_In _ _) Hd)) as Ht. cbv beta in Ht.
  rewrite String.eqb_refl in Ht.
  destruct (column_mean_timeish _ (chunk_cells timeish weather i "date" Ht))
    as (v & Hv & Htv).
  rewrite Hv in Hcm. inversion Hcm; subst v.
  destruct d; try discriminate; simpl; eauto.
Qed.

(** X1: on a raw weather table with a [date] column of timestamps and
    floats elsewhere, and a yield table that has [rendement_final],
    [load_data] returns, and its weather table has one record per started
    block of 24 raw rows: ceil(N / 24) records, none for an empty table. *)
Theorem load_data_aggregates_by_blocks (monitoring weather soil yields : DataFrame) :
  weather_typed weather = true ->
  has_column "rendement_final" yields = true ->
  exists m,
    load_data monitoring weather soil yields = Ok m
    /\ nrows (weather_data m) = ((nrows weather + 23) / 24)%nat
    /\ monitoring_data m = monitoring
    /\ soil_data m = soil.
Proof.
  intros Hw Hy. unfold load_data, fillna_column. rewrite Hy. cbn [rbind].
  destruct (mapM_total (aggregate_chunk weather) (chunk_starts (nrows weather)))
    as (result_list & Hl).
  { apply Forall_forall. intros i _. apply aggregate_chunk_total. exact Hw. }
  assert (Hagg : aggregate_weather weather = Ok (frame_of_series result_list)).
  { unfold aggregate_weather. rewrite Hl. reflexivity. }
  rewrite Hagg. cbn [rbind]. eexists. split; [reflexivity |].
  cbn [weather_data monitoring_data soil_data].
  split; [apply (aggregate_weather_count _ _ Hagg) | split; reflexivity].
Qed.

Lemma load_data_aggregates_by_blocks_witness :
  exists m,
    load_data sample_monitoring sample_weather sample_soil sample_yields = Ok m
    /\ nrows (weather_data m) = 3%nat.
Proof.
  destruct (load_data_aggregates_by_blocks sample_monitoring sample_weather
              sample_soil sample_yields eq_refl eq_refl) as (m & H & Hn & _).
  exists m. split; [exact H | exact Hn].
Defined.

Lemma column_mean_of_numbers (cells : list Cell) (qs : list Q) :
  dropna cells = map Num qs -> column_mean cells = Ok (mean_q qs).
Proof.
  intros H. unfold column_mean. rewrite H.
  rewrite (all_some_map as_num Num) by reflexivity. reflexivity.
Qed.

Lemma column_mean_of_timestamps (cells : list Cell) (ts : list Z) :
  dropna cells = map Time ts -> column_mean cells = Ok (mean_time ts).
Proof.
  intros H. unfold column_mean. rewrite H. destruct ts as [| t ts].
  - reflexivity.
  - simpl. rewrite (all_some_map as_time Time) by reflexivity. reflexivity.
Qed.

Lemma load_data_inv (monitoring weather soil yields : DataFrame) (m : Manager) :
  load_data monitoring weather soil yields = Ok m ->
  fillna_column "rendement_final" (Num (0 # 1)) yields = Ok (yield_history m)
  /\ aggregate_weather weather = Ok (weather_data m)
  /\ monitoring_data m = monitoring
  /\ soil_data m = soil.
Proof.
  unfold load_data. intros H.
  apply rbind_ok in H. destruct H as (yields' & Hy & H).
  apply rbind_ok in H. destruct H as (weather' & Hw & H).
  inversion H; subst m; clear H. simpl. auto.
Qed.

(** X2: record [k] of the weather table [load_data] builds is the mean of
    rows 24k .. 24k+23 of the raw table, column by column and missing
    readings skipped: the sum over the count for a column of numbers
    (NaN when the block has no reading), and for a column of timestamps
    -- the date -- the mean instant of the block. *)
Theorem daily_record_is_block_mean (monitoring weather soil yields : DataFrame)
    (m : Manager) (k : nat) :
  load_data monitoring weather soil yields = Ok m ->
  (k < nrows (weather_data m))%nat ->
  exists r,
    nth_error (rows (weather_data m)) k = Some (range_label k, r)
    /\ forall c, In c (columns weather) ->
         (forall qs, dropna (block_cells weather k c) = map Num qs ->
                     get c r = mean_q qs)
         /\ (forall ts, dropna (block_cells weather k c) = map Time ts ->
                        get c r = mean_time ts).
Proof.
  intros H Hk. apply load_data_inv in H. destruct H as (_ & Hw & _).
  destruct (aggregated_record_is_block_mean _ _ k Hw Hk) as (r & Hr & Hmean).
  exists r. split; [exact Hr |]. intros c Hc. specialize (Hmean c Hc). split.
  - intros qs Hqs. rewrite (column_mean_of_numbers _ _ Hqs) in Hmean.
    inversion Hmean. reflexivity.
  - intros ts Hts. rewrite (column_mean_of_timestamps _ _ Hts) in Hmean.
    inversion Hmean. reflexivity.
Qed.

Lemma daily_record_is_block_mean_witness :
  exists m r,
    load_data sample_monitoring sample_weather sample_soil sample_yields = Ok m
    /\ nth_error (rows (weather_data m)) 2 = Some (range_label 2, r)
    /\ get "temperature" r = Num (150 # 5)
    /\ get "date" r = Time (timestamp 2021 1 3 2 0 0).
Proof.
  destruct (load_data sample_monitoring sample_weather sample_soil sample_yields)
    as [m | e] eqn:E; [| vm_compute in E; discriminate].
  destruct (daily_record_is_block_mean sample_monitoring sample_weather
              sample_soil sample_yields m 2 E) as (r & Hr & Hmean).
  { apply load_data_inv in E. destruct E as (_ & Hw & _).
    rewrite (aggregate_weather_count _ _ Hw). vm_compute. reflexivity. }
  exists m, r. split; [reflexivity |]. split; [exact Hr |]. split.
  - apply (proj1 (Hmean "temperature" ltac:(simpl; auto))
                 [30#1; 30#1; 30#1; 30#1; 30#1]%Q).
    vm_compute. reflexivity.
  - apply (proj2 (Hmean "date" ltac:(simpl; auto))
                 (map (fun h => timestamp 2021 1 3 h 0 0) [0; 1; 2; 3; 4])).
    vm_compute. reflexivity.
Defined.

(** X3: [load_data] replaces the missing [rendement_final] values of the
    yield history by 0 and changes nothing else in that table: same
    index, same columns, every other value as it was read. *)
Theorem load_data_replaces_missing_yields_by_zero
    (monitoring weather soil yields : DataFrame) (m : Manager) :
  load_data monitoring weather soil yields = Ok m ->
  column "rendement_final" (yield_history m)
  = map (fillna_cell (Num (0 # 1))) (column "rendement_final" yields)
  /\ existsb isnull (column "rendement_final" (yield_history m)) = false
  /\ index (yield_history m) = index yields
  /\ columns (yield_history m) = columns yields
  /\ forall c, c <> "rendement_final" -> column c (yield_history m) = column c yields.
Proof.
  intros H. pose proof (load_data_fills_missing_yields _ _ _ _ _ H) as Hnull.
  apply load_data_inv in H. destruct H as (Hy & _).
  destruct (fillna_column_inv _ _ _ _ Hy) as (_ & Hidx & Hcols).
  unfold fillna_column in Hy. destruct (has_column _ yields); [| discriminate].
  inversion Hy as [Hm]. rewrite <- Hm in *. clear Hy Hm.
  split; [| split; [exact Hnull | split; [exact Hidx | split; [reflexivity | exact Hcols]]]].
  unfold column. cbn [rows]. rewrite !map_map. apply map_ext. intros r. cbn [snd].
  apply get_set_same.
Qed.

Lemma load_data_replaces_missing_yields_by_zero_witness :
  exists m,
    load_data sample_monitoring sample_weather sample_soil sample_yields = Ok m
    /\ column "rendement_final" sample_yields = [Num 7; Null; Num 4]
    /\ column "rendement_final" (yield_history m) = [Num 7; Num 0; Num 4].
Proof.
  destruct (load_data sample_monitoring sample_weather sample_soil sample_yields)
    as [m | e] eqn:E; [| vm_compute in E; discriminate].
  exists m. split; [reflexivity |]. split; [reflexivity |].
  destruct (load_data_replaces_missing_yields_by_zero _ _ _ _ _ E) as (H & _).
  rewrite H. reflexivity.
Defined.

(** ** Feature preparation, when it fails *)

Lemma set_index_missing (c : string) (df : DataFrame) :
  has_column c df = false ->
  set_index c df = Raise (KeyError ("None of ['" ++ c ++ "'] are in the columns")).
Proof.
  unfold set_index. intros ->. reflexivity.
Qed.

Lemma prepare_features_stops_at_second_index (s : State) (monitoring : DataFrame) :
  set_index "date" (monitoring_data (self s)) = Ok monitoring ->
  has_column "date" (weather_data (self s)) = false ->
  prepare_features s
  = ({| self := {| monitoring_data := monitoring;
                   weather_data := weather_data (self s);
                   soil_data := soil_data (self s);
                   yield_history := yield_history (self s) |};
        stdout := stdout s |},
     Raise (KeyError "None of ['date'] are in the columns")).
Proof.
  intros Hm Hw.
  cbv [prepare_features bind _setup_temporal_indices read lift assign_monitoring_data].
  rewrite Hm. cbn [self weather_data].
  rewrite (set_index_missing _ _ Hw). reflexivity.
Qed.

(** X4: [prepare_features] is not atomic.  When the monitoring table has
    its [date] column and the weather table has none, the call raises the
    KeyError of the second [set_index] after the first one has already
    replaced [monitoring_data] by its date-indexed version; the other
    tables and the output are as before, and any further call raises the
    same KeyError, at the monitoring table this time. *)
Theorem prepare_features_fails_after_first_index (s : State) (monitoring : DataFrame) :
  set_index "date" (monitoring_data (self s)) = Ok monitoring ->
  has_column "date" (weather_data (self s)) = false ->
  exists s',
    prepare_features s = (s', Raise (KeyError "None of ['date'] are in the columns"))
    /\ monitoring_data (self s') = monitoring
    /\ monitoring_data (self s') <> monitoring_data (self s)
    /\ weather_data (self s') = weather_data (self s)
    /\ soil_data (self s') = soil_data (self s)
    /\ yield_history (self s') = yield_history (self s)
    /\ stdout s' = stdout s
    /\ prepare_features s' = (s', Raise (KeyError "None of ['date'] are in the columns")).
Proof.
  intros Hm Hw. destruct (set_index_inv _ _ _ Hm) as (Hhas & Hnot & _).
  eexists. split.
  - apply (prepare_features_stops_at_second_index _ _ Hm Hw).
  - cbn [self stdout monitoring_data weather_data soil_data yield_history].
    repeat (split; [reflexivity |]). split.
    + intros E. rewrite E, Hhas in Hnot. discriminate.
    + split; [reflexivity | split; [reflexivity | split; [reflexivity | split; [reflexivity |]]]].
      apply prepare_features_stops_at_first_index. cbn [self monitoring_data].
      apply set_index_missing. exact Hnot.
Qed.

Lemma prepare_features_fails_after_first_index_witness :
  exists s',
    prepare_features state_without_weather
    = (s', Raise (KeyError "None of ['date'] are in the columns"))
    /\ monitoring_data (self s') <> monitoring_data (self state_without_weather).
Proof.
  destruct (prepare_features_fails_after_first_index state_without_weather
              (match set_index "date" sample_monitoring with
               | Ok df => df | Raise _ => sample_monitoring end)
              eq_refl eq_refl) as (s' & H & _ & Hne & _).
  exists s'. split; [exact H | exact Hne].
Defined.

(** X5: a weather file without any reading passes [load_data] -- the
    loop does not run, and the table built from the empty list has no
    column at all, not even [date] -- and makes [prepare_features] raise
    the KeyError of [set_index('date')] on the weather table. *)
Theorem empty_weather_file_breaks_prepare_features
    (monitoring weather soil yields : DataFrame) (out : list string) :
  nrows weather = 0%nat ->
  has_column "rendement_final" yields = true ->
  has_column "date" monitoring = true ->
  exists m,
    load_data monitoring weather soil yields = Ok m
    /\ columns (weather_data m) = []
    /\ nrows (weather_data m) = 0%nat
    /\ snd (prepare_features {| self := m; stdout := out |})
       = Raise (KeyError "None of ['date'] are in the columns").
Proof.
  intros Hn Hy Hd. unfold load_data, fillna_column, aggregate_weather. rewrite Hy, Hn.
  cbn [rbind chunk_starts range_step mapM frame_of_series].
  eexists. split; [reflexivity |]. cbn [weather_data columns].
  split; [reflexivity |]. split; [reflexivity |].
  destruct (set_index "date" monitoring) as [mon | e] eqn:E;
    [| unfold set_index in E; rewrite Hd in E; discriminate].
  rewrite (prepare_features_stops_at_second_index _ mon); [reflexivity | exact E |].
  reflexivity.
Qed.

Lemma empty_weather_file_breaks_prepare_features_witness :
  exists m,
    load_data sample_monitoring (frame weather_columns []) sample_soil sample_yields = Ok m
    /\ columns (weather_data m) = [].
Proof.
  destruct (empty_weather_file_breaks_prepare_features
              sample_monitoring (frame weather_columns []) sample_soil sample_yields []
              eq_refl eq_refl eq_refl) as (m & H & Hc & _).
  exists m. split; [exact H | exact Hc].
Defined.

(** ** The verdict on missing dates *)

Lemma index_equals_spec (labels : list Cell) (expected : list Z) :
  index_equals labels expected = true <-> labels = map Time expected.
Proof.
  revert expected. induction labels as [| c t IH]; intros [| e es]; simpl.
  - tauto.
  - split; discriminate.
  - split; [destruct c |]; discriminate.
  - destruct c; try (split; discriminate).
    rewrite andb_true_iff, Z.eqb_eq, IH. split.
    + intros [-> ->]. reflexivity.
    + intros H. inversion H. auto.
Qed.

Lemma label_time_timestamps (zs : list Z) :
  mapM label_time (map Time zs) = Ok (map Some zs).
Proof.
  induction zs as [| z t IH]; simpl; [| rewrite IH]; reflexivity.
Qed.

Lemma present_some {A : Type} (l : list A) : present (map Some l) = l.
Proof.
  induction l as [| x t IH]; simpl; [| rewrite IH]; reflexivity.
Qed.

Lemma fold_min_ascending (a : Z) (n from : nat) (x : Z) :
  x <= a + Z.of_nat from * ns_per_day ->
  fold_left Z.min (map (fun k => a + Z.of_nat k * ns_per_day) (seq from n)) x = x.
Proof.
  revert from x. induction n as [| n IH]; intros from x Hx; simpl.
  - reflexivity.
  - rewrite Z.min_l by exact Hx. apply IH.
    unfold ns_per_day, ns_per_second in *. lia.
Qed.

Lemma fold_max_ascending (a : Z) (n from : nat) :
  fold_left Z.max (map (fun k => a + Z.of_nat k * ns_per_day) (seq (S from) n))
            (a + Z.of_nat from * ns_per_day)
  = a + Z.of_nat (from + n) * ns_per_day.
Proof.
  revert from. induction n as [| n IH]; intros from; simpl.
  - rewrite Nat.add_0_r. reflexivity.
  - rewrite Z.max_r by (unfold ns_per_day, ns_per_second; lia).
    change (a + Z.pos (Pos.of_succ_nat from) * ns_per_day)
      with (a + Z.of_nat (S from) * ns_per_day).
    rewrite IH. do 3 f_equal. lia.
Qed.

Lemma daily_timestamps (start : Z) (n : nat) :
  daily start n = map Time (map (fun k => start + Z.of_nat k * ns_per_day) (seq 0 n)).
Proof.
  unfold daily. rewrite map_map. reflexivity.
Qed.

Lemma date_range_daily (a b : option Z) (dates : list Z) :
  date_range a b = Ok dates ->
  exists start, map Time dates = daily start (List.length dates).
Proof.
  destruct a as [s |], b as [e |]; unfold date_range; try discriminate.
  intros H. exists s. rewrite daily_timestamps.
  assert (Hd : dates = if s <=? e
                       then map (fun k => s + Z.of_nat k * ns_per_day)
                                (seq 0 (S (Z.to_nat ((e - s) / ns_per_day))))
                       else []) by congruence.
  clear H. destruct (s <=? e); subst dates.
  - rewrite length_map, length_seq. reflexivity.
  - reflexivity.
Qed.

Lemma index_range_daily (df : DataFrame) (start : Z) (n : nat) :
  index df = daily start (S n) ->
  index_range df = Ok (Some start, Some (start + Z.of_nat n * ns_per_day)).
Proof.
  intros H. unfold index_range. rewrite H, daily_timestamps, label_time_timestamps.
  cbn [rbind]. rewrite present_some. cbn [seq map Zmin_list Zmax_list].
  rewrite fold_min_ascending by (unfold ns_per_day, ns_per_second; lia).
  replace (start + Z.of_nat 0 * ns_per_day) with start by (simpl; lia).
  pose proof (fold_max_ascending start n 0) as Hmax. simpl in Hmax.
  replace (start + 0) with start in Hmax by lia.
  rewrite Hmax. reflexivity.
Qed.

Lemma date_range_of_daily (start : Z) (n : nat) :
  date_range (Some start) (Some (start + Z.of_nat n * ns_per_day))
  = Ok (map (fun k => start + Z.of_nat k * ns_per_day) (seq 0 (S n))).
Proof.
  unfold date_range.
  assert (H : (start <=? start + Z.of_nat n * ns_per_day) = true).
  { apply Z.leb_le. unfold ns_per_day, ns_per_second. lia. }
  rewrite H.
  replace (start + Z.of_nat n * ns_per_day - start) with (Z.of_nat n * ns_per_day) by lia.
  rewrite Z.div_mul by (unfold ns_per_day, ns_per_second; lia).
  rewrite Nat2Z.id. reflexivity.
Qed.

Lemma daily_distinct (start : Z) (n : nat) : NoDup (daily start n).
Proof.
  unfold daily. apply Finite.Injective_map_NoDup; [| apply seq_NoDup].
  intros x y H. inversion H. unfold ns_per_day, ns_per_second in *. lia.
Qed.

(** X6: the third verdict of the consistency report.  Whenever the check
    returns, line 13 of its report is "→ OK" exactly when the monitoring
    index is one label a day, consecutive and increasing, from its first
    date to its last; any other index -- a missing day, rows out of order,
    and in particular several rows for one date -- gives "Des dates
    manquent dans le jeu de données de monitoring". *)
Theorem missing_dates_verdict (s s' : State) :
  _verify_temporal_consistency s = (s', Ok tt) ->
  exists mr wr yr c1 c2 missing,
    s' = {| self := self s;
            stdout := stdout s ++ [join_lines (report_lines mr wr yr c1 c2 missing)] |}
    /\ nth 12 (report_lines mr wr yr c1 c2 missing) ""
       = (if missing then "   → Des dates manquent dans le jeu de données de monitoring"
          else "   → OK")
    /\ (missing = false <->
        exists start,
          index (monitoring_data (self s))
          = daily start (nrows (monitoring_data (self s))))
    /\ (~ NoDup (index (monitoring_data (self s))) -> missing = true).
Proof.
  unfold _verify_temporal_consistency, bind, read, lift, print.
  destruct (index_range (monitoring_data (self s))) as [mr | e] eqn:Hmr;
    [| intros H; inversion H].
  destruct (index_range (weather_data (self s))) as [wr | e];
    [| intros H; inversion H].
  destruct (index_range (yield_history (self s))) as [yr | e];
    [| intros H; inversion H].
  destruct (date_range (fst mr) (snd mr)) as [dates | e] eqn:Hdates;
    [| intros H; inversion H].
  intros H. inversion H; subst s'; clear H.
  assert (Hiff : negb (index_equals (index (monitoring_data (self s))) dates) = false <->
                 exists start,
                   index (monitoring_data (self s))
                   = daily start (nrows (monitoring_data (self s)))).
  { rewrite negb_false_iff, index_equals_spec. split.
    - intros Heq. destruct (date_range_daily _ _ _ Hdates) as (start & Hd).
      exists start. rewrite Heq, Hd. f_equal.
      unfold nrows. rewrite <- (length_map fst). fold (index (monitoring_data (self s))).
      rewrite Heq, length_map. reflexivity.
    - intros (start & Hidx).
      destruct (nrows (monitoring_data (self s))) as [| n] eqn:Hn.
      + unfold index_range in Hmr. rewrite Hidx in Hmr. simpl in Hmr.
        inversion Hmr; subst mr. discriminate.
      + rewrite (index_range_daily _ _ _ Hidx) in Hmr. inversion Hmr; subst mr.
        cbn [fst snd] in Hdates. rewrite date_range_of_daily in Hdates.
        inversion Hdates; subst dates. rewrite Hidx. apply daily_timestamps. }
  do 6 eexists. split; [reflexivity |]. split; [| split; [exact Hiff |]].
  - cbn [report_lines nth]. rewrite negb_involutive.
    destruct (index_equals _ _); reflexivity.
  - intros Hdup.
    destruct (negb (index_equals (index (monitoring_data (self s))) dates)) eqn:E;
      [reflexivity |].
    exfalso. apply Hdup.
    destruct (proj1 Hiff eq_refl) as (start & ->). apply daily_distinct.
Qed.

Lemma missing_dates_verdict_witness :
  exists s' text,
    _verify_temporal_consistency state_with_indices = (s', Ok tt)
    /\ index (monitoring_data (self state_with_indices))
       = [Time (date 2021 1 1); Time (date 2021 1 1); Time (date 2021 1 2);
          Time (date 2021 1 2); Time (date 2021 1 3)]
    /\ stdout s' = [text].
Proof.
  destruct (_verify_temporal_consistency state_with_indices) as [s' [[] | e]] eqn:E;
    [| vm_compute in E; discriminate].
  destruct (missing_dates_verdict state_with_indices s' E)
    as (mr & wr & yr & c1 & c2 & missing & Hs & _).
  exists s'. eexists. split; [reflexivity |]. split; [vm_compute; reflexivity |].
  rewrite Hs. reflexivity.
Defined.

(** ** The two gap-filling loops, in general *)

Lemma bfill_keeps (l : list Cell) (i : nat) :
  notnull (nth i l Null) = true -> nth i (bfill l) Null = nth i l Null.
Proof.
  revert i. induction l as [| x t IH]; intros i H.
  - destruct i; discriminate.
  - destruct i as [| i].
    + simpl in *. destruct x; try reflexivity. discriminate.
    + simpl in H. specialize (IH i H). simpl. destruct x; simpl; exact IH.
Qed.

Lemma ffill_from_keeps (last : Cell) (l : list Cell) (i : nat) :
  notnull (nth i l Null) = true -> nth i (ffill_from last l) Null = nth i l Null.
Proof.
  revert last i. induction l as [| x t IH]; intros last i H.
  - destruct i; discriminate.
  - destruct i as [| i].
    + simpl in *. destruct x; try reflexivity. discriminate.
    + simpl in H. simpl. destruct x; simpl; apply IH; exact H.
Qed.

Lemma bfill_head (l : list Cell) :
  existsb notnull l = true -> notnull (hd Null (bfill l)) = true.
Proof.
  induction l as [| x t IH]; simpl; intros H.
  - discriminate.
  - destruct x; simpl in *; try reflexivity. auto.
Qed.

Lemma ffill_from_valid (last : Cell) (l : list Cell) :
  notnull last = true -> existsb isnull (ffill_from last l) = false.
Proof.
  revert last. induction l as [| x t IH]; intros last H; simpl.
  - reflexivity.
  - destruct x; simpl; try (apply IH; reflexivity).
    rewrite (IH last H). destruct last; try reflexivity. discriminate.
Qed.

Lemma ffill_bfill_complete (l : list Cell) :
  existsb notnull l = true -> existsb isnull (ffill (bfill l)) = false.
Proof.
  intros H. pose proof (bfill_head l H) as Hh. unfold ffill.
  destruct (bfill l) as [| y t]; [reflexivity |]. simpl in Hh.
  destruct y; try discriminate; simpl; apply ffill_from_valid; reflexivity.
Qed.

Lemma all_nulls (l : list Cell) :
  existsb notnull l = false -> l = repeat Null (List.length l).
Proof.
  induction l as [| x t IH]; simpl; intros H.
  - reflexivity.
  - apply orb_false_iff in H. destruct H as [Hx Ht].
    destruct x; try discriminate. f_equal. auto.
Qed.

Lemma In_bfill (l : list Cell) (v : Cell) :
  In v (bfill l) -> notnull v = true -> In v l.
Proof.
  induction l as [| x t IH]; simpl; intros H Hv.
  - contradiction.
  - destruct x; simpl in H.
    + destruct H as [H | H]; [| right; auto].
      right. apply IH; [| exact Hv].
      destruct (bfill t) as [| y t']; simpl in *.
      * subst v. discriminate.
      * left. exact H.
    + destruct H as [H | H]; [left; exact H | right; auto].
    + destruct H as [H | H]; [left; exact H | right; auto].
    + destruct H as [H | H]; [left; exact H | right; auto].
Qed.

Lemma In_ffill_from (last : Cell) (l : list Cell) (v : Cell) :
  In v (ffill_from last l) -> v = last \/ In v l.
Proof.
  revert last. induction l as [| x t IH]; intros last; simpl; intros H.
  - contradiction.
  - destruct x; simpl in H;
      (destruct H as [H | H];
       [auto | destruct (IH _ H) as [Hl | Ht]; subst; auto]).
Qed.

(** X7: the first loop of [prepare_features], parcel by parcel.  In each
    of the six weather columns the values of a parcel keep their number
    and their place, a value that was present is never overwritten, a
    value that is written is one of the same parcel and column, no gap is
    left as soon as the parcel has one value in the column, and a column
    that is all missing for the parcel stays so. *)
Theorem weather_gaps_are_filled_within_the_parcel (features features' : DataFrame)
    (p : Cell) (c : string) :
  fill_gaps features = Ok features' ->
  In c columns_to_fill ->
  List.length (parcel_slice p c features') = List.length (parcel_slice p c features)
  /\ (forall i, notnull (nth i (parcel_slice p c features) Null) = true ->
                nth i (parcel_slice p c features') Null
                = nth i (parcel_slice p c features) Null)
  /\ (forall v, In v (parcel_slice p c features') -> notnull v = true ->
                In v (parcel_slice p c features))
  /\ (existsb notnull (parcel_slice p c features) = true ->
      existsb isnull (parcel_slice p c features') = false)
  /\ (existsb notnull (parcel_slice p c features) = false ->
      parcel_slice p c features' = parcel_slice p c features).
Proof.
  intros H Hc. rewrite (fill_gaps_per_parcel _ _ p c H Hc).
  set (l := parcel_slice p c features). split; [| split; [| split; [| split]]].
  - unfold ffill. rewrite ffill_from_length. apply bfill_length.
  - intros i Hi. unfold ffill. rewrite ffill_from_keeps.
    + apply bfill_keeps. exact Hi.
    + rewrite bfill_keeps by exact Hi. exact Hi.
  - intros v Hv Hn. unfold ffill in Hv. apply In_ffill_from in Hv.
    destruct Hv as [-> | Hv]; [discriminate |]. apply In_bfill; assumption.
  - apply ffill_bfill_complete.
  - intros Hnone. rewrite (all_nulls l Hnone), bfill_nulls. apply ffill_from_nulls.
Qed.

Lemma weather_gaps_are_filled_within_the_parcel_witness :
  exists features',
    fill_gaps gappy_features = Ok features'
    /\ existsb isnull (parcel_slice (Str "P1") "temperature" gappy_features) = true
    /\ existsb isnull (parcel_slice (Str "P1") "temperature" features') = false.
Proof.
  destruct (fill_gaps gappy_features) as [features' | e] eqn:E;
    [| vm_compute in E; discriminate].
  exists features'. split; [reflexivity |]. split; [reflexivity |].
  apply (weather_gaps_are_filled_within_the_parcel gappy_features features'
           (Str "P1") "temperature" E).
  - simpl. auto.
  - reflexivity.
Defined.

Lemma interpolate_gaps_per_parcel (features features' : DataFrame) (p : Cell) (c : string) :
  interpolate_gaps features = Ok features' ->
  In c columns_to_interpolate ->
  parcel_slice p c features' = interpolate_from None (parcel_slice p c features)
  /\ existsb (fun x => match x with Str _ | Time _ => true | _ => false end)
             (parcel_slice p c features) = false.
Proof.
  unfold interpolate_gaps. intros H Hc.
  apply rbind_ok in H. destruct H as (ids & Hids & H).
  unfold get_column in Hids. destruct (has_column "parcelle_id" features); [| discriminate].
  inversion Hids; subst ids. clear Hids.
  destruct (for_each_parcel_slices interpolate_linear columns_to_interpolate
              interpolate_linear_length columns_to_interpolate_distinct
              columns_to_interpolate_not_id
              _ _ _ p c (unique_distinct _) H Hc) as (Hno & Hyes).
  destruct (existsb (key_eqb p) (unique (column "parcelle_id" features))) eqn:E.
  - specialize (Hyes eq_refl). unfold interpolate_linear in Hyes.
    destruct (existsb _ (parcel_slice p c features)); [discriminate |].
    inversion Hyes. split; reflexivity.
  - rewrite (Hno eq_refl).
    destruct (parcel_slice p c features) as [| x t] eqn:Es; [split; reflexivity |].
    assert (Hv : existsb (key_eqb p) (unique (column "parcelle_id" features)) = true).
    { apply (parcel_is_visited p c). rewrite Es. discriminate. }
    congruence.
Qed.

Lemma interpolate_from_keeps (prev : option (nat * Q)) (l : list Cell) (i : nat) (q : Q) :
  nth i l Null = Num q -> nth i (interpolate_from prev l) Null = Num q.
Proof.
  revert prev i. induction l as [| x t IH]; intros prev i H.
  - destruct i; discriminate.
  - destruct i as [| i].
    + simpl in H. subst x. reflexivity.
    + simpl in H. destruct x; simpl; apply IH; exact H.
Qed.

Lemma interpolate_from_after (d : nat) (a : Q) (l : list Cell) :
  forallb is_num (interpolate_from (Some (d, a)) l) = true.
Proof.
  revert d a. induction l as [| x t IH]; intros d a.
  - reflexivity.
  - destruct x; simpl; try apply IH; destruct (next_valid 1 t) as [[db vb] |];
      simpl; apply IH.
Qed.

Lemma next_valid_some (n : nat) (l : list Cell) :
  existsb is_num l = true -> exists d v, next_valid n l = Some (d, v).
Proof.
  revert n. induction l as [| x t IH]; intros n H.
  - discriminate.
  - destruct x; simpl in *; eauto.
Qed.

Lemma interpolate_from_complete (l : list Cell) :
  existsb is_num l = true -> forallb is_num (interpolate_from None l) = true.
Proof.
  induction l as [| x t IH]; intros H.
  - discriminate.
  - destruct x; simpl in *;
      try (destruct (next_valid_some 1 t H) as (d & v & ->); simpl; auto).
    apply interpolate_from_after.
Qed.

Lemma interpolate_from_nothing (l : list Cell) :
  existsb is_num l = false ->
  existsb (fun x => match x with Str _ | Time _ => true | _ => false end) l = false ->
  interpolate_from None l = l.
Proof.
  induction l as [| x t IH]; intros H H'.
  - reflexivity.
  - destruct x; simpl in *; try discriminate.
    assert (Hn : next_valid 1 t = None).
    { clear -H H'. generalize 1%nat. induction t as [| y t IH]; intros n; simpl in *.
      - reflexivity.
      - destruct y; simpl in *; try discriminate. auto. }
    rewrite Hn, IH by assumption. reflexivity.
Qed.

Lemma next_valid_after_nulls (n k : nat) (b : Q) (post : list Cell) :
  next_valid n (repeat Null k ++ Num b :: post) = Some ((n + k)%nat, b).
Proof.
  revert n. induction k as [| k IH]; intros n; simpl.
  - rewrite Nat.add_0_r. reflexivity.
  - rewrite IH. do 2 f_equal. lia.
Qed.

Lemma interpolate_from_gap (k d j : nat) (a b : Q) (post : list Cell) :
  (j < k)%nat ->
  nth j (interpolate_from (Some (d, a)) (repeat Null k ++ Num b :: post)) Null
  = Num ((b - a) / Qnat (d + k) * Qnat (d + j) + a)%Q.
Proof.
  revert d j. induction k as [| k IH]; intros d j Hj; [lia |].
  cbn [repeat app interpolate_from option_map fst snd].
  rewrite next_valid_after_nulls. destruct j as [| j].
  - cbn [nth]. rewrite Nat.add_0_r.
    replace (1 + k)%nat with (S k) by lia. reflexivity.
  - cbn [nth]. rewrite IH by lia.
    replace (S d + k)%nat with (d + S k)%nat by lia.
    replace (S d + j)%nat with (d + S j)%nat by lia. reflexivity.
Qed.

Lemma interpolate_from_leading (k j : nat) (b : Q) (post : list Cell) :
  (j < k)%nat ->
  nth j (interpolate_from None (repeat Null k ++ Num b :: post)) Null = Num b.
Proof.
  revert j. induction k as [| k IH]; intros j Hj; [lia |].
  cbn [repeat app interpolate_from option_map].
  rewrite next_valid_after_nulls. destruct j as [| j]; cbn [nth].
  - reflexivity.
  - apply IH. lia.
Qed.

Lemma interpolate_from_trailing (k d : nat) (a : Q) :
  interpolate_from (Some (d, a)) (repeat Null k) = repeat (Num a) k.
Proof.
  revert d. induction k as [| k IH]; intros d; simpl.
  - reflexivity.
  - rewrite IH. f_equal.
    assert (Hn : forall n, next_valid n (repeat Null k) = None).
    { clear. induction k as [| k IH]; intros n; simpl; auto. }
    rewrite Hn. reflexivity.
Qed.

Lemma interpolate_from_prefix (pre rest : list Cell) (a : Q) (prev : option (nat * Q)) :
  exists ys,
    List.length ys = List.length pre
    /\ interpolate_from prev (pre ++ Num a :: rest)
       = ys ++ Num a :: interpolate_from (Some (1%nat, a)) rest.
Proof.
  revert prev. induction pre as [| x t IH]; intros prev.
  - exists []. split; reflexivity.
  - destruct x; cbn [app interpolate_from].
    + destruct (IH (option_map (fun p => (S (fst p), snd p)) prev)) as (ys & Hl & ->).
      eexists (_ :: ys). split; [simpl; f_equal; exact Hl | reflexivity].
    + destruct (IH (Some (1%nat, q))) as (ys & Hl & ->).
      eexists (_ :: ys). split; [simpl; f_equal; exact Hl | reflexivity].
    + destruct (IH (option_map (fun p => (S (fst p), snd p)) prev)) as (ys & Hl & ->).
      eexists (_ :: ys). split; [simpl; f_equal; exact Hl | reflexivity].
    + destruct (IH (option_map (fun p => (S (fst p), snd p)) prev)) as (ys & Hl & ->).
      eexists (_ :: ys). split; [simpl; f_equal; exact Hl | reflexivity].
Qed.

Lemma nth_after_prefix (ys l : list Cell) (i : nat) :
  nth (List.length ys + i) (ys ++ l) Null = nth i l Null.
Proof.
  rewrite app_nth2 by lia. f_equal. lia.
Qed.

(** X8: the second loop of [prepare_features], parcel by parcel.  In
    [rendement_estime] and [progression] the values of a parcel keep
    their number and their place and a value that was present is kept; as
    soon as the parcel has one value no gap is left; [k] missing values
    between [a] and [b] become the points [a + (b - a) (j + 1) / (k + 1)]
    of the line from [a] to [b], by position and not by date; missing
    values before the first value take it, and those after the last value
    take that one. *)
Theorem yield_estimates_are_interpolated_within_the_parcel
    (features features' : DataFrame) (p : Cell) (c : string) :
  interpolate_gaps features = Ok features' ->
  In c columns_to_interpolate ->
  List.length (parcel_slice p c features') = List.length (parcel_slice p c features)
  /\ (forall i q, nth i (parcel_slice p c features) Null = Num q ->
                  nth i (parcel_slice p c features') Null = Num q)
  /\ (existsb is_num (parcel_slice p c features) = true ->
      forallb is_num (parcel_slice p c features') = true)
  /\ (existsb is_num (parcel_slice p c features) = false ->
      parcel_slice p c features' = parcel_slice p c features)
  /\ (forall pre a k b post j,
         parcel_slice p c features = pre ++ Num a :: repeat Null k ++ Num b :: post ->
         (j < k)%nat ->
         nth (List.length pre + S j) (parcel_slice p c features') Null
         = Num ((b - a) / Qnat (k + 1) * Qnat (j + 1) + a)%Q)
  /\ (forall k b post j,
         parcel_slice p c features = repeat Null k ++ Num b :: post ->
         (j < k)%nat ->
         nth j (parcel_slice p c features') Null = Num b)
  /\ (forall pre a k j,
         parcel_slice p c features = pre ++ Num a :: repeat Null k ->
         (j < k)%nat ->
         nth (List.length pre + S j) (parcel_slice p c features') Null = Num a).
Proof.
  intros H Hc. destruct (interpolate_gaps_per_parcel _ _ p c H Hc) as (-> & Hplain).
  set (l := parcel_slice p c features) in *.
  split; [apply interpolate_from_length |].
  split; [intros i q; apply interpolate_from_keeps |].
  split; [apply interpolate_from_complete |].
  split; [intros Hnone; apply interpolate_from_nothing; assumption |].
  split; [| split].
  - intros pre a k b post j -> Hj.
    destruct (interpolate_from_prefix pre (repeat Null k ++ Num b :: post) a None)
      as (ys & Hl & ->).
    rewrite <- Hl.
    change (ys ++ Num a :: ?t) with (ys ++ [Num a] ++ t).
    rewrite app_assoc.
    replace (List.length ys + S j)%nat with (List.length (ys ++ [Num a]) + j)%nat
      by (rewrite length_app; simpl; lia).
    rewrite nth_after_prefix, interpolate_from_gap by exact Hj.
    replace (1 + k)%nat with (k + 1)%nat by lia.
    replace (1 + j)%nat with (j + 1)%nat by lia. reflexivity.
  - intros k b post j -> Hj. apply interpolate_from_leading. exact Hj.
  - intros pre a k j -> Hj.
    destruct (interpolate_from_prefix pre (repeat Null k) a None) as (ys & Hl & ->).
    rewrite <- Hl.
    change (ys ++ Num a :: ?t) with (ys ++ [Num a] ++ t).
    rewrite app_assoc.
    replace (List.length ys + S j)%nat with (List.length (ys ++ [Num a]) + j)%nat
      by (rewrite length_app; simpl; lia).
    rewrite nth_after_prefix, interpolate_from_trailing. apply nth_repeat_lt. exact Hj.
Qed.

Lemma yield_estimates_are_interpolated_within_the_parcel_witness :
  exists features',
    interpolate_gaps sparse_features = Ok features'
    /\ parcel_slice (Str "P1") "rendement_estime" sparse_features
       = [Null; Num 2; Null; Null; Null; Num 6; Null]
    /\ nth 3 (parcel_slice (Str "P1") "rendement_estime" features') Null
       = Num ((6 - 2) / Qnat 4 * Qnat 2 + 2)%Q.
Proof.
  destruct (interpolate_gaps sparse_features) as [features' | e] eqn:E;
    [| vm_compute in E; discriminate].
  exists features'. split; [reflexivity |]. split; [reflexivity |].
  destruct (yield_estimates_are_interpolated_within_the_parcel
              sparse_features features' (Str "P1") "rendement_estime" E)
    as (_ & _ & _ & _ & Hgap & _).
  - simpl. auto.
  - apply (Hgap [Null] 2%Q 3%nat 6%Q [Null] 1%nat); [reflexivity | lia].
Defined.

(** ** Joins that duplicate rows *)

Lemma merge_left_ok (keys : list string) (left right : DataFrame) :
  join_keys_known keys left right = true ->
  exists merged, merge_left keys left right = Ok merged.
Proof.
  unfold join_keys_known, merge_left. intros H.
  assert (Hf : find (fun k => negb (has_key k right && has_key k left)) keys = None).
  { induction keys as [| k t IH]; simpl in *; [reflexivity |].
    apply andb_true_iff in H. destruct H as [Hk Ht]. rewrite Hk. simpl. auto. }
  rewrite Hf. eauto.
Qed.

Lemma list_sum_above {A : Type} (f : A -> nat) (l : list A) (x : A) :
  (forall y, (1 <= f y)%nat) -> In x l -> (2 <= f x)%nat ->
  (List.length l < list_sum (map f l))%nat.
Proof.
  intros Hf. induction l as [| y t IH]; intros Hx H2; [contradiction |].
  cbn [map list_sum fold_right List.length].
  change (fold_right Nat.add 0%nat (map f t)) with (list_sum (map f t)).
  assert (Ht : (List.length t <= list_sum (map f t))%nat).
  { clear -Hf. induction t as [| z t IH]; simpl; [lia |]. specialize (Hf z).
    change (fold_right Nat.add 0%nat (map f t)) with (list_sum (map f t)). lia. }
  destruct Hx as [-> | Hx].
  - lia.
  - specialize (IH Hx H2). specialize (Hf y). lia.
Qed.

Lemma single_matches_spec (keys : list string) (left right : DataFrame) :
  (single_matches keys left right = true ->
   forall l, In l (rows left) -> (List.length (matches keys left right l) <= 1)%nat)
  /\ (single_matches keys left right = false ->
      exists l, In l (rows left)
                /\ (2 <= List.length (matches keys left right l))%nat).
Proof.
  unfold single_matches. split.
  - intros H l Hl. apply Nat.leb_le. apply (forallb_In _ _ _ H Hl).
  - intros H. induction (rows left) as [| r t IH]; simpl in H; [discriminate |].
    destruct (Nat.leb (List.length (matches keys left right r)) 1) eqn:E.
    + destruct (IH H) as (l & Hl & H2). exists l. split; [right; exact Hl | exact H2].
    + apply Nat.leb_gt in E. exists r. split; [left; reflexivity | lia].
Qed.

(** [left.merge(right, how='left').set_index(left.index)] goes through
    exactly when no left row has two matches. *)
Lemma reindex_after_merge (keys : list string) (left right merged : DataFrame)
    (name : option string) :
  merge_left keys left right = Ok merged ->
  (single_matches keys left right = true ->
   exists indexed,
     set_index_labels name (index left) merged = Ok indexed
     /\ index indexed = index left /\ nrows indexed = nrows left)
  /\ (single_matches keys left right = false ->
      set_index_labels name (index left) merged = Raise (ValueError "Length mismatch")).
Proof.
  intros H. pose proof (merge_left_count _ _ _ _ H) as Hn.
  destruct (single_matches_spec keys left right) as [Hyes Hno]. split.
  - intros Hs. assert (Heq : nrows merged = nrows left).
    { apply (merge_left_unique_match _ _ _ _ H). apply Hyes. exact Hs. }
    unfold set_index_labels, index. rewrite length_map. fold (nrows left).
    rewrite Heq, Nat.eqb_refl. eexists. split; [reflexivity |].
    unfold index, nrows. cbn [rows].
    destruct (combine_map_snd (map fst (rows left)) (rows merged)) as [Hfst _].
    { rewrite length_map. symmetry. exact Heq. }
    split; [exact Hfst |].
    rewrite <- (length_map fst), Hfst, length_map. reflexivity.
  - intros Hs. destruct (Hno Hs) as (l & Hl & H2).
    assert (Hlt : (nrows left < nrows merged)%nat).
    { rewrite Hn. unfold nrows. apply (list_sum_above _ _ l); [lia | exact Hl | lia]. }
    unfold set_index_labels, index. rewrite length_map. fold (nrows left).
    destruct (Nat.eqb (nrows left) (nrows merged)) eqn:E; [| reflexivity].
    apply Nat.eqb_eq in E. lia.
Qed.

(** X9: [_enrich_with_yield_history] on a table that has its [culture]
    column and the join keys.  It returns -- with the index and the number
    of rows of its argument -- exactly when no row has two yield records
    for its date and parcel; as soon as one row has two, the merge has
    more rows than the index it is given and the call raises ValueError
    "Length mismatch". *)
Theorem enrichment_needs_at_most_one_yield_record_per_row (m : Manager)
    (data data' : DataFrame) :
  drop_columns ["culture"] data = Ok data' ->
  join_keys_known ["date"; "parcelle_id"] data' (yield_history m) = true ->
  (single_matches ["date"; "parcelle_id"] data' (yield_history m) = true ->
   exists features,
     _enrich_with_yield_history m data = Ok features
     /\ index features = index data /\ nrows features = nrows data)
  /\ (single_matches ["date"; "parcelle_id"] data' (yield_history m) = false ->
      _enrich_with_yield_history m data = Raise (ValueError "Length mismatch")).
Proof.
  intros Hd Hk. destruct (merge_left_ok _ _ _ Hk) as (merged & Hm).
  destruct (reindex_after_merge _ _ _ _ (index_name data) Hm) as [Hyes Hno].
  pose proof (drop_columns_inv _ _ _ Hd) as Hd'.
  assert (Hidx : index data' = index data).
  { rewrite Hd'. unfold index. cbn [rows]. rewrite map_map. reflexivity. }
  assert (Hrows : nrows data' = nrows data).
  { rewrite Hd'. unfold nrows. cbn [rows]. apply length_map. }
  unfold _enrich_with_yield_history. rewrite Hd. cbn [rbind]. rewrite Hm. cbn [rbind].
  rewrite <- Hidx, <- Hrows. split.
  - intros Hs. destruct (Hyes Hs) as (features & Hf & Hi & Hn). eauto.
  - exact Hno.
Qed.

Lemma enrichment_needs_at_most_one_yield_record_per_row_witness :
  _enrich_with_yield_history (manager_with_yields duplicated_yields) one_merged_row
  = Raise (ValueError "Length mismatch").
Proof.
  apply (enrichment_needs_at_most_one_yield_record_per_row
           (manager_with_yields duplicated_yields) one_merged_row
           (match drop_columns ["culture"] one_merged_row with
            | Ok df => df | Raise _ => one_merged_row end)
           eq_refl eq_refl).
  reflexivity.
Defined.

(** X10: the soil join of [prepare_features].  When the date indices are
    set, the check has passed and the as-of merge with the weather has
    gone through, a monitoring row whose parcel and coordinates have two
    soil records makes [prepare_features] raise ValueError "Length
    mismatch" at [combined_2.set_index(combined_1.index)], the three date
    indices being set already. *)
Theorem duplicate_soil_record_breaks_prepare_features (s s1 s2 : State)
    (combined_1 : DataFrame) :
  _setup_temporal_indices s = (s1, Ok tt) ->
  _verify_temporal_consistency s1 = (s2, Ok tt) ->
  merge_asof (sort_index (monitoring_data (self s1)))
             (sort_index (weather_data (self s1))) = Ok combined_1 ->
  join_keys_known ["parcelle_id"; "latitude"; "longitude"] combined_1
                  (soil_data (self s)) = true ->
  single_matches ["parcelle_id"; "latitude"; "longitude"] combined_1
                 (soil_data (self s)) = false ->
  prepare_features s = (s2, Raise (ValueError "Length mismatch"))
  /\ self s2 = self s1
  /\ has_column "date" (monitoring_data (self s2)) = false.
Proof.
  intros Hsetup Hverify Hasof Hk Hs.
  destruct (verify_temporal_consistency_inv _ _ _ Hverify) as (text & Hs2).
  destruct (setup_temporal_indices_inv _ _ _ Hsetup) as (mon & w & y & Hm & _ & _ & Hs1).
  assert (Hsoil : soil_data (self s1) = soil_data (self s)) by (rewrite Hs1; reflexivity).
  destruct (merge_left_ok _ _ _ Hk) as (merged & Hmerged).
  destruct (reindex_after_merge _ _ _ _ (index_name combined_1) Hmerged) as [_ Hno].
  split; [| split].
  - unfold prepare_features, bind. rewrite Hsetup, Hverify. unfold read, lift.
    rewrite Hs2. cbn [self]. rewrite Hasof, Hsoil, Hmerged, (Hno Hs). reflexivity.
  - rewrite Hs2. reflexivity.
  - rewrite Hs2, Hs1. cbn [self monitoring_data].
    apply (set_index_inv _ _ _ Hm).
Qed.

Lemma duplicate_soil_record_breaks_prepare_features_witness :
  snd (prepare_features state_with_duplicated_soil) = Raise (ValueError "Length mismatch").
Proof.
  pose (s1 := fst (_setup_temporal_indices state_with_duplicated_soil)).
  pose (s2 := fst (_verify_temporal_consistency s1)).
  pose (combined_1 :=
          match merge_asof (sort_index (monitoring_data (self s1)))
                           (sort_index (weather_data (self s1))) with
          | Ok df => df | Raise _ => frame [] [] end).
  destruct (duplicate_soil_record_breaks_prepare_features
              state_with_duplicated_soil s1 s2 combined_1) as (H & _).
  - vm_compute. reflexivity.
  - vm_compute. reflexivity.
  - vm_compute. reflexivity.
  - vm_compute. reflexivity.
  - vm_compute. reflexivity.
  - rewrite H. reflexivity.
Defined.

(** ** The risk table, row by row *)

(** X11: what a row of the risk table holds.  On float columns, when
    [calculate_risk_metrics] returns, the row of a parcel carries the
    mean of the parcel's [stress_hydrique] values, their sample standard
    deviation, the mean of its [temperature] values -- each over all the
    rows of the parcel, which has at least one -- and the retention
    capacity of one of the parcel's soil records. *)
Theorem risk_row_holds_the_parcel_statistics (sqrt : Q -> Q) (m : Manager)
    (data out : DataFrame) (r : Cell * Row) :
  risk_input_typed m data = true ->
  calculate_risk_metrics sqrt m data = Ok out ->
  In r (rows out) ->
  exists stress temperatures s retention,
    group_values "parcelle_id" "stress_hydrique" data (fst r) = map Num stress
    /\ group_values "parcelle_id" "temperature" data (fst r) = map Num temperatures
    /\ List.length stress = List.length (parcel_rows data (fst r))
    /\ List.length temperatures = List.length (parcel_rows data (fst r))
    /\ (1 <= List.length (parcel_rows data (fst r)))%nat
    /\ get "mean_stress" (snd r) = Num (Qsum stress / Qlen stress)%Q
    /\ get "stress_variability" (snd r) = std_q sqrt stress
    /\ get "mean_temperature" (snd r) = Num (Qsum temperatures / Qlen temperatures)%Q
    /\ In s (soil_records m (fst r))
    /\ get "capacite_retention_eau" (snd s) = Num retention
    /\ get "capacite_retention_eau" (snd r) = Num retention.
Proof.
  intros Ht Hout Hr.
  destruct (risk_metrics_rows sqrt m data out Ht Hout) as (Hm & Hs & Hrows).
  destruct (Hrows r Hr)
    as (k & a & b & d & s & score & Hk & Hsoil & Hsk & -> & Ha & Hb & Hd & Hscore).
  destruct (typed_stress _ _ Ht) as (Hst & Htm & Hret).
  unfold missing_measure in Hm. apply existsb_app_false in Hm. destruct Hm as [Hm1 Hm2].
  unfold missing_soil_value in Hs. apply existsb_app_false in Hs. destruct Hs as [_ Hs2].
  destruct (all_numbers _ (group_values_numeric "parcelle_id" _ data k Hst)
                        (group_values_present "parcelle_id" _ data k Hm1)) as (xs & Hxs).
  destruct (all_numbers _ (group_values_numeric "parcelle_id" _ data k Htm)
                        (group_values_present "parcelle_id" _ data k Hm2)) as (ts & Hts).
  destruct (numeric_present _
              (forallb_In _ _ _ Hret (column_In "capacite_retention_eau" _ _ Hsoil))
              (existsb_false_In _ _ _ Hs2 (column_In "capacite_retention_eau" _ _ Hsoil)))
    as (c & Hc).
  assert (Hlx : List.length xs = List.length (parcel_rows data k)).
  { rewrite <- (group_values_length "stress_hydrique"), Hxs. symmetry. apply length_map. }
  assert (Hlt : List.length ts = List.length (parcel_rows data k)).
  { rewrite <- (group_values_length "temperature"), Hts. symmetry. apply length_map. }
  assert (Hne : (1 <= List.length (parcel_rows data k))%nat).
  { apply group_keys_In in Hk. destruct Hk as [Hk Hn].
    unfold column in Hk. apply in_map_iff in Hk. destruct Hk as (r0 & Hr0 & Hin).
    assert (Hp : In r0 (parcel_rows data k)).
    { unfold parcel_rows. apply filter_In. split; [exact Hin |].
      rewrite Hr0. apply key_eqb_refl. }
    destruct (parcel_rows data k); [contradiction | simpl; lia]. }
  rewrite Hxs in Ha, Hb. rewrite Hts in Hd.
  rewrite column_std_numbers in Hb. inversion Hb; subst b. clear Hb.
  rewrite column_mean_numbers in Ha by (destruct xs; [simpl in Hlx; lia | discriminate]).
  rewrite column_mean_numbers in Hd by (destruct ts; [simpl in Hlt; lia | discriminate]).
  inversion Ha; subst a. inversion Hd; subst d.
  exists xs, ts, s, c. cbn [fst snd].
  split; [exact Hxs |]. split; [exact Hts |]. split; [exact Hlx |]. split; [exact Hlt |].
  split; [exact Hne |]. split; [reflexivity |]. split; [reflexivity |].
  split; [reflexivity |]. split.
  - unfold soil_records. apply filter_In. split; assumption.
  - split; [exact Hc |]. rewrite <- Hc. reflexivity.
Qed.

Lemma risk_row_holds_the_parcel_statistics_witness :
  exists out r,
    calculate_risk_metrics no_sqrt (manager_with_soil sample_retention) sample_stress = Ok out
    /\ nth_error (rows out) 1 = Some r
    /\ fst r = Str "P2"
    /\ exists stress,
         group_values "parcelle_id" "stress_hydrique" sample_stress (Str "P2")
         = map Num stress
         /\ get "mean_stress" (snd r) = Num (Qsum stress / Qlen stress)%Q.
Proof.
  destruct (calculate_risk_metrics no_sqrt (manager_with_soil sample_retention)
                                   sample_stress) as [out | e] eqn:E;
    [| vm_compute in E; discriminate].
  destruct (nth_error (rows out) 1) as [r |] eqn:Er;
    [| vm_compute in E; inversion E; subst out; discriminate].
  assert (Hfst : fst r = Str "P2").
  { vm_compute in E. inversion E; subst out. simpl in Er. inversion Er. reflexivity. }
  destruct (risk_row_holds_the_parcel_statistics no_sqrt
              (manager_with_soil sample_retention) sample_stress out r eq_refl E
              (nth_error_In _ _ Er))
    as (stress & temperatures & s & c & Hxs & _ & _ & _ & _ & Hmean & _).
  exists out, r. split; [reflexivity |]. split; [exact Er |]. split; [exact Hfst |].
  exists stress. rewrite <- Hfst. split; [exact Hxs | exact Hmean].
Defined.

Lemma cell_leb_total (a b : Cell) : cell_leb a b = false -> cell_leb b a = true.
Proof.
  destruct a, b; simpl; try discriminate; try reflexivity.
  - intros H. apply Qle_bool_iff.
    destruct (Qlt_le_dec q0 q) as [Hlt | Hle].
    + apply Qlt_le_weak. exact Hlt.
    + apply Qle_bool_iff in Hle. congruence.
  - intros H. destruct (String.leb_total s s0) as [H' | H']; congruence.
  - intros H. apply Z.leb_gt in H. apply Z.leb_le. lia.
Qed.

Lemma insert_key_ascending (k : Cell) (l : list Cell) :
  ascending l = true -> ascending (insert_key k l) = true.
Proof.
  induction l as [| h t IH]; intros H.
  - reflexivity.
  - cbn [insert_key]. destruct (cell_leb k h) eqn:E.
    + cbn [ascending]. rewrite E. exact H.
    + apply cell_leb_total in E.
      assert (Ht : ascending t = true).
      { destruct t as [| y t]; [reflexivity |]. simpl in H.
        apply andb_true_iff in H. apply H. }
      specialize (IH Ht). destruct t as [| y t].
      * simpl. rewrite E. reflexivity.
      * cbn [insert_key] in *. destruct (cell_leb k y) eqn:E'.
        -- cbn [ascending]. rewrite E. exact IH.
        -- cbn [ascending] in H |- *. apply andb_true_iff in H. destruct H as [Hhy _].
           rewrite Hhy. exact IH.
Qed.

Lemma sort_keys_ascending (l : list Cell) : ascending (sort_keys l) = true.
Proof.
  unfold sort_keys. induction l as [| x t IH]; simpl.
  - reflexivity.
  - apply insert_key_ascending. exact IH.
Qed.

Lemma insert_key_distinct (k : Cell) (l : list Cell) :
  forallb (fun y => negb (key_eqb k y)) l = true ->
  distinct_keys l = true -> distinct_keys (insert_key k l) = true.
Proof.
  induction l as [| h t IH]; intros Hk Hd.
  - reflexivity.
  - cbn [insert_key]. destruct (cell_leb k h).
    + cbn [distinct_keys]. cbn [distinct_keys] in Hd. rewrite Hk. exact Hd.
    + cbn [forallb] in Hk. apply andb_true_iff in Hk. destruct Hk as [Hkh Hkt].
      cbn [distinct_keys] in Hd |- *. apply andb_true_iff in Hd. destruct Hd as [Hh Ht].
      rewrite (IH Hkt Ht), andb_true_r.
      apply forallb_forall. intros y Hy.
      apply (Permutation_in _ (insert_key_perm k t)) in Hy. destruct Hy as [<- | Hy].
      * destruct (key_eqb h k) eqn:E; [| reflexivity].
        apply key_eqb_sym in E. rewrite E in Hkh. discriminate.
      * apply (forallb_In _ _ _ Hh Hy).
Qed.

Lemma sort_keys_distinct (l : list Cell) :
  distinct_keys l = true -> distinct_keys (sort_keys l) = true.
Proof.
  unfold sort_keys. induction l as [| x t IH]; intros Hd.
  - reflexivity.
  - cbn [fold_right]. cbn [distinct_keys] in Hd. apply andb_true_iff in Hd.
    destruct Hd as [Hx Ht]. apply insert_key_distinct; [| auto].
    apply forallb_forall. intros y Hy.
    apply (Permutation_in _ (sort_keys_perm t)) in Hy.
    apply (forallb_In _ _ _ Hx Hy).
Qed.

Lemma join_retention_index (soil : DataFrame) (r : Cell * Row) :
  map fst (join_retention soil r)
  = repeat (fst r)
           (Nat.max 1 (List.length
                         (filter (fun s => key_eqb (get "parcelle_id" (snd s)) (fst r))
                                 (rows soil)))).
Proof.
  unfold join_retention.
  destruct (filter _ (rows soil)) as [| s t]; [reflexivity |].
  change (Nat.max 1 (List.length (s :: t))) with (List.length (s :: t)).
  generalize (s :: t). intros l.
  induction l as [| x l IH]; simpl; [| rewrite IH]; reflexivity.
Qed.

Lemma flat_map_ext_In {A B : Type} (f g : A -> list B) (l : list A) :
  (forall x, In x l -> f x = g x) -> flat_map f l = flat_map g l.
Proof.
  induction l as [| x t IH]; intros H; simpl.
  - reflexivity.
  - rewrite (H x (or_introl eq_refl)), IH; [reflexivity |].
    intros y Hy. apply H. right. exact Hy.
Qed.

(** X12: the layout of the risk table.  Its rows come parcel by parcel,
    the parcels being the distinct non-null ids of the input in
    increasing order, and a parcel has as many rows as it has soil
    records: one at least, and several when the soil table repeats the
    parcel. *)
Theorem risk_table_has_a_row_per_soil_record (sqrt : Q -> Q) (m : Manager)
    (data out : DataFrame) :
  risk_input_typed m data = true ->
  calculate_risk_metrics sqrt m data = Ok out ->
  index out
  = flat_map (fun k => repeat k (List.length (soil_records m k)))
             (group_keys (column "parcelle_id" data))
  /\ nrows out
     = list_sum (map (fun k => List.length (soil_records m k))
                     (group_keys (column "parcelle_id" data)))
  /\ ascending (group_keys (column "parcelle_id" data)) = true
  /\ distinct_keys (group_keys (column "parcelle_id" data)) = true
  /\ forall k, In k (group_keys (column "parcelle_id" data)) ->
               (1 <= List.length (soil_records m k))%nat.
Proof.
  intros Ht Hout.
  assert (Hrec : forall k, In k (group_keys (column "parcelle_id" data)) ->
                           (1 <= List.length (soil_records m k))%nat).
  { intros k Hk.
    destruct (risk_metrics_covers sqrt m data out k Ht Hout Hk) as (r & Hr & Hfst).
    destruct (risk_metrics_rows sqrt m data out Ht Hout) as (_ & _ & Hrows).
    destruct (Hrows r Hr) as (k' & a & b & d & s & score & _ & Hs & Hsk & -> & _).
    simpl in Hfst. subst k'.
    assert (Hin : In s (soil_records m k)).
    { unfold soil_records. apply filter_In. split; assumption. }
    destruct (soil_records m k); [contradiction | simpl; lia]. }
  assert (Hidx : index out
                 = flat_map (fun k => repeat k (List.length (soil_records m k)))
                            (group_keys (column "parcelle_id" data))).
  { pose proof Hout as H. rewrite (risk_metrics_unfold sqrt m data Ht) in H.
    destruct (missing_measure data); [discriminate |].
    destruct (missing_soil_value m); [discriminate |].
    apply rbind_ok in H. destruct H as (metrics & Hmetrics & H). cbv zeta in H.
    destruct (existsb _ (flat_map _ metrics)); [discriminate |].
    apply rbind_ok in H. destruct H as (scored & Hscored & H).
    inversion H; subst out; clear H. unfold index. cbn [rows].
    rewrite (mapM_map with_risk_score fst fst _ _) with (2 := Hscored).
    2:{ intros j r Hjr. apply with_risk_score_inv in Hjr.
        destruct Hjr as (score & -> & _). reflexivity. }
    assert (Hkeys : map fst metrics = group_keys (column "parcelle_id" data)).
    { rewrite (mapM_map (stress_row sqrt data) fst (fun k => k) _ _) with (2 := Hmetrics).
      - apply map_id.
      - intros k r Hkr. apply stress_row_inv in Hkr.
        destruct Hkr as (a & b & d & -> & _). reflexivity. }
    rewrite (flat_map_ext_In _ (fun k => repeat k (Nat.max 1 (List.length (soil_records m k))))).
    2:{ intros k Hk. specialize (Hrec k Hk). f_equal. lia. }
    rewrite <- Hkeys. clear.
    induction metrics as [| r t IH]; simpl.
    - reflexivity.
    - rewrite map_app, IH, join_retention_index. reflexivity. }
  split; [exact Hidx |]. split.
  - unfold nrows. rewrite <- (length_map fst). fold (index out). rewrite Hidx.
    rewrite flat_map_length_sum. f_equal. apply map_ext. intros k. apply repeat_length.
  - split; [apply sort_keys_ascending |]. split; [| exact Hrec].
    apply sort_keys_distinct, unique_distinct.
Qed.

Lemma risk_table_has_a_row_per_soil_record_witness :
  exists out,
    calculate_risk_metrics no_sqrt (manager_with_soil duplicated_retention) sample_stress
    = Ok out
    /\ index out = [Str "P1"; Str "P2"; Str "P2"].
Proof.
  destruct (calculate_risk_metrics no_sqrt (manager_with_soil duplicated_retention)
                                   sample_stress) as [out | e] eqn:E;
    [| vm_compute in E; discriminate].
  exists out. split; [reflexivity |].
  destruct (risk_table_has_a_row_per_soil_record no_sqrt
              (manager_with_soil duplicated_retention) sample_stress out eq_refl E)
    as (H & _).
  rewrite H. reflexivity.
Defined.

(** ** The decomposition of a yearly series *)

Local Open Scope Q_scope.

Lemma convolution_filter_single (w : Q) (pre xs : list Q) :
  map (fun i =>
         if Nat.leb 0 i && Nat.ltb (i + 0) (List.length (pre ++ xs))
         then Some (dot (rev [w]) (firstn 1 (skipn (i - 0) (pre ++ xs))))
         else None)
      (seq (List.length pre) (List.length xs))
  = map (fun v => Some (w * v + 0)) xs.
Proof.
  revert pre. induction xs as [| x t IH]; intros pre.
  - reflexivity.
  - cbn [List.length seq map]. f_equal.
    + rewrite Nat.add_0_r, Nat.sub_0_r.
      assert (E : Nat.ltb (List.length pre) (List.length (pre ++ x :: t)) = true).
      { apply Nat.ltb_lt. rewrite length_app. simpl. lia. }
      rewrite E. cbn [Nat.leb andb].
      rewrite skipn_app, skipn_all, Nat.sub_diag. reflexivity.
    + specialize (IH (pre ++ [x])). rewrite <- app_assoc in IH. cbn [app] in IH.
      replace (List.length (pre ++ [x])) with (S (List.length pre)) in IH
        by (rewrite length_app; simpl; lia).
      exact IH.
Qed.

Lemma trend_of_period_1 (xs : list Q) :
  convolution_filter xs (seasonal_filter 1)
  = map (fun v => Some (1 / Qnat 1 * v + 0)) xs.
Proof.
  exact (convolution_filter_single (1 / Qnat 1) [] xs).
Qed.

Lemma map_combine_map {A B C : Type} (f : A -> B) (g : A * B -> C) (l : list A) :
  map g (combine l (map f l)) = map (fun x => g (x, f x)) l.
Proof.
  induction l as [| x t IH]; simpl; [| rewrite IH]; reflexivity.
Qed.

Lemma every_nth_1 {A : Type} (l : list A) : every_nth 1 0 l = l.
Proof.
  unfold every_nth.
  assert (H : forall n,
             map snd (filter (fun p => Nat.eqb (Nat.modulo (fst p) 1) 0)
                             (combine (seq n (List.length l)) l)) = l).
  { induction l as [| x t IH]; intros n.
    - reflexivity.
    - cbn [List.length seq combine filter fst]. rewrite Nat.mod_1_r.
      cbn [Nat.eqb map snd]. f_equal. apply IH. }
  apply H.
Qed.

Lemma Qsum_zeros (l : list Q) : Forall (fun q => q == 0) l -> Qsum l == 0.
Proof.
  induction 1 as [| x t Hx _ IH]; simpl.
  - reflexivity.
  - rewrite Hx, IH. reflexivity.
Qed.

Lemma unit_weight (v : Q) : 1 / Qnat 1 * v + 0 == v.
Proof.
  unfold Qnat. simpl. field.
Qed.

(** With [period=1] the trend is the series, and nothing is left for the
    seasonal part and the residuals. *)
Lemma seasonal_decompose_period_1 (x : list Cell) (d : DecomposeResult) :
  seasonal_decompose x 1 = Ok d ->
  exists xs,
    x = map Num xs
    /\ (2 <= List.length xs)%nat
    /\ observed d = map Some xs
    /\ Forall2 (fun t v => exists q, t = Some q /\ q == v) (trend d) xs
    /\ Forall (fun s => exists q, s = Some q /\ q == 0) (seasonal d)
    /\ Forall (fun r => exists q, r = Some q /\ q == 0) (resid d).
Proof.
  unfold seasonal_decompose.
  destruct (existsb _ x) eqn:Hplain; [discriminate |].
  destruct (all_some as_num x) as [xs |] eqn:Hxs; [| discriminate].
  destruct (Nat.ltb (List.length xs) (2 * 1)) eqn:Hlen; [discriminate |].
  apply Nat.ltb_ge in Hlen.
  intros H. inversion H; subst d; clear H. cbn [trend seasonal resid observed].
  exists xs.
  assert (Hx : x = map Num xs).
  { clear -Hxs. revert xs Hxs. induction x as [| c t IH]; simpl; intros xs H.
    - inversion H. reflexivity.
    - destruct c; simpl in H; try discriminate.
      destruct (all_some as_num t) as [ys |]; [| discriminate].
      inversion H. simpl. f_equal. auto. }
  split; [exact Hx |]. split; [simpl in Hlen; lia |]. split; [reflexivity |].
  rewrite trend_of_period_1.
  rewrite (map_combine_map (fun v => Some (1 / Qnat 1 * v + 0))
             (fun p => nan_minus (Some (fst p)) (snd p))).
  cbn [fst snd nan_minus].
  set (detrended := map (fun v => Some (v - (1 / Qnat 1 * v + 0))) xs).
  unfold seasonal_mean. cbn [seq map]. rewrite every_nth_1.
  assert (Hpresent : present detrended = map (fun v => v - (1 / Qnat 1 * v + 0)) xs).
  { unfold detrended. rewrite <- (map_map (fun v => v - (1 / Qnat 1 * v + 0)) Some).
    apply present_some. }
  assert (Hzero : Forall (fun q => q == 0) (present detrended)).
  { rewrite Hpresent. apply Forall_forall. intros q Hq. apply in_map_iff in Hq.
    destruct Hq as (v & <- & _). rewrite unit_weight. ring. }
  unfold nanmean.
  destruct (present detrended) as [| d0 ds] eqn:Hds.
  { destruct xs; [simpl in Hlen; lia | discriminate]. }
  set (average := Qsum (d0 :: ds) / Qlen (d0 :: ds)).
  assert (Havg : average == 0).
  { unfold average, Qdiv. rewrite (Qsum_zeros _ Hzero). ring. }
  cbn [mean_strict all_some map nan_minus].
  set (centred := average - Qsum [average] / Qlen [average]).
  assert (Hcentred : centred == 0).
  { unfold centred, Qlen. simpl. rewrite Havg. field. }
  assert (Hseasonal : map (fun _ : nat => Some centred) (seq 0 (List.length xs))
                      = map (fun _ => Some centred) xs).
  { assert (Hn : forall n,
               map (fun _ : nat => Some centred) (seq n (List.length xs))
               = map (fun _ => Some centred) xs).
    { clear. induction xs as [| v t IH]; intros n.
      - reflexivity.
      - cbn [List.length seq map]. f_equal. apply IH. }
    apply Hn. }
  rewrite Hseasonal.
  split; [| split].
  - clear. induction xs as [| v t IH]; simpl; constructor.
    + eexists. split; [reflexivity | apply unit_weight].
    + exact IH.
  - apply Forall_forall. intros s Hs. apply in_map_iff in Hs.
    destruct Hs as (v & <- & _). eexists. split; [reflexivity | exact Hcentred].
  - unfold detrended. clear -Hcentred. induction xs as [| v t IH]; simpl; constructor.
    + eexists. split; [reflexivity |]. rewrite Hcentred, unit_weight. ring.
    + exact IH.
Qed.

Local Close Scope Q_scope.

Lemma insert_row_keys (r : Cell * Row) (l : list (Cell * Row)) :
  map fst (insert_row r l) = insert_key (fst r) (map fst l).
Proof.
  induction l as [| h t IH]; simpl.
  - reflexivity.
  - destruct (cell_leb (fst r) (fst h)); simpl; [| rewrite IH]; reflexivity.
Qed.

Lemma sort_rows_keys (l : list (Cell * Row)) :
  map fst (sort_rows l) = sort_keys (map fst l).
Proof.
  unfold sort_rows, sort_keys. induction l as [| r t IH]; simpl.
  - reflexivity.
  - rewrite insert_row_keys, IH. reflexivity.
Qed.

Lemma four_columns {A B C D E : Type} (idx : list A) (a : list B) (b : list C)
    (c : list D) (d : list E) :
  List.length a = List.length idx -> List.length b = List.length idx ->
  List.length c = List.length idx -> List.length d = List.length idx ->
  let l := combine idx (combine (combine a b) (combine c d)) in
  map fst l = idx
  /\ map (fun p => fst (fst (snd p))) l = a
  /\ map (fun p => snd (fst (snd p))) l = b
  /\ map (fun p => fst (snd (snd p))) l = c
  /\ map (fun p => snd (snd (snd p))) l = d.
Proof.
  revert a b c d. induction idx as [| i idx IH]; intros a b c d Ha Hb Hc Hd.
  - destruct a, b, c, d; try discriminate. simpl. auto.
  - destruct a as [| x a], b as [| y b], c as [| z c], d as [| w d]; try discriminate.
    simpl in Ha, Hb, Hc, Hd.
    destruct (IH a b c d) as (H0 & H1 & H2 & H3 & H4); try lia.
    cbn zeta in *. cbn [combine map fst snd].
    rewrite H0, H1, H2, H3, H4. auto.
Qed.

(** X13: what [analyze_yield_patterns] returns, since it decomposes with
    [period=1].  The rows are the parcel's yield records by increasing
    index; [observed] is their [rendement_final]; [trend] is equal to
    [observed] row by row; [seasonal] and [resid] are 0 on every row: the
    decomposition says nothing more than the series itself. *)
Theorem yearly_decomposition_is_the_series (m : Manager) (parcelle_id : string)
    (out : DataFrame) :
  analyze_yield_patterns m parcelle_id = Ok out ->
  index out = sort_keys (map fst (yield_records m parcelle_id))
  /\ ascending (index out) = true
  /\ column "observed" out
     = map (fun r => get "rendement_final" (snd r))
           (sort_rows (yield_records m parcelle_id))
  /\ forallb is_num (column "observed" out) = true
  /\ Forall2 (fun t o => cell_eqb t o = true) (column "trend" out) (column "observed" out)
  /\ Forall (fun c => cell_eqb c (Num 0) = true) (column "seasonal" out)
  /\ Forall (fun c => cell_eqb c (Num 0) = true) (column "resid" out).
Proof.
  unfold analyze_yield_patterns. intros H.
  apply rbind_ok in H. destruct H as (ids & _ & H). cbn [rows] in H.
  fold (yield_records m parcelle_id) in H.
  destruct (yield_records m parcelle_id) as [| r0 rs] eqn:Hrec; [discriminate |].
  rewrite <- Hrec in *. clear Hrec r0 rs.
  apply rbind_ok in H. destruct H as (yields & Hyields & H).
  apply rbind_ok in H. destruct H as (d & Hd & H).
  unfold get_column, has_column, sort_index in Hyields. cbn [columns rows] in Hyields.
  destruct (mem "rendement_final" (columns (yield_history m))); [| discriminate].
  inversion Hyields; subst yields; clear Hyields.
  unfold column in Hd. cbn [rows] in Hd.
  destruct (seasonal_decompose_lengths _ _ _ Hd) as (L1 & L2 & L3 & L4).
  destruct (seasonal_decompose_period_1 _ _ Hd)
    as (xs & Hxs & Hlen & Hobs & Htrend & Hseasonal & Hresid).
  inversion H; subst out; clear H. unfold index, column, sort_index. cbn [rows index_name].
  rewrite !map_map. cbn [fst snd get lookup String.eqb Ascii.eqb Bool.eqb].
  set (idx := map fst (sort_rows (yield_records m parcelle_id))).
  change (map (fun x : Cell * (option Q * option Q * (option Q * option Q)) => fst x))
    with (map (@fst Cell (option Q * option Q * (option Q * option Q)))).
  assert (Hn : List.length (map (fun r => get "rendement_final" (snd r))
                                (sort_rows (yield_records m parcelle_id)))
               = List.length idx).
  { unfold idx. rewrite !length_map. reflexivity. }
  rewrite Hn in L1, L2, L3, L4.
  destruct (four_columns idx (trend d) (seasonal d) (resid d) (observed d) L1 L2 L3 L4)
    as (H0 & H1 & H2 & H3 & H4).
  cbv zeta in H0, H1, H2, H3, H4.
  rewrite <- (map_map (fun p => fst (fst (snd p))) float_cell).
  rewrite <- (map_map (fun p => snd (fst (snd p))) float_cell).
  rewrite <- (map_map (fun p => fst (snd (snd p))) float_cell).
  rewrite <- (map_map (fun p => snd (snd (snd p))) float_cell).
  rewrite H0, H1, H2, H3, H4.
  assert (Hobserved : map float_cell (observed d)
                      = map (fun r => get "rendement_final" (snd r))
                            (sort_rows (yield_records m parcelle_id))).
  { rewrite Hobs, Hxs, map_map. reflexivity. }
  split; [apply sort_rows_keys |].
  split; [unfold idx; rewrite sort_rows_keys; apply sort_keys_ascending |].
  split; [exact Hobserved |]. split; [| split; [| split]].
  - rewrite Hobs, map_map. apply forallb_forall. intros c Hc.
    apply in_map_iff in Hc. destruct Hc as (v & <- & _). reflexivity.
  - rewrite Hobs, map_map. clear -Htrend.
    induction Htrend as [| t v ts vs (q & -> & Hq) _ IH]; simpl; constructor.
    + simpl. apply Qeq_bool_iff. exact Hq.
    + exact IH.
  - clear -Hseasonal. induction Hseasonal as [| s ss (q & -> & Hq) _ IH];
      simpl; constructor; [apply Qeq_bool_iff; exact Hq | exact IH].
  - clear -Hresid. induction Hresid as [| s ss (q & -> & Hq) _ IH];
      simpl; constructor; [apply Qeq_bool_iff; exact Hq | exact IH].
Qed.

Lemma yearly_decomposition_is_the_series_witness :
  exists out,
    analyze_yield_patterns yield_manager "P1" = Ok out
    /\ column "observed" out = [Num 7; Num 0]
    /\ Forall (fun c => cell_eqb c (Num 0) = true) (column "seasonal" out).
Proof.
  destruct (analyze_yield_patterns yield_manager "P1") as [out | e] eqn:E;
    [| vm_compute in E; discriminate].
  destruct (yearly_decomposition_is_the_series yield_manager "P1" out E)
    as (_ & _ & Hobs & _ & _ & Hseasonal & _).
  exists out. split; [reflexivity |]. split; [| exact Hseasonal].
  rewrite Hobs. vm_compute. reflexivity.
Defined.

(** ** What the feature table keeps of the monitoring table *)

Lemma ends_with_append (suffix k : string) : ends_with suffix (k ++ suffix) = true.
Proof.
  induction k as [| a k IH]; simpl.
  - destruct suffix; simpl; [reflexivity |]. rewrite Ascii.eqb_refl, String.eqb_refl.
    reflexivity.
  - rewrite IH. apply orb_true_r.
Qed.

Lemma not_in_overlap (c : string) (keys lcols rcols : list string) :
  mem c keys || negb (mem c rcols) = true ->
  mem c (overlapping keys lcols rcols) = false.
Proof.
  intros H. destruct (mem c (overlapping keys lcols rcols)) eqn:E; [| reflexivity].
  apply mem_In in E. unfold overlapping in E. apply filter_In in E.
  destruct E as [_ E]. apply andb_true_iff in E. destruct E as [E1 E2].
  rewrite E1 in H. apply negb_true_iff in E2. rewrite E2 in H. discriminate.
Qed.

Lemma joined_row_keeps (keys lcols rcols : list string) (l : Row) (y : option Row)
    (c : string) (v : Cell) :
  lookup c l = Some v ->
  mem c keys || negb (mem c rcols) = true ->
  ends_with "_x" c = false ->
  lookup c (joined_row keys lcols rcols l y) = Some v.
Proof.
  intros Hl Hc Hx. unfold joined_row. rewrite lookup_app, lookup_rename_same, Hl.
  - reflexivity.
  - intros k Hk. unfold suffixed. destruct (mem k _); [| exact Hk].
    intros E. rewrite <- E, ends_with_append in Hx. discriminate.
  - unfold suffixed. rewrite (not_in_overlap _ _ _ _ Hc). reflexivity.
Qed.

Lemma joined_rows_keep {X : Type} (keys lcols rcols : list string) (g : X -> Row)
    (h : X -> option Row) (c : string) (xs : list X) :
  forallb (fun x => match lookup c (g x) with Some _ => true | None => false end) xs = true ->
  mem c keys || negb (mem c rcols) = true ->
  ends_with "_x" c = false ->
  map (fun x => lookup c (joined_row keys lcols rcols (g x) (h x))) xs
  = map (fun x => lookup c (g x)) xs.
Proof.
  intros Hall Hc Hx. apply map_ext_in. intros x Hin.
  pose proof (forallb_In _ _ _ Hall Hin) as Hv. cbv beta in Hv.
  destruct (lookup c (g x)) as [v |] eqn:E; [| discriminate].
  apply joined_row_keeps; assumption.
Qed.

Lemma map_compose_eq {A B C : Type} (f : A -> B) (g : B -> C) (l l' : list A) :
  map f l = map f l' -> map (fun x => g (f x)) l = map (fun x => g (f x)) l'.
Proof.
  intros H. rewrite <- (map_map f g l), <- (map_map f g l'), H. reflexivity.
Qed.

Lemma in_every_row_spec (c : string) (df df' : DataFrame) :
  map (fun r => lookup c (snd r)) (rows df') = map (fun r => lookup c (snd r)) (rows df) ->
  in_every_row c df = true ->
  in_every_row c df' = true /\ column c df' = column c df.
Proof.
  unfold in_every_row, column, get. intros H Hdf. split.
  - apply forallb_forall. intros r Hr.
    assert (Hin : In (lookup c (snd r)) (map (fun r => lookup c (snd r)) (rows df'))).
    { apply in_map_iff. eauto. }
    rewrite H in Hin. apply in_map_iff in Hin. destruct Hin as (r0 & E & Hr0).
    pose proof (forallb_In _ _ _ Hdf Hr0) as Hv. cbv beta in Hv.
    rewrite E in Hv. exact Hv.
  - exact (map_compose_eq (fun r : Cell * Row => lookup c (snd r))
             (fun o => match o with Some v => v | None => Null end) _ _ H).
Qed.

Lemma map_snd_combine {A B : Type} (a : list A) (b : list B) :
  List.length a = List.length b -> map snd (combine a b) = b.
Proof.
  revert b. induction a as [| x a IH]; intros [| y b] H; simpl in *; try discriminate.
  - reflexivity.
  - f_equal. apply IH. lia.
Qed.

Lemma mem_remove_names_false (c : string) (ks l : list string) :
  mem c l = false -> mem c (remove_names ks l) = false.
Proof.
  unfold remove_names, mem. induction l as [| k t IH]; simpl; intros H.
  - reflexivity.
  - apply orb_false_iff in H. destruct H as [Hk Ht].
    destruct (negb (existsb (String.eqb k) ks)); simpl; [rewrite Hk |]; auto.
Qed.

Lemma set_index_keeps (d c : string) (df df' : DataFrame) :
  set_index d df = Ok df' ->
  String.eqb c d = false ->
  map (fun r => lookup c (snd r)) (rows df') = map (fun r => lookup c (snd r)) (rows df)
  /\ (has_column c df = false -> has_column c df' = false).
Proof.
  unfold set_index. destruct (has_column d df); [| discriminate].
  intros H Hc. inversion H; subst df'; clear H. cbn [rows]. split.
  - rewrite map_map. apply map_ext. intros r. cbn [snd].
    rewrite lookup_remove_keys. cbn [mem existsb]. rewrite Hc. reflexivity.
  - unfold has_column. cbn [columns]. apply mem_remove_names_false.
Qed.

Lemma merge_asof_keeps (left right joined : DataFrame) (c : string) :
  merge_asof left right = Ok joined ->
  in_every_row c left = true ->
  has_column c right = false ->
  ends_with "_x" c = false ->
  map (fun r => lookup c (snd r)) (rows joined)
  = map (fun r => lookup c (snd r)) (rows left).
Proof.
  unfold merge_asof. intros H Hall Hr Hx.
  apply rbind_ok in H. destruct H as (lkeys & Hl & H).
  apply rbind_ok in H. destruct H as (rkeys & _ & H).
  inversion H; subst joined; clear H. cbn [rows]. rewrite map_map. cbn [snd].
  rewrite (joined_rows_keep [] (columns left) (columns right)
             (fun lr : Z * (Cell * Row) => snd (snd lr))).
  - rewrite <- (map_map snd (fun r : Cell * Row => lookup c (snd r))).
    rewrite map_snd_combine; [reflexivity |].
    rewrite (asof_keys_length _ _ _ Hl). reflexivity.
  - apply forallb_forall. intros [t r] Hin. apply in_combine_r in Hin.
    apply (forallb_In _ _ _ Hall Hin).
  - unfold has_column in Hr. rewrite Hr. reflexivity.
  - exact Hx.
Qed.

Lemma merge_left_keeps (keys : list string) (left right merged : DataFrame) (c : string) :
  merge_left keys left right = Ok merged ->
  nrows merged = nrows left ->
  in_every_row c left = true ->
  mem c keys || negb (has_column c right) = true ->
  ends_with "_x" c = false ->
  map (fun r => lookup c (snd r)) (rows merged)
  = map (fun r => lookup c (snd r)) (rows left).
Proof.
  intros H Hn Hall Hc Hx.
  rewrite <- (map_map snd (lookup c)), (merge_left_single_rows _ _ _ _ H Hn), map_map.
  apply (joined_rows_keep keys (columns left) (columns right)
           (fun l : Cell * Row => snd l)); assumption.
Qed.

Lemma set_index_labels_keeps (name : option string) (labels : list Cell)
    (df df' : DataFrame) (c : string) :
  set_index_labels name labels df = Ok df' ->
  map (fun r => lookup c (snd r)) (rows df') = map (fun r => lookup c (snd r)) (rows df).
Proof.
  intros H. destruct (set_index_labels_inv _ _ _ _ H) as (_ & _ & _ & Hrows & _).
  rewrite <- (map_map snd (lookup c)), Hrows, map_map. reflexivity.
Qed.

Lemma sort_rows_every_row (c : string) (df : DataFrame) :
  in_every_row c df = true -> in_every_row c (sort_index df) = true.
Proof.
  unfold in_every_row, sort_index. cbn [rows]. intros H.
  apply forallb_forall. intros r Hr.
  apply (Permutation_in _ (sort_rows_perm _)) in Hr.
  apply (forallb_In _ _ _ H Hr).
Qed.

(** X14: the feature table keeps the monitoring table's own columns.  A
    column that only the monitoring table has -- [parcelle_id] and the
    coordinates, which are join keys, count as such, and so does
    [stress_hydrique] -- comes out of [prepare_features] as it went in:
    the values of the date-indexed monitoring table, row for row in the
    order of the sorted index.  The dates come with them as the index. *)
Theorem feature_table_keeps_monitoring_columns (s s' : State) (features : DataFrame)
    (c : string) :
  prepare_features s = (s', Ok features) ->
  monitoring_only c (self s) = true ->
  column c features = column c (sort_index (monitoring_data (self s')))
  /\ index features = index (sort_index (monitoring_data (self s'))).
Proof.
  intros H Hc. apply prepare_features_inv in H.
  destruct H as (mon & w & y & text & c1 & mg & c2 & f0 & f1 & f2
                 & Hm & Hw & Hy & -> & H1 & H2 & H3 & H4 & H5 & H6 & H7).
  cbn [self monitoring_data yield_history] in *.
  unfold monitoring_only in Hc.
  repeat (apply andb_true_iff in Hc; let H := fresh "C" in destruct Hc as [Hc H]).
  rename Hc into Crow, C into Cyield, C0 into Csoil, C1 into Cweather, C2 into Cy,
    C3 into Cx, C4 into Cinterp, C5 into Cfill, C6 into Cnames.
  apply negb_true_iff in Cnames, Cfill, Cinterp, Cx, Cy, Cweather.
  cbn [mem existsb] in Cnames. apply orb_false_iff in Cnames.
  destruct Cnames as [Cdate Cnames]. apply orb_false_iff in Cnames.
  destruct Cnames as [Cculture Cnames]. apply orb_false_iff in Cnames.
  destruct Cnames as [Cfinal _].
  (* the date index *)
  destruct (set_index_keeps _ c _ _ Hm Cdate) as (Lmon & _).
  destruct (set_index_keeps _ c _ _ Hw Cdate) as (_ & Hwc). specialize (Hwc Cweather).
  destruct (set_index_keeps _ c _ _ Hy Cdate) as (_ & Hyc).
  destruct (in_every_row_spec c _ _ Lmon Crow) as (Rmon & _).
  pose proof (sort_rows_every_row c mon Rmon) as Rsorted.
  (* the weather *)
  pose proof (merge_asof_keeps _ _ _ c H1 Rsorted Hwc Cx) as L1.
  destruct (in_every_row_spec c _ _ L1 Rsorted) as (R1 & K1).
  (* the soil *)
  destruct (set_index_labels_inv _ _ _ _ H3) as (N3 & _).
  assert (Nmg : nrows mg = nrows c1).
  { rewrite N3. unfold index. apply length_map. }
  pose proof (merge_left_keeps _ _ _ _ c H2 Nmg R1 Csoil Cx) as L2.
  pose proof (set_index_labels_keeps _ _ _ _ c H3) as L3. rewrite L2 in L3.
  destruct (in_every_row_spec c _ _ L3 R1) as (R3 & K3).
  (* the yields *)
  destruct (enrich_with_yield_history_inv _ _ _ H4) as (data' & merged & Hd & Hmerged & Hidx).
  cbn [yield_history] in Hmerged.
  pose proof (drop_columns_inv _ _ _ Hd) as Hd'.
  assert (Ldrop : map (fun r => lookup c (snd r)) (rows data')
                  = map (fun r => lookup c (snd r)) (rows c2)).
  { rewrite Hd'. cbn [rows]. rewrite map_map. apply map_ext. intros r. cbn [snd].
    rewrite lookup_remove_keys. cbn [mem existsb]. rewrite Cculture. reflexivity. }
  destruct (in_every_row_spec c _ _ Ldrop R3) as (Rdrop & _).
  destruct (set_index_labels_inv _ _ _ _ Hidx) as (N4 & _).
  assert (Nmerged : nrows merged = nrows data').
  { rewrite N4, Hd'. unfold index, nrows. cbn [rows]. rewrite !length_map. reflexivity. }
  assert (Cyield' : mem c ["date"; "parcelle_id"] || negb (has_column c y) = true).
  { apply orb_true_iff in Cyield. destruct Cyield as [-> | Cyield]; [reflexivity |].
    apply negb_true_iff in Cyield. rewrite (Hyc Cyield). apply orb_true_r. }
  pose proof (merge_left_keeps _ _ _ _ c Hmerged Nmerged Rdrop Cyield' Cx) as L4.
  pose proof (set_index_labels_keeps _ _ _ _ c Hidx) as L5. rewrite L4, Ldrop in L5.
  destruct (in_every_row_spec c _ _ L5 R3) as (R5 & K5).
  (* the loops and the final fill *)
  assert (K6 : column c f1 = column c f0).
  { unfold fill_gaps in H5. apply rbind_ok in H5. destruct H5 as (ids & _ & H5).
    apply (for_each_parcel_column _ _ _ _ _ c H5).
    intros Hin. apply mem_In in Hin. congruence. }
  assert (K7 : column c f2 = column c f1).
  { unfold interpolate_gaps in H6. apply rbind_ok in H6. destruct H6 as (ids & _ & H6).
    apply (for_each_parcel_column _ _ _ _ _ c H6).
    intros Hin. apply mem_In in Hin. congruence. }
  destruct (fillna_column_inv _ _ _ _ H7) as (_ & I8 & K8).
  assert (Kall : column c features = column c (sort_index mon)).
  { rewrite K8 by (apply String.eqb_neq; exact Cfinal).
    rewrite K7, K6, K5, K3. exact K1. }
  split; [exact Kall |].
  destruct (fill_gaps_frame _ _ H5) as (_ & I5 & _).
  destruct (interpolate_gaps_frame _ _ H6) as (_ & I6 & _).
  destruct (set_index_labels_inv _ _ _ _ Hidx) as (_ & _ & I4 & _).
  destruct (set_index_labels_inv _ _ _ _ H3) as (_ & _ & I3 & _).
  destruct (merge_asof_rows _ _ _ H1) as (_ & I1 & _).
  rewrite I8, I6, I5, I4, I3. exact I1.
Qed.

Lemma feature_table_keeps_monitoring_columns_witness :
  exists s' features,
    prepare_features sample_state = (s', Ok features)
    /\ column "stress_hydrique" features
       = column "stress_hydrique" (sort_index (monitoring_data (self s'))).
Proof.
  assert (H : exists s' features, prepare_features sample_state = (s', Ok features)).
  { do 2 eexists. vm_compute. reflexivity. }
  destruct H as (s' & features & H). exists s', features. split; [exact H |].
  apply (feature_table_keeps_monitoring_columns sample_state s' features
           "stress_hydrique" H eq_refl).
Defined.

(** * The map *)

Section FoliumProperties.

Variable sqrt : Q -> Q.
Variable yield_colormap : Cell -> result string.
Variable str_of : Cell -> string.
Variable format_2f : Cell -> result string.
Variable check_location : Cell * Cell -> result unit.
Variable check_heat_data : list (list Cell) -> result unit.

Lemma create_base_map_outcome (s : MapState) :
  (exists m,
      create_base_map check_location s
      = ({| data_manager := data_manager s; self_map := Some m; files := files s |}, Ok tt)
      /\ children m = [TileLayer "OpenStreetMap"]
      /\ zoom_start m = 12
      /\ column_mean (column "latitude" (monitoring_data (self (data_manager s))))
         = Ok (fst (location m))
      /\ column_mean (column "longitude" (monitoring_data (self (data_manager s))))
         = Ok (snd (location m)))
  \/ (exists e, create_base_map check_location s = (s, Raise e)).
Proof.
  unfold create_base_map, get_column.
  destruct (has_column "latitude" _); [| right; eexists; reflexivity]. cbn [rbind].
  destruct (column_mean (column "latitude" _)) as [lat | e] eqn:Hlat; [| right; eexists; reflexivity].
  cbn [rbind].
  destruct (has_column "longitude" _); [| right; eexists; reflexivity]. cbn [rbind].
  destruct (column_mean (column "longitude" _)) as [lon | e] eqn:Hlon; [| right; eexists; reflexivity].
  cbn [rbind]. unfold folium_Map.
  destruct (check_location (lat, lon)) as [u | e]; [| right; eexists; reflexivity]. cbn [rbind].
  left. eexists. split; [reflexivity |].
  cbn [children zoom_start location add_child app fst snd].
  repeat split.
Qed.

(** [create_base_map] does not look at the map the object has. *)
Lemma create_base_map_forgets (s : MapState) (o : option FoliumMap) :
  (exists s1,
      create_base_map check_location s = (s1, Ok tt)
      /\ create_base_map check_location (with_self_map o s) = (s1, Ok tt))
  \/ (exists e,
         create_base_map check_location s = (s, Raise e)
         /\ create_base_map check_location (with_self_map o s)
            = (with_self_map o s, Raise e)).
Proof.
  unfold create_base_map, with_self_map. cbn [data_manager files].
  match goal with
  | |- context [match ?b with Ok _ => _ | Raise _ => _ end] => destruct b as [m | e]
  end.
  - left. eexists. split; reflexivity.
  - right. eexists. split; reflexivity.
Qed.

Lemma rebuilt_from_scratch (rest : St MapState unit) (s : MapState) (o : option FoliumMap) :
  let before := (create_base_map check_location ~;; rest) s in
  let other := (create_base_map check_location ~;; rest) (with_self_map o s) in
  snd other = snd before
  /\ data_manager (fst other) = data_manager (fst before)
  /\ files (fst other) = files (fst before)
  /\ (is_ok (snd before) = true -> fst other = fst before).
Proof.
  cbv zeta. unfold sbind.
  destruct (create_base_map_forgets s o) as [(s1 & -> & ->) | (e & -> & ->)].
  - auto.
  - cbn [fst snd is_ok]. repeat split. discriminate.
Qed.

(** X15: the three [add_*] methods build the map anew.  Each one starts
    with [create_base_map], so what it returns or raises, what it leaves
    in the data manager and on disk, and -- when it returns -- the whole
    map it leaves, are the same whatever map the object had: layers added
    earlier are dropped, and the layers of two methods are never on one
    map. *)
Theorem add_methods_rebuild_the_map (s : MapState) (o : option FoliumMap) :
  let yields := add_yield_history_layer yield_colormap str_of format_2f check_location in
  let ndvi := add_current_ndvi_layer str_of format_2f check_location in
  let risk := add_risk_heatmap sqrt check_location check_heat_data in
  (snd (yields (with_self_map o s)) = snd (yields s)
   /\ data_manager (fst (yields (with_self_map o s))) = data_manager (fst (yields s))
   /\ files (fst (yields (with_self_map o s))) = files (fst (yields s))
   /\ (is_ok (snd (yields s)) = true -> fst (yields (with_self_map o s)) = fst (yields s)))
  /\ (snd (ndvi (with_self_map o s)) = snd (ndvi s)
      /\ data_manager (fst (ndvi (with_self_map o s))) = data_manager (fst (ndvi s))
      /\ files (fst (ndvi (with_self_map o s))) = files (fst (ndvi s))
      /\ (is_ok (snd (ndvi s)) = true -> fst (ndvi (with_self_map o s)) = fst (ndvi s)))
  /\ (snd (risk (with_self_map o s)) = snd (risk s)
      /\ data_manager (fst (risk (with_self_map o s))) = data_manager (fst (risk s))
      /\ files (fst (risk (with_self_map o s))) = files (fst (risk s))
      /\ (is_ok (snd (risk s)) = true -> fst (risk (with_self_map o s)) = fst (risk s))).
Proof.
  cbv zeta. unfold add_yield_history_layer, add_current_ndvi_layer, add_risk_heatmap.
  split; [| split]; apply rebuilt_from_scratch.
Qed.


Lemma add_child_children (layer : Layer) (m : FoliumMap) :
  children (add_child layer m) = children m ++ [layer]
  /\ location (add_child layer m) = location m
  /\ zoom_start (add_child layer m) = zoom_start m.
Proof.
  repeat split.
Qed.

Lemma add_markers_ok (marker : Row -> result Layer) (table : list (Cell * Row))
    (m m' : FoliumMap) :
  add_markers marker table m = (m', Ok tt) ->
  exists layers,
    mapM marker (map snd table) = Ok layers
    /\ children m' = children m ++ layers
    /\ location m' = location m
    /\ zoom_start m' = zoom_start m.
Proof.
  revert m. induction table as [| row rest IH]; intros m H.
  - inversion H; subst m'. exists []. rewrite app_nil_r. repeat split.
  - cbn [add_markers] in H. cbn [map mapM].
    destruct (marker (snd row)) as [layer | e]; [| inversion H].
    destruct (IH _ H) as (layers & Hl & Hc & Hloc & Hz). rewrite Hl. cbn [rbind].
    exists (layer :: layers). split; [reflexivity |].
    rewrite Hc, Hloc, Hz. cbn [add_child children location zoom_start].
    rewrite <- app_assoc. repeat split.
Qed.

Lemma series_get_ok (c : string) (row : Row) (v : Cell) :
  series_get c row = Ok v -> get c row = v.
Proof.
  unfold series_get, get. destruct (lookup c row); intros H; inversion H. reflexivity.
Qed.

(** What a method that returns went through: the base map, the guard
    that lets it pass, the loop. *)
Lemma marker_layer_inv (marker : Manager -> Row -> result Layer)
    (table : Manager -> list (Cell * Row)) (s s' : MapState) :
  (create_base_map check_location ~;;
   after_guard msg_no_map
     (fun st =>
        let m := self (fst st) in
        let (map', r) := add_markers (marker m) (table m) (snd st) in
        ((fst st, map'), r))) s = (s', Ok tt) ->
  data_manager s' = data_manager s
  /\ files s' = files s
  /\ exists m layers,
       self_map s' = Some m
       /\ zoom_start m = 12
       /\ column_mean (column "latitude" (monitoring_data (self (data_manager s))))
          = Ok (fst (location m))
       /\ column_mean (column "longitude" (monitoring_data (self (data_manager s))))
          = Ok (snd (location m))
       /\ children m = TileLayer "OpenStreetMap" :: layers
       /\ mapM (marker (self (data_manager s))) (map snd (table (self (data_manager s))))
          = Ok layers.
Proof.
  unfold sbind.
  destruct (create_base_map_outcome s)
    as [(m0 & -> & Hc & Hz & Hlat & Hlon) | (e & ->)]; [| intros H; inversion H].
  unfold after_guard. cbn [self_map data_manager files fst snd].
  destruct (add_markers _ _ m0) as [m' r] eqn:E. cbn [fst snd].
  intros H. inversion H; subst s' r; clear H. cbn [data_manager files self_map].
  split; [reflexivity |]. split; [reflexivity |].
  destruct (add_markers_ok _ _ _ _ E) as (layers & Hl & Hc' & Hloc & Hz').
  exists m', layers. rewrite Hloc, Hz', Hc', Hc. repeat split; assumption.
Qed.

(** X16: the yield layer, when [add_yield_history_layer] returns.  The
    data manager and the files are untouched; the map is centred on the
    mean latitude and longitude of the monitoring rows, at zoom 12; it
    holds the tile layer and then one circle per row of the soil table, in
    its order and at the coordinates of that row -- a parcel without soil
    record has none, a parcel with two has two.  The circle's colour is
    the colour scale at the mean [rendement_final] of the parcel's yield
    records, and at 0 for a parcel without any, whose tooltip then reads
    "Pas de données disponibles". *)
Theorem yield_layer_has_one_marker_per_soil_record (s s' : MapState) :
  add_yield_history_layer yield_colormap str_of format_2f check_location s = (s', Ok tt) ->
  data_manager s' = data_manager s
  /\ files s' = files s
  /\ exists m markers,
       self_map s' = Some m
       /\ zoom_start m = 12
       /\ column_mean (column "latitude" (monitoring_data (self (data_manager s))))
          = Ok (fst (location m))
       /\ column_mean (column "longitude" (monitoring_data (self (data_manager s))))
          = Ok (snd (location m))
       /\ children m = TileLayer "OpenStreetMap" :: markers
       /\ List.length markers = nrows (soil_data (self (data_manager s)))
       /\ forall i row,
            nth_error (rows (soil_data (self (data_manager s)))) i = Some row ->
            exists mean color text tooltip,
              nth_error markers i
              = Some (CircleMarker (get "latitude" (snd row), get "longitude" (snd row))
                                   8 color true (7 # 10) tooltip)
              /\ yield_colormap mean = Ok color
              /\ format_2f mean = Ok text
              /\ (yield_records_of (self (data_manager s)) (get "parcelle_id" (snd row)) = [] ->
                  mean = Num 0
                  /\ tooltip
                     = ("Parcelle ID: " ++ str_of (get "parcelle_id" (snd row))
                          ++ "<br>Pas de données disponibles<br>rendement_final moyen : "
                          ++ text ++ " tonnes/ha")%string)
              /\ (yield_records_of (self (data_manager s)) (get "parcelle_id" (snd row)) <> [] ->
                  column_mean
                    (map (fun r => get "rendement_final" (snd r))
                         (yield_records_of (self (data_manager s))
                                           (get "parcelle_id" (snd row))))
                  = Ok mean).
Proof.
  unfold add_yield_history_layer. intros H.
  destruct (marker_layer_inv (yield_marker yield_colormap str_of format_2f check_location)
              (fun m => rows (soil_data m)) s s' H)
    as (Hd & Hf & m & markers & Hm & Hz & Hlat & Hlon & Hc & Hmarkers).
  split; [exact Hd |]. split; [exact Hf |].
  exists m, markers. repeat (split; [assumption |]). split.
  - rewrite (mapM_length _ _ _ Hmarkers), length_map. reflexivity.
  - intros i row Hrow.
    assert (Hi : nth_error (map snd (rows (soil_data (self (data_manager s))))) i
                 = Some (snd row)).
    { rewrite nth_error_map, Hrow. reflexivity. }
    destruct (mapM_nth _ _ _ _ _ Hmarkers Hi) as (layer & Hlayer & Hmk).
    unfold yield_marker in Hmk.
    apply rbind_ok in Hmk. destruct Hmk as (pid & Hpid & Hmk).
    apply rbind_ok in Hmk. destruct Hmk as (lat & Hla & Hmk).
    apply rbind_ok in Hmk. destruct Hmk as (lon & Hlo & Hmk).
    apply rbind_ok in Hmk. destruct Hmk as (ids & _ & Hmk).
    apply rbind_ok in Hmk. destruct Hmk as (summary & Hsum & Hmk).
    apply rbind_ok in Hmk. destruct Hmk as (color & Hcol & Hmk).
    apply rbind_ok in Hmk. destruct Hmk as (text & Htext & Hmk).
    unfold folium_CircleMarker in Hmk.
    apply rbind_ok in Hmk. destruct Hmk as (u & _ & Hmk).
    inversion Hmk; subst layer; clear Hmk.
    apply series_get_ok in Hpid, Hla, Hlo. subst pid lat lon.
    exists (fst summary), color, text. eexists.
    split; [exact Hlayer |]. split; [exact Hcol |]. split; [exact Htext |].
    unfold yield_records_of.
    destruct (filter _ (rows (yield_history (self (data_manager s))))) as [| y ys] eqn:Ey.
    + inversion Hsum; subst summary. split; [| congruence].
      intros _. split; reflexivity.
    + split; [discriminate |]. intros _.
      destruct (has_column "rendement_final" _); [| discriminate].
      apply rbind_ok in Hsum. destruct Hsum as (mean & Hmean & Hsum).
      apply rbind_ok in Hsum. destruct Hsum as (t & _ & Hsum).
      inversion Hsum; subst summary. exact Hmean.
Qed.

(** X17: the NDVI layer, when [add_current_ndvi_layer] returns.  The
    data manager and the files are untouched, and the map holds, after
    the tile layer, one green circle of radius 6 per row of the monitoring
    table, in its order and at the coordinates of that row: every
    observation of every date, not the latest one of each parcel. *)
Theorem ndvi_layer_has_one_marker_per_monitoring_row (s s' : MapState) :
  add_current_ndvi_layer str_of format_2f check_location s = (s', Ok tt) ->
  data_manager s' = data_manager s
  /\ files s' = files s
  /\ exists m markers,
       self_map s' = Some m
       /\ children m = TileLayer "OpenStreetMap" :: markers
       /\ List.length markers = nrows (monitoring_data (self (data_manager s)))
       /\ forall i row,
            nth_error (rows (monitoring_data (self (data_manager s)))) i = Some row ->
            exists text,
              format_2f (get "ndvi" (snd row)) = Ok text
              /\ nth_error markers i
                 = Some (CircleMarker
                           (get "latitude" (snd row), get "longitude" (snd row))
                           6 "Green" true (6 # 10)
                           ("Latitude: " ++ str_of (get "latitude" (snd row))
                              ++ "<br>Longitude: " ++ str_of (get "longitude" (snd row))
                              ++ "<br>NDVI: " ++ text)%string).
Proof.
  unfold add_current_ndvi_layer. intros H.
  destruct (marker_layer_inv (fun _ => ndvi_marker str_of format_2f check_location)
              (fun m => rows (monitoring_data m)) s s' H)
    as (Hd & Hf & m & markers & Hm & Hz & Hlat & Hlon & Hc & Hmarkers).
  split; [exact Hd |]. split; [exact Hf |].
  exists m, markers. split; [exact Hm |]. split; [exact Hc |]. split.
  - rewrite (mapM_length _ _ _ Hmarkers), length_map. reflexivity.
  - intros i row Hrow.
    assert (Hi : nth_error (map snd (rows (monitoring_data (self (data_manager s))))) i
                 = Some (snd row)).
    { rewrite nth_error_map, Hrow. reflexivity. }
    destruct (mapM_nth _ _ _ _ _ Hmarkers Hi) as (layer & Hlayer & Hmk).
    unfold ndvi_marker in Hmk.
    apply rbind_ok in Hmk. destruct Hmk as (lat & Hla & Hmk).
    apply rbind_ok in Hmk. destruct Hmk as (lon & Hlo & Hmk).
    apply rbind_ok in Hmk. destruct Hmk as (ndvi & Hnd & Hmk).
    apply rbind_ok in Hmk. destruct Hmk as (text & Htext & Hmk).
    unfold folium_CircleMarker in Hmk.
    apply rbind_ok in Hmk. destruct Hmk as (u & _ & Hmk).
    inversion Hmk; subst layer; clear Hmk.
    apply series_get_ok in Hla, Hlo, Hnd. subst lat lon ndvi.
    exists text. split; [exact Htext | exact Hlayer].
Qed.

End FoliumProperties.

Lemma add_methods_rebuild_the_map_witness :
  fst (add_yield_history_layer any_colour any_text two_decimals any_location
         (with_self_map (Some used_map) (new_map sample_state [])))
  = fst (add_yield_history_layer any_colour any_text two_decimals any_location
           (new_map sample_state [])).
Proof.
  destruct (add_methods_rebuild_the_map no_sqrt any_colour any_text two_decimals
              any_location any_heat_data (new_map sample_state []) (Some used_map))
    as ((_ & _ & _ & H) & _).
  apply H. vm_compute. reflexivity.
Defined.

Lemma yield_layer_has_one_marker_per_soil_record_witness :
  exists s' m markers,
    add_yield_history_layer any_colour any_text two_decimals any_location
      (new_map sample_state []) = (s', Ok tt)
    /\ self_map s' = Some m
    /\ children m = TileLayer "OpenStreetMap" :: markers
    /\ List.length markers = 2%nat.
Proof.
  destruct (add_yield_history_layer any_colour any_text two_decimals any_location
              (new_map sample_state [])) as [s' [[] | e]] eqn:E;
    [| vm_compute in E; discriminate].
  destruct (yield_layer_has_one_marker_per_soil_record any_colour any_text two_decimals
              any_location (new_map sample_state []) s' E)
    as (_ & _ & m & markers & Hm & _ & _ & _ & Hc & Hn & _).
  exists s', m, markers. split; [reflexivity |]. split; [exact Hm |].
  split; [exact Hc |]. rewrite Hn. reflexivity.
Defined.

Lemma ndvi_layer_has_one_marker_per_monitoring_row_witness :
  exists s' m markers,
    add_current_ndvi_layer any_text two_decimals any_location (new_map ndvi_state [])
    = (s', Ok tt)
    /\ self_map s' = Some m
    /\ children m = TileLayer "OpenStreetMap" :: markers
    /\ List.length markers = 3%nat.
Proof.
  destruct (add_current_ndvi_layer any_text two_decimals any_location
              (new_map ndvi_state [])) as [s' [[] | e]] eqn:E;
    [| vm_compute in E; discriminate].
  destruct (ndvi_layer_has_one_marker_per_monitoring_row any_text two_decimals
              any_location (new_map ndvi_state []) s' E)
    as (_ & _ & m & markers & Hm & Hc & Hn & _).
  exists s', m, markers. split; [reflexivity |]. split; [exact Hm |].
  split; [exact Hc |]. rewrite Hn. reflexivity.
Defined.

(** ** The risk layer *)

Lemma reset_index_checked_named (df : DataFrame) (n : string) :
  index_name df = Some n -> has_column n df = false ->
  reset_index_checked df = Ok (reset_index df).
Proof.
  unfold reset_index_checked, reset_index_name, reset_index. intros -> ->. reflexivity.
Qed.

Lemma reset_temporal_indices_inv (s s' : State) (u : unit) :
  reset_temporal_indices s = (s', Ok u) ->
  exists monitoring weather yields,
    reset_index_checked (monitoring_data (self s)) = Ok monitoring
    /\ reset_index_checked (weather_data (self s)) = Ok weather
    /\ reset_index_checked (yield_history (self s)) = Ok yields
    /\ s' = {| self := {| monitoring_data := monitoring;
                          weather_data := weather;
                          soil_data := soil_data (self s);
                          yield_history := yields |};
               stdout := stdout s |}.
Proof.
  unfold reset_temporal_indices, bind, read, lift, assign_monitoring_data,
    assign_weather_data, assign_yield_history. cbn [self stdout].
  destruct (reset_index_checked (monitoring_data (self s))) as [mon | e];
    [| intros H; inversion H].
  cbn [self stdout monitoring_data weather_data soil_data yield_history].
  destruct (reset_index_checked (weather_data (self s))) as [w | e];
    [| intros H; inversion H].
  cbn [self stdout monitoring_data weather_data soil_data yield_history].
  destruct (reset_index_checked (yield_history (self s))) as [y | e];
    [| intros H; inversion H].
  cbn [self stdout monitoring_data weather_data soil_data yield_history].
  intros H. inversion H. exists mon, w, y. auto.
Qed.

(** On tables indexed by date the three resets go through, and give the
    date back as a column. *)
Lemma reset_temporal_indices_dated (s0 s : State) (features : DataFrame) :
  prepare_features s0 = (s, Ok features) ->
  reset_temporal_indices s = (reset_indices s, Ok tt).
Proof.
  intros H. apply prepare_features_inv in H.
  destruct H as (mon & w & y & text & c1 & mg & c2 & f0 & f1 & f2
                 & Hm & Hw & Hy & -> & _).
  destruct (set_index_inv _ _ _ Hm) as (_ & Hm1 & _ & Hm2 & _).
  destruct (set_index_inv _ _ _ Hw) as (_ & Hw1 & _ & Hw2 & _).
  destruct (set_index_inv _ _ _ Hy) as (_ & Hy1 & _ & Hy2 & _).
  unfold reset_temporal_indices, reset_indices, bind, read, lift,
    assign_monitoring_data, assign_weather_data, assign_yield_history.
  cbn [self stdout monitoring_data weather_data soil_data yield_history].
  rewrite (reset_index_checked_named _ _ Hm2 Hm1).
  cbn [self stdout monitoring_data weather_data soil_data yield_history].
  rewrite (reset_index_checked_named _ _ Hw2 Hw1).
  cbn [self stdout monitoring_data weather_data soil_data yield_history].
  rewrite (reset_index_checked_named _ _ Hy2 Hy1). reflexivity.
Qed.

(** Once the date is a column again, [prepare_features] returns the
    table it returned before. *)
Lemma prepare_features_again (s s' : State) (features : DataFrame) :
  prepare_features s = (s', Ok features) ->
  exists text,
    prepare_features (reset_indices s')
    = ({| self := self s'; stdout := stdout s' ++ [text] |}, Ok features).
Proof.
  intros H. pose proof H as Hcall. apply prepare_features_inv in H.
  destruct H as (mon & w & y & text & c1 & mg & c2 & f0 & f1 & f2
                 & Hm & Hw & Hy & -> & _).
  cbn [self stdout].
  rewrite prepare_features_factored in Hcall.
  apply bind_ok in Hcall. destruct Hcall as (u1 & s1 & Hsetup & Hcall).
  apply bind_ok in Hcall. destruct Hcall as (u2 & s2 & Hverify & Hcall).
  apply bind_ok in Hcall. destruct Hcall as (m & s3 & Hread & Hcall).
  apply read_ok in Hread. destruct Hread as [-> ->].
  apply lift_ok in Hcall. destruct Hcall as [Hs2 Hfeatures].
  apply setup_temporal_indices_inv in Hsetup.
  destruct Hsetup as (mon' & w' & y' & Hm' & Hw' & Hy' & ->).
  rewrite Hm in Hm'. rewrite Hw in Hw'. rewrite Hy in Hy'.
  inversion Hm'; subst mon'. inversion Hw'; subst w'. inversion Hy'; subst y'.
  destruct (verify_temporal_consistency_reads_self
              _ _ (stdout s ++ [text]) _ _ Hverify) as (text' & -> & Hagain).
  cbn [self] in Hfeatures.
  exists text'. rewrite prepare_features_factored. unfold bind at 1.
  assert (Hsetup : _setup_temporal_indices
                     (reset_indices
                        {| self := {| monitoring_data := mon;
                                      weather_data := w;
                                      soil_data := soil_data (self s);
                                      yield_history := y |};
                           stdout := stdout s ++ [text] |})
                   = ({| self := {| monitoring_data := mon;
                                    weather_data := w;
                                    soil_data := soil_data (self s);
                                    yield_history := y |};
                         stdout := stdout s ++ [text] |}, Ok tt)).
  { unfold _setup_temporal_indices, reset_indices, bind, read, lift,
      assign_monitoring_data, assign_weather_data, assign_yield_history.
    cbn [self stdout monitoring_data weather_data soil_data yield_history].
    rewrite (set_index_after_reset_index _ _ Hm),
      (set_index_after_reset_index _ _ Hw), (set_index_after_reset_index _ _ Hy).
    reflexivity. }
  rewrite Hsetup. unfold bind. rewrite Hagain. unfold read, lift. cbn [self].
  rewrite Hfeatures. reflexivity.
Qed.

Lemma mem_remove_names_spec (c : string) (ks l : list string) :
  mem c (remove_names ks l) = mem c l && negb (mem c ks).
Proof.
  unfold remove_names. induction l as [| k t IH].
  - reflexivity.
  - cbn [filter]. destruct (negb (mem k ks)) eqn:E.
    + unfold mem at 1 3. cbn [existsb]. fold (mem c (filter (fun k => negb (mem k ks)) t)).
      fold (mem c t). rewrite IH.
      destruct (String.eqb c k) eqn:Ek; [| reflexivity].
      apply String.eqb_eq in Ek. subst k. rewrite E.
      destruct (mem c t); reflexivity.
    + rewrite IH. unfold mem at 3. cbn [existsb]. fold (mem c t).
      destruct (String.eqb c k) eqn:Ek; [| reflexivity].
      apply String.eqb_eq in Ek. subst k. apply negb_false_iff in E. rewrite E.
      rewrite !andb_false_r. reflexivity.
Qed.

Lemma dated_keeps_column (df r t : DataFrame) (c : string) :
  reset_index_checked df = Ok r ->
  set_index "date" r = Ok t ->
  has_column c df = true ->
  String.eqb c "date" = false ->
  has_column c t = true /\ column c t = column c df.
Proof.
  unfold reset_index_checked. intros Hr Ht Hc Hd.
  destruct (has_column (reset_index_name df) df) eqn:Hn; [discriminate |].
  inversion Hr; subst r; clear Hr.
  assert (Hcn : String.eqb c (reset_index_name df) = false).
  { destruct (String.eqb c (reset_index_name df)) eqn:E; [| reflexivity].
    apply String.eqb_eq in E. rewrite <- E, Hc in Hn. discriminate. }
  unfold set_index in Ht. destruct (has_column "date" _); [| discriminate].
  inversion Ht; subst t; clear Ht. split.
  - unfold has_column in *. cbn [columns].
    assert (Hkept : mem c (remove_names ["date"] (columns df)) = true).
    { rewrite mem_remove_names_spec, Hc. cbn [mem existsb]. rewrite Hd. reflexivity. }
    destruct (negb _).
    + unfold mem. cbn [existsb]. fold (mem c (remove_names ["date"] (columns df))).
      rewrite Hkept. apply orb_true_r.
    + exact Hkept.
  - unfold column. cbn [rows]. rewrite map_map. cbn [snd].
    rewrite <- (map_map snd (fun x => get c (remove_keys ["date"] x))).
    rewrite with_range_index_rows, map_map. apply map_ext. intros row.
    unfold get. rewrite lookup_remove_keys. cbn [mem existsb]. rewrite Hd.
    cbn [orb lookup]. rewrite Hcn. reflexivity.
Qed.

Section RiskLayer.

Variable sqrt : Q -> Q.
Variable check_location : Cell * Cell -> result unit.
Variable check_heat_data : list (list Cell) -> result unit.

Lemma create_base_map_columns (s s1 : MapState) (u : unit) :
  create_base_map check_location s = (s1, Ok u) ->
  has_column "latitude" (monitoring_data (self (data_manager s))) = true
  /\ has_column "longitude" (monitoring_data (self (data_manager s))) = true
  /\ exists m,
       s1 = {| data_manager := data_manager s; self_map := Some m; files := files s |}
       /\ (let? mean_lat :=
             column_mean (column "latitude" (monitoring_data (self (data_manager s)))) in
           let? mean_lon :=
             column_mean (column "longitude" (monitoring_data (self (data_manager s)))) in
           let? base := folium_Map check_location (mean_lat, mean_lon) 12 in
           Ok (add_child (TileLayer "OpenStreetMap") base)) = Ok m.
Proof.
  unfold create_base_map, get_column.
  destruct (has_column "latitude" _); [| intros H; inversion H]. cbn [rbind].
  destruct (column_mean (column "latitude" _)) as [lat | e]; [| intros H; inversion H].
  cbn [rbind].
  destruct (has_column "longitude" _); [| intros H; inversion H]. cbn [rbind].
  destruct (column_mean (column "longitude" _)) as [lon | e]; [| intros H; inversion H].
  cbn [rbind].
  destruct (folium_Map check_location (lat, lon) 12) as [base | e];
    [| intros H; inversion H].
  intros H. inversion H. split; [reflexivity |]. split; [reflexivity |].
  eexists. split; reflexivity.
Qed.

Lemma create_base_map_replay (s t : MapState) (m : FoliumMap) :
  create_base_map check_location s
  = ({| data_manager := data_manager s; self_map := Some m; files := files s |}, Ok tt) ->
  has_column "latitude" (monitoring_data (self (data_manager t))) = true ->
  has_column "longitude" (monitoring_data (self (data_manager t))) = true ->
  column "latitude" (monitoring_data (self (data_manager t)))
  = column "latitude" (monitoring_data (self (data_manager s))) ->
  column "longitude" (monitoring_data (self (data_manager t)))
  = column "longitude" (monitoring_data (self (data_manager s))) ->
  create_base_map check_location t
  = ({| data_manager := data_manager t; self_map := Some m; files := files t |}, Ok tt).
Proof.
  intros H Hlat Hlon Clat Clon.
  destruct (create_base_map_columns _ _ _ H) as (_ & _ & m' & Hs & Hm).
  inversion Hs; subst m'. clear Hs.
  unfold create_base_map, get_column. rewrite Hlat, Hlon, Clat, Clon. cbn [rbind].
  destruct (column_mean (column "latitude" _)) as [lat | e]; [| discriminate].
  cbn [rbind] in *.
  destruct (column_mean (column "longitude" _)) as [lon | e]; [| discriminate].
  cbn [rbind] in *.
  destruct (folium_Map check_location (lat, lon) 12) as [base | e]; [| discriminate].
  cbn [rbind] in Hm. inversion Hm. reflexivity.
Qed.

Lemma risk_heat_data_inv (d d1 : State) (heat : list (list Cell)) :
  risk_heat_data sqrt d = (d1, Ok heat) ->
  exists dr features risk right merged,
    reset_temporal_indices d = (dr, Ok tt)
    /\ prepare_features dr = (d1, Ok features)
    /\ calculate_risk_metrics sqrt (self d1) features = Ok risk
    /\ reset_index_checked (monitoring_data (self d1)) = Ok right
    /\ merge_inner_rows ["parcelle_id"] risk right = Ok merged
    /\ mapM heat_point merged = Ok heat.
Proof.
  unfold risk_heat_data. intros H.
  apply bind_ok in H. destruct H as ([] & dr & Hreset & H).
  apply bind_ok in H. destruct H as (features & dp & Hprep & H).
  apply bind_ok in H. destruct H as (m & s3 & Hread & H).
  apply read_ok in Hread. destruct Hread as [-> ->].
  apply bind_ok in H. destruct H as (risk & s4 & Hrisk & H).
  apply lift_ok in Hrisk. destruct Hrisk as [-> Hrisk].
  apply bind_ok in H. destruct H as (right & s5 & Hright & H).
  apply lift_ok in Hright. destruct Hright as [-> Hright].
  apply bind_ok in H. destruct H as (merged & s6 & Hmerged & H).
  apply lift_ok in Hmerged. destruct Hmerged as [-> Hmerged].
  apply lift_ok in H. destruct H as [<- Hheat].
  exists dr, features, risk, right, merged. repeat split; assumption.
Qed.

Lemma add_risk_heatmap_inv (s s1 : MapState) :
  add_risk_heatmap sqrt check_location check_heat_data s = (s1, Ok tt) ->
  exists base heat,
    create_base_map check_location s
    = ({| data_manager := data_manager s; self_map := Some base; files := files s |}, Ok tt)
    /\ risk_heat_data sqrt (data_manager s) = (data_manager s1, Ok heat)
    /\ check_heat_data heat = Ok tt
    /\ self_map s1
       = Some (add_child (HeatMap heat "Carte de chaleur des risques" 10 15 12) base)
    /\ files s1 = files s.
Proof.
  unfold add_risk_heatmap, sbind.
  destruct (create_base_map check_location s) as [s0 [[] | e]] eqn:Hbase;
    [| intros H; inversion H].
  destruct (create_base_map_columns _ _ _ Hbase) as (_ & _ & base & -> & _).
  unfold after_guard. cbn [self_map data_manager files fst snd].
  destruct (risk_heat_data sqrt (data_manager s)) as [d [heat | e]] eqn:Hheat.
  - unfold plugins_HeatMap.
    destruct (check_heat_data heat) as [[] | e] eqn:Hcheck; cbn [rbind fst snd];
      intros H; inversion H; subst s1; clear H.
    exists base, heat. cbn [data_manager self_map files]. repeat split. exact Hcheck.
  - cbn [fst snd]. intros H. inversion H.
Qed.

(** X18: [add_risk_heatmap] can be called again, where
    [prepare_features] cannot.  When a call has returned, the three dated
    tables of the data manager are indexed by date, so that a direct call
    of [prepare_features] raises the KeyError of [set_index]; but a
    further [add_risk_heatmap] -- on this object or on a new one for the
    same data manager -- first resets the indices, and returns with the
    same map, the same heat data and the same tables, having printed one
    more report. *)
Theorem risk_heatmap_can_be_called_again (s s1 : MapState) (o : option FoliumMap) :
  add_risk_heatmap sqrt check_location check_heat_data s = (s1, Ok tt) ->
  has_column "date" (monitoring_data (self (data_manager s1))) = false
  /\ index_name (monitoring_data (self (data_manager s1))) = Some "date"
  /\ snd (prepare_features (data_manager s1))
     = Raise (KeyError "None of ['date'] are in the columns")
  /\ exists text,
       add_risk_heatmap sqrt check_location check_heat_data (with_self_map o s1)
       = ({| data_manager := {| self := self (data_manager s1);
                                stdout := stdout (data_manager s1) ++ [text] |};
             self_map := self_map s1;
             files := files s1 |}, Ok tt).
Proof.
  intros H.
  destruct (add_risk_heatmap_inv _ _ H) as (base & heat & Hbase & Hheat & Hcheck & Hmap & Hfiles).
  destruct (risk_heat_data_inv _ _ _ Hheat)
    as (dr & features & risk & right & merged & Hreset & Hprep & Hrisk & Hright
        & Hmerged & Hpoints).
  destruct (reset_temporal_indices_inv _ _ _ Hreset) as (rm & rw & ry & Hrm & _ & _ & Hdr).
  pose proof (prepare_features_inv _ _ _ Hprep) as Hinv.
  destruct Hinv as (mon & w & y & text0 & c1 & mg & c2 & f0 & f1 & f2
                    & Hm & _ & _ & Hd1 & _).
  assert (Hmon : monitoring_data (self (data_manager s1)) = mon)
    by (rewrite Hd1; reflexivity).
  assert (Hrmon : monitoring_data (self dr) = rm) by (rewrite Hdr; reflexivity).
  rewrite Hrmon in Hm.
  destruct (set_index_inv _ _ _ Hm) as (_ & Hnodate & _ & Hname & _).
  rewrite Hmon. split; [exact Hnodate |]. split; [exact Hname |]. split.
  { rewrite (prepare_features_stops_at_first_index (data_manager s1)
               (KeyError "None of ['date'] are in the columns")); [reflexivity |].
    rewrite Hmon. apply set_index_missing. exact Hnodate. }
  destruct (prepare_features_again _ _ _ Hprep) as (text & Hagain).
  exists text.
  destruct (create_base_map_columns _ _ _ Hbase) as (Hlat & Hlon & _).
  destruct (dated_keeps_column _ _ _ "latitude" Hrm Hm Hlat eq_refl) as (Hlat1 & Clat).
  destruct (dated_keeps_column _ _ _ "longitude" Hrm Hm Hlon eq_refl) as (Hlon1 & Clon).
  assert (Hbase1 : create_base_map check_location (with_self_map o s1)
                   = ({| data_manager := data_manager s1;
                         self_map := Some base;
                         files := files s1 |}, Ok tt)).
  { apply (create_base_map_replay s (with_self_map o s1) base Hbase);
      cbn [with_self_map data_manager]; rewrite Hmon; assumption. }
  unfold add_risk_heatmap, sbind. rewrite Hbase1.
  unfold after_guard. cbn [self_map data_manager files fst snd].
  assert (Hheat1 : risk_heat_data sqrt (data_manager s1)
                   = ({| self := self (data_manager s1);
                         stdout := stdout (data_manager s1) ++ [text] |}, Ok heat)).
  { unfold risk_heat_data, bind.
    rewrite (reset_temporal_indices_dated _ _ _ Hprep), Hagain.
    unfold read, lift. cbn [self]. rewrite Hrisk, Hright, Hmerged. exact (f_equal _ Hpoints). }
  rewrite Hheat1. unfold plugins_HeatMap. rewrite Hcheck. cbn [rbind fst snd].
  rewrite Hmap. reflexivity.
Qed.

End RiskLayer.

Lemma risk_heatmap_can_be_called_again_witness :
  exists s1 s2,
    add_risk_heatmap no_sqrt any_location any_heat_data (new_map sample_state [])
    = (s1, Ok tt)
    /\ add_risk_heatmap no_sqrt any_location any_heat_data (with_self_map None s1)
       = (s2, Ok tt)
    /\ self_map s2 = self_map s1.
Proof.
  destruct (add_risk_heatmap no_sqrt any_location any_heat_data (new_map sample_state []))
    as [s1 [[] | e]] eqn:E; [| vm_compute in E; discriminate].
  destruct (risk_heatmap_can_be_called_again no_sqrt any_location any_heat_data
              (new_map sample_state []) s1 None E) as (_ & _ & _ & text & H).
  exists s1. eexists. split; [reflexivity |]. split; [exact H | reflexivity].
Defined.

Lemma risk_rows_shape (sqrt : Q -> Q) (m : Manager) (data out : DataFrame) :
  calculate_risk_metrics sqrt m data = Ok out ->
  index_name out = Some "parcelle_id"
  /\ columns out = ["mean_stress"; "stress_variability"; "mean_temperature";
                    "capacite_retention_eau"; "risk_score"]
  /\ forall r, In r (rows out) ->
       exists a b d c score,
         snd r = [("mean_stress", a); ("stress_variability", b); ("mean_temperature", d);
                  ("capacite_retention_eau", c); ("risk_score", score)].
Proof.
  unfold calculate_risk_metrics. intros H.
  apply rbind_ok in H. destruct H as (stress & _ & H).
  apply rbind_ok in H. destruct H as (temperature & _ & H).
  destruct (existsb isnull (stress ++ temperature)); [discriminate |].
  apply rbind_ok in H. destruct H as (soil_ids & _ & H).
  apply rbind_ok in H. destruct H as (retention & _ & H).
  destruct (existsb isnull (soil_ids ++ retention)); [discriminate |].
  apply rbind_ok in H. destruct H as (ids & _ & H).
  apply rbind_ok in H. destruct H as (metrics & Hmetrics & H). cbv zeta in H.
  destruct (existsb _ (flat_map _ metrics)); [discriminate |].
  apply rbind_ok in H. destruct H as (scored & Hscored & H).
  inversion H; subst out; clear H. cbn [index_name columns rows].
  split; [reflexivity |]. split; [reflexivity |]. intros r Hr.
  destruct (mapM_In _ _ _ _ Hscored Hr) as (j & Hj & Hjr).
  apply in_flat_map in Hj. destruct Hj as (r0 & Hr0 & Hj).
  destruct (mapM_In _ _ _ _ Hmetrics Hr0) as (k & Hk & Hkr).
  apply stress_row_inv in Hkr. destruct Hkr as (a & b & d & -> & _).
  apply with_risk_score_inv in Hjr. destruct Hjr as (score & -> & _).
  apply join_retention_inv in Hj.
  destruct Hj as [(_ & ->) | (s & _ & _ & ->)]; cbn [fst snd app]; eauto 10.
Qed.

Lemma map_flat_map {A B C : Type} (g : B -> C) (f : A -> list B) (l : list A) :
  map g (flat_map f l) = flat_map (fun x => map g (f x)) l.
Proof.
  induction l as [| x t IH]; simpl.
  - reflexivity.
  - rewrite map_app, IH. reflexivity.
Qed.

Lemma filter_on_snd {A B C : Type} (p : B -> bool) (h : B -> C) (l : list (A * B)) :
  map (fun x => h (snd x)) (filter (fun x => p (snd x)) l)
  = map h (filter p (map snd l)).
Proof.
  induction l as [| x t IH]; simpl.
  - reflexivity.
  - destruct (p (snd x)); simpl; rewrite IH; reflexivity.
Qed.

Lemma filter_of_map {A B : Type} (p : B -> bool) (q : A -> B) (l : list A) :
  filter p (map q l) = map q (filter (fun x => p (q x)) l).
Proof.
  induction l as [| x t IH]; simpl.
  - reflexivity.
  - destruct (p (q x)); simpl; rewrite IH; reflexivity.
Qed.

Lemma heat_point_reads (row : Row) (p : list Cell) :
  heat_point row = Ok p ->
  p = [get "latitude" row; get "longitude" row; get "risk_score" row].
Proof.
  unfold heat_point. intros H.
  apply rbind_ok in H. destruct H as (lat & Hlat & H).
  apply rbind_ok in H. destruct H as (lon & Hlon & H).
  apply rbind_ok in H. destruct H as (score & Hscore & H).
  apply series_get_ok in Hlat, Hlon, Hscore. inversion H. congruence.
Qed.

Lemma plain_suffix_x (overlap : list string) (c : string) :
  ends_with "_x" c = false -> forall k, k <> c -> suffixed overlap "_x" k <> c.
Proof.
  intros Hx k Hk. unfold suffixed. destruct (mem k overlap); [| exact Hk].
  intros E. rewrite <- E, ends_with_append in Hx. discriminate.
Qed.

Lemma plain_suffix_y (overlap : list string) (c : string) :
  ends_with "_y" c = false -> forall k, k <> c -> suffixed overlap "_y" k <> c.
Proof.
  intros Hy k Hk. unfold suffixed. destruct (mem k overlap); [| exact Hk].
  intros E. rewrite <- E, ends_with_append in Hy. discriminate.
Qed.

(** The three cells the heat map reads in a row of the join of the risk
    table with the monitoring rows. *)
Lemma heat_cells (risk right : DataFrame) (l : Cell * Row) (r : Row)
    (a b d c score : Cell) :
  columns risk = ["mean_stress"; "stress_variability"; "mean_temperature";
                  "capacite_retention_eau"; "risk_score"] ->
  has_column "risk_score" right = false ->
  snd l = [("mean_stress", a); ("stress_variability", b); ("mean_temperature", d);
           ("capacite_retention_eau", c); ("risk_score", score)] ->
  let overlap := overlapping ["parcelle_id"] (columns risk) (columns right) in
  let row :=
    rename_row (suffixed overlap "_x") (snd l)
      ++ map (fun k => (k, key_value k risk l))
             (filter (fun k => negb (has_column k risk)) ["parcelle_id"])
      ++ rename_row (suffixed overlap "_y") (remove_keys ["parcelle_id"] r) in
  get "latitude" row = get "latitude" r
  /\ get "longitude" row = get "longitude" r
  /\ get "risk_score" row = score.
Proof.
  intros Hcols Hscore Hl. cbv zeta. unfold has_column. rewrite Hcols, Hl.
  cbn [filter mem existsb String.eqb Ascii.eqb Bool.eqb orb negb map].
  set (overlap := overlapping _ _ (columns right)).
  assert (Hov : forall k, ~ In k ["mean_stress"; "stress_variability"; "mean_temperature";
                                  "capacite_retention_eau"; "risk_score"] ->
                          mem k overlap = false).
  { intros k Hk. destruct (mem k overlap) eqn:E; [| reflexivity].
    apply mem_In in E. unfold overlap, overlapping in E. apply filter_In in E.
    destruct E as [E _]. contradiction. }
  assert (Hrisk : mem "risk_score" overlap = false).
  { destruct (mem "risk_score" overlap) eqn:E; [| reflexivity].
    apply mem_In in E. unfold overlap, overlapping in E. apply filter_In in E.
    destruct E as [_ E]. unfold has_column in Hscore. rewrite Hscore in E. discriminate. }
  assert (Hside : forall k, k = "latitude" \/ k = "longitude" ->
                            get k (rename_row (suffixed overlap "_x")
                                     [("mean_stress", a); ("stress_variability", b);
                                      ("mean_temperature", d);
                                      ("capacite_retention_eau", c);
                                      ("risk_score", score)]
                                     ++ [("parcelle_id", key_value "parcelle_id" risk l)]
                                     ++ rename_row (suffixed overlap "_y")
                                          (remove_keys ["parcelle_id"] r))
                            = get k r).
  { intros k Hk. unfold get. rewrite !lookup_app.
    rewrite lookup_rename_none.
    - assert (E : lookup k [("parcelle_id", key_value "parcelle_id" risk l)] = None)
        by (destruct Hk as [-> | ->]; reflexivity).
      rewrite E, lookup_rename_same.
      + rewrite lookup_remove_keys.
        assert (E' : mem k ["parcelle_id"] = false) by (destruct Hk as [-> | ->]; reflexivity).
        rewrite E'. reflexivity.
      + apply plain_suffix_y. destruct Hk as [-> | ->]; reflexivity.
      + unfold suffixed. rewrite Hov; [reflexivity |].
        destruct Hk as [-> | ->]; simpl; intuition discriminate.
    - apply plain_suffix_x. destruct Hk as [-> | ->]; reflexivity.
    - destruct Hk as [-> | ->]; reflexivity. }
  split; [apply Hside; auto |]. split; [apply Hside; auto |].
  unfold get. rewrite lookup_app, lookup_rename_same.
  - reflexivity.
  - apply plain_suffix_x. reflexivity.
  - unfold suffixed. rewrite Hrisk. reflexivity.
Qed.

Section RiskLayerContent.

Variable sqrt : Q -> Q.
Variable check_location : Cell * Cell -> result unit.
Variable check_heat_data : list (list Cell) -> result unit.

(** X19: what the heat map shows.  When [add_risk_heatmap] returns and
    the monitoring table has no [risk_score] column of its own, the map
    holds the tile layer and one heat layer, whose points are, for each
    row of the risk table in turn, one point per monitoring row of that
    parcel -- each observation of each date -- at the coordinates of the
    monitoring row and weighted by the risk score of the risk row. *)
Theorem heat_map_has_a_point_per_observation (s s1 : MapState) :
  add_risk_heatmap sqrt check_location check_heat_data s = (s1, Ok tt) ->
  has_column "risk_score" (monitoring_data (self (data_manager s1))) = false ->
  exists d features risk m heat,
    prepare_features d = (data_manager s1, Ok features)
    /\ calculate_risk_metrics sqrt (self (data_manager s1)) features = Ok risk
    /\ self_map s1 = Some m
    /\ children m = [TileLayer "OpenStreetMap";
                     HeatMap heat "Carte de chaleur des risques" 10 15 12]
    /\ heat
       = flat_map
           (fun r =>
              map (fun o => [get "latitude" (snd o); get "longitude" (snd o);
                             get "risk_score" (snd r)])
                  (observations (monitoring_data (self (data_manager s1))) (fst r)))
           (rows risk).
Proof.
  intros H Hscore.
  destruct (add_risk_heatmap_inv _ _ _ _ _ H)
    as (base & heat & Hbase & Hheat & Hcheck & Hmap & Hfiles).
  destruct (risk_heat_data_inv _ _ _ _ Hheat)
    as (dr & features & risk & right & merged & Hreset & Hprep & Hrisk & Hright
        & Hmerged & Hpoints).
  destruct (create_base_map_outcome check_location s)
    as [(m0 & Hb & Hc0 & _) | (e & Hb)]; rewrite Hb in Hbase; [| discriminate].
  inversion Hbase; subst m0; clear Hbase.
  exists dr, features, risk. eexists. exists heat.
  split; [exact Hprep |]. split; [exact Hrisk |]. split; [exact Hmap |].
  split; [cbn [add_child children]; rewrite Hc0; reflexivity |].
  (* the points, from the joined rows *)
  assert (Hheat' : heat = map (fun row => [get "latitude" row; get "longitude" row;
                                           get "risk_score" row]) merged).
  { rewrite <- (map_id heat).
    apply (mapM_map heat_point (fun p => p)
             (fun row => [get "latitude" row; get "longitude" row; get "risk_score" row])
             merged heat); [| exact Hpoints].
    intros row p Hp. apply heat_point_reads. exact Hp. }
  destruct (risk_rows_shape _ _ _ _ Hrisk) as (Hname & Hcols & Hshape).
  (* the monitoring table, its date a column again *)
  pose proof (prepare_features_inv _ _ _ Hprep) as Hinv.
  destruct Hinv as (mon & w & y & text0 & c1 & mg & c2 & f0 & f1 & f2
                    & Hm & _ & _ & Hd1 & _).
  assert (Hmon : monitoring_data (self (data_manager s1)) = mon)
    by (rewrite Hd1; reflexivity).
  rewrite Hmon in *.
  destruct (set_index_inv _ _ _ Hm) as (_ & Hnodate & _ & Hiname & _).
  rewrite (reset_index_checked_named _ _ Hiname Hnodate) in Hright.
  inversion Hright; subst right; clear Hright.
  unfold merge_inner_rows in Hmerged.
  destruct (find _ ["parcelle_id"]) eqn:Hfind; [discriminate |].
  assert (Hkey : has_column "parcelle_id" (reset_index mon) = true).
  { cbn [find] in Hfind.
    destruct (negb (has_key "parcelle_id" (reset_index mon) && has_key "parcelle_id" risk))
      eqn:E; [discriminate |].
    apply negb_false_iff, andb_true_iff in E. destruct E as [E _].
    unfold has_key in E. cbn [reset_index index_name] in E.
    rewrite orb_false_r in E. exact E. }
  inversion Hmerged; subst merged; clear Hmerged.
  rewrite Hheat', map_flat_map. apply flat_map_ext_In. intros l Hl.
  destruct (Hshape l Hl) as (a & b & d & c & score & Hrow).
  rewrite map_map.
  assert (Hscore' : has_column "risk_score" (reset_index mon) = false).
  { unfold has_column, reset_index. rewrite Hiname. cbn [columns].
    unfold mem. cbn [existsb String.eqb Ascii.eqb Bool.eqb orb].
    exact Hscore. }
  rewrite (map_ext _ (fun r : Cell * Row =>
                        [get "latitude" (snd r); get "longitude" (snd r); score])).
  2:{ intros r.
      destruct (heat_cells risk (reset_index mon) l (snd r) a b d c score
                  Hcols Hscore' Hrow) as (E1 & E2 & E3).
      cbv zeta in E1, E2, E3.
      exact (f_equal2 (@cons Cell) E1
               (f_equal2 (@cons Cell) E2 (f_equal2 (@cons Cell) E3 eq_refl))). }
  unfold matches.
  rewrite (filter_ext (keys_match ["parcelle_id"] risk (reset_index mon) l)
                      (fun r : Cell * Row => key_eqb (fst l) (get "parcelle_id" (snd r)))).
  2:{ intros r. unfold keys_match, key_value. cbn [forallb]. rewrite Hkey.
      unfold has_column. rewrite Hcols.
      cbn [mem existsb String.eqb Ascii.eqb Bool.eqb orb]. apply andb_true_r. }
  rewrite (filter_on_snd (fun r => key_eqb (fst l) (get "parcelle_id" r))
                         (fun r => [get "latitude" r; get "longitude" r; score])).
  unfold reset_index at 1. rewrite Hiname. cbn [rows].
  rewrite with_range_index_rows, filter_of_map, map_map.
  rewrite Hrow. cbn [get lookup String.eqb Ascii.eqb Bool.eqb].
  unfold observations. reflexivity.
Qed.

End RiskLayerContent.

Lemma heat_map_has_a_point_per_observation_witness :
  exists s1 m heat,
    add_risk_heatmap no_sqrt any_location any_heat_data (new_map sample_state [])
    = (s1, Ok tt)
    /\ self_map s1 = Some m
    /\ children m = [TileLayer "OpenStreetMap";
                     HeatMap heat "Carte de chaleur des risques" 10 15 12]
    /\ List.length heat = 5%nat.
Proof.
  destruct (add_risk_heatmap no_sqrt any_location any_heat_data (new_map sample_state []))
    as [s1 [[] | e]] eqn:E; [| vm_compute in E; discriminate].
  destruct (heat_map_has_a_point_per_observation no_sqrt any_location any_heat_data
              (new_map sample_state []) s1 E)
    as (d & features & risk & m & heat & _ & _ & Hm & Hc & _).
  - vm_compute in E. inversion E. reflexivity.
  - exists s1, m, heat. split; [reflexivity |]. split; [exact Hm |]. split; [exact Hc |].
    vm_compute in E. inversion E; subst s1. cbn [self_map] in Hm. inversion Hm; subst m.
    cbn [children] in Hc. inversion Hc. reflexivity.
Defined.

(** * The callers *)

Section Callers.

Variable sqrt : Q -> Q.
Variable yield_colormap : Cell -> result string.
Variable str_of : Cell -> string.
Variable format_2f : Cell -> result string.
Variable check_location : Cell * Cell -> result unit.
Variable check_heat_data : list (list Cell) -> result unit.

Lemma create_base_map_twice (rest : St MapState unit) (s : MapState) :
  (create_base_map check_location ~;; create_base_map check_location ~;; rest) s
  = (create_base_map check_location ~;; rest) s.
Proof.
  unfold sbind at 1 3.
  destruct (create_base_map check_location s) as [s0 [[] | e]] eqn:E; [| reflexivity].
  destruct (create_base_map_outcome check_location s)
    as [(m & Hm & _) | (e & He)]; rewrite E in *; [| discriminate].
  inversion Hm; subst s0. clear Hm.
  destruct (create_base_map_forgets check_location s (Some m))
    as [(s1 & H1 & H2) | (e & H1 & _)]; rewrite E in H1; [| discriminate].
  inversion H1; subst s1. clear H1. unfold sbind.
  unfold with_self_map in H2. rewrite H2. reflexivity.
Qed.

Lemma marker_layer_keeps_manager (marker : Manager -> Row -> result Layer)
    (table : Manager -> list (Cell * Row)) (s : MapState) :
  data_manager
    (fst ((create_base_map check_location ~;;
           after_guard msg_no_map
             (fun st =>
                let m := self (fst st) in
                let (map', r) := add_markers (marker m) (table m) (snd st) in
                ((fst st, map'), r))) s))
  = data_manager s.
Proof.
  unfold sbind.
  destruct (create_base_map_outcome check_location s)
    as [(m & -> & _) | (e & ->)]; [| reflexivity].
  unfold after_guard. cbn [self_map data_manager fst snd].
  match goal with
  | |- context [add_markers ?a ?b ?c] => destruct (add_markers a b c) as [m' r]
  end.
  reflexivity.
Qed.

(** X20: the tabs of the integrated dashboard.  Each tab calls
    [create_base_map] and then an [add_*] method, which calls it again:
    the first call changes nothing, the tab leaves the object, the data
    manager and its result exactly as the method alone does.  The yield
    and NDVI tabs never change the data manager, whether they return or
    raise. *)
Theorem dashboard_tabs_build_the_map_twice (d : State)
    (written : list (string * FoliumMap)) :
  tab check_location
      (add_yield_history_layer yield_colormap str_of format_2f check_location) d written
  = add_yield_history_layer yield_colormap str_of format_2f check_location
      (new_map d written)
  /\ tab check_location (add_current_ndvi_layer str_of format_2f check_location) d written
     = add_current_ndvi_layer str_of format_2f check_location (new_map d written)
  /\ tab check_location (add_risk_heatmap sqrt check_location check_heat_data) d written
     = add_risk_heatmap sqrt check_location check_heat_data (new_map d written)
  /\ data_manager
       (fst (tab check_location
                 (add_yield_history_layer yield_colormap str_of format_2f check_location)
                 d written)) = d
  /\ data_manager
       (fst (tab check_location
                 (add_current_ndvi_layer str_of format_2f check_location) d written)) = d.
Proof.
  unfold tab, add_yield_history_layer, add_current_ndvi_layer, add_risk_heatmap.
  rewrite !create_base_map_twice.
  split; [reflexivity |]. split; [reflexivity |]. split; [reflexivity |].
  split.
  - apply (marker_layer_keeps_manager
             (yield_marker yield_colormap str_of format_2f check_location)
             (fun m => rows (soil_data m))).
  - apply (marker_layer_keeps_manager
             (fun _ => ndvi_marker str_of format_2f check_location)
             (fun m => rows (monitoring_data m))).
Qed.

(** X21: [save_map] writes the map the last [add_*] method left.  On a
    new object it raises "La carte n'a pas encore été initialisée ..."
    and writes nothing; once a method has returned, it adds one file that
    holds the map with all its layers, and changes neither the map nor
    the data manager. *)
Theorem save_map_writes_the_map_of_the_last_layer (s s' : MapState) (file_path : string) :
  add_yield_history_layer yield_colormap str_of format_2f check_location s = (s', Ok tt)
  \/ add_current_ndvi_layer str_of format_2f check_location s = (s', Ok tt)
  \/ add_risk_heatmap sqrt check_location check_heat_data s = (s', Ok tt) ->
  save_map file_path (new_map (data_manager s) (files s))
  = (new_map (data_manager s) (files s), Raise (ValueError msg_no_map))
  /\ exists m,
       self_map s' = Some m
       /\ hd_error (children m) = Some (TileLayer "OpenStreetMap")
       /\ save_map file_path s'
          = ({| data_manager := data_manager s';
                self_map := Some m;
                files := files s ++ [(file_path, m)] |}, Ok tt).
Proof.
  intros H. split; [reflexivity |].
  assert (Hmap : exists m, self_map s' = Some m
                           /\ hd_error (children m) = Some (TileLayer "OpenStreetMap")
                           /\ files s' = files s).
  { destruct H as [H | [H | H]].
    - unfold add_yield_history_layer in H.
      destruct (marker_layer_inv check_location
                  (yield_marker yield_colormap str_of format_2f check_location)
                  (fun m => rows (soil_data m)) s s' H)
        as (_ & Hf & m & layers & Hm & _ & _ & _ & Hc & _).
      exists m. rewrite Hc. auto.
    - unfold add_current_ndvi_layer in H.
      destruct (marker_layer_inv check_location
                  (fun _ => ndvi_marker str_of format_2f check_location)
                  (fun m => rows (monitoring_data m)) s s' H)
        as (_ & Hf & m & layers & Hm & _ & _ & _ & Hc & _).
      exists m. rewrite Hc. auto.
    - destruct (add_risk_heatmap_inv _ _ _ _ _ H)
        as (base & heat & Hbase & _ & _ & Hm & Hf).
      destruct (create_base_map_outcome check_location s)
        as [(m0 & Hb & Hc0 & _) | (e & Hb)]; rewrite Hb in Hbase; [| discriminate].
      inversion Hbase; subst m0; clear Hbase.
      eexists. split; [exact Hm |]. cbn [add_child children]. rewrite Hc0. auto. }
  destruct Hmap as (m & Hm & Hc & Hf). exists m.
  split; [exact Hm |]. split; [exact Hc |].
  unfold save_map. rewrite Hm, Hf. reflexivity.
Qed.

End Callers.

Section BokehProperties.

Variable Source : Type.
Variable ColumnDataSource : DataFrame -> result Source.
Variable with_stress_combine : DataFrame -> result DataFrame.

(** X22: [prepare_stress_data] cannot work on a dashboard that has been
    constructed.  The constructor calls [prepare_features], which leaves
    the tables indexed by date; [prepare_stress_data] calls it again, so
    it raises KeyError "None of ['date'] are in the columns" before it
    computes anything, and leaves the dashboard and the data manager as
    they were. *)
Theorem prepare_stress_data_raises_after_construction (d : State)
    (dashboard : Dashboard Source) :
  new_dashboard ColumnDataSource d = (dashboard, Ok tt) ->
  prepare_stress_data ColumnDataSource with_stress_combine dashboard
  = (dashboard, Raise (KeyError "None of ['date'] are in the columns"))
  /\ has_column "date" (monitoring_data (self (dashboard_manager dashboard))) = false
  /\ exists features text,
       prepare_features d
       = ({| self := self (dashboard_manager dashboard);
             stdout := stdout d ++ [text] |}, Ok features)
       /\ stdout (dashboard_manager dashboard)
          = stdout d ++ [text; "Sources de données préparées."].
Proof.
  unfold new_dashboard, create_data_sources. cbn [dashboard_manager source hist_source].
  destruct (prepare_features d) as [d1 [features | e]] eqn:Hprep;
    [| intros H; inversion H].
  destruct (reset_index_checked (yield_history (self d1))) as [yields | e];
    [| intros H; inversion H].
  destruct (ColumnDataSource features) as [src | e]; [| intros H; inversion H].
  destruct (ColumnDataSource yields) as [hist | e]; [| intros H; inversion H].
  intros H. inversion H; subst dashboard; clear H.
  cbn [dashboard_manager source hist_source self stdout].
  pose proof (prepare_features_inv _ _ _ Hprep) as Hinv.
  destruct Hinv as (mon & w & y & text & c1 & mg & c2 & f0 & f1 & f2
                    & Hm & _ & _ & Hd1 & _).
  destruct (set_index_inv _ _ _ Hm) as (_ & Hnodate & _).
  assert (Hmon : monitoring_data (self d1) = mon) by (rewrite Hd1; reflexivity).
  split; [| split].
  - unfold prepare_stress_data. cbn [dashboard_manager source hist_source].
    rewrite (prepare_features_stops_at_first_index _
               (KeyError "None of ['date'] are in the columns")); [reflexivity |].
    cbn [self]. rewrite Hmon. apply set_index_missing. exact Hnodate.
  - rewrite Hmon. exact Hnodate.
  - exists features, text. rewrite Hd1. cbn [self stdout].
    rewrite <- app_assoc. split; reflexivity.
Qed.

End BokehProperties.

Lemma dashboard_tabs_build_the_map_twice_witness :
  tab any_location
      (add_yield_history_layer any_colour any_text two_decimals any_location)
      sample_state []
  = add_yield_history_layer any_colour any_text two_decimals any_location
      (new_map sample_state []).
Proof.
  apply (dashboard_tabs_build_the_map_twice no_sqrt any_colour any_text two_decimals
           any_location any_heat_data sample_state []).
Defined.

Lemma save_map_writes_the_map_of_the_last_layer_witness :
  exists s' m,
    add_yield_history_layer any_colour any_text two_decimals any_location
      (new_map sample_state []) = (s', Ok tt)
    /\ save_map "map.html" s'
       = ({| data_manager := data_manager s'; self_map := Some m;
             files := [("map.html", m)] |}, Ok tt).
Proof.
  destruct (add_yield_history_layer any_colour any_text two_decimals any_location
              (new_map sample_state [])) as [s' [[] | e]] eqn:E;
    [| vm_compute in E; discriminate].
  destruct (save_map_writes_the_map_of_the_last_layer no_sqrt any_colour any_text
              two_decimals any_location any_heat_data (new_map sample_state []) s'
              "map.html" (or_introl E)) as (_ & m & _ & _ & H).
  exists s', m. split; [reflexivity | exact H].
Defined.

Lemma prepare_stress_data_raises_after_construction_witness :
  exists dashboard,
    new_dashboard table_source sample_state = (dashboard, Ok tt)
    /\ snd (prepare_stress_data table_source table_source dashboard)
       = Raise (KeyError "None of ['date'] are in the columns").
Proof.
  destruct (new_dashboard table_source sample_state) as [dashboard [[] | e]] eqn:E;
    [| vm_compute in E; discriminate].
  destruct (prepare_stress_data_raises_after_construction DataFrame table_source
              table_source sample_state dashboard E) as (H & _).
  exists dashboard. split; [reflexivity |]. rewrite H. reflexivity.
Defined.

(** ** The first two verdicts of the consistency report *)

Lemma within_one_day (a b : Z) :
  within_days tolerance_days (days_between (Some a) (Some b)) = true
  <-> - ns_per_day <= a - b < 2 * ns_per_day.
Proof.
  unfold within_days, days_between, tolerance_days. rewrite Z.leb_le.
  assert (Hd : 0 < ns_per_day) by (unfold ns_per_day, ns_per_second; lia).
  pose proof (Z.div_mod (a - b) ns_per_day ltac:(lia)) as Hdm.
  pose proof (Z.mod_pos_bound (a - b) ns_per_day Hd) as Hm.
  split; intros H; nia.
Qed.

Lemma verify_temporal_consistency_report (s s' : State) :
  _verify_temporal_consistency s = (s', Ok tt) ->
  exists m0 m1 wr yr dates,
    index_range (monitoring_data (self s)) = Ok (Some m0, Some m1)
    /\ index_range (weather_data (self s)) = Ok wr
    /\ index_range (yield_history (self s)) = Ok yr
    /\ s' = {| self := self s;
               stdout :=
                 stdout s
                   ++ [join_lines
                         (report_lines (Some m0, Some m1) wr yr
                            (within_days tolerance_days (days_between (Some m0) (fst wr))
                             && within_days tolerance_days
                                  (days_between (Some m1) (snd wr)))
                            (ts_geb (fst yr) (Some m0) && ts_leb (snd yr) (Some m1))
                            (negb (index_equals (index (monitoring_data (self s)))
                                                dates)))] |}.
Proof.
  unfold _verify_temporal_consistency, bind, read, lift, print.
  destruct (index_range (monitoring_data (self s))) as [mr | e];
    [| intros H; inversion H].
  destruct (index_range (weather_data (self s))) as [wr | e];
    [| intros H; inversion H].
  destruct (index_range (yield_history (self s))) as [yr | e];
    [| intros H; inversion H].
  destruct (date_range (fst mr) (snd mr)) as [dates | e] eqn:Hdates;
    [| intros H; inversion H].
  destruct mr as [[m0 |] [m1 |]]; try discriminate.
  intros H. inversion H. exists m0, m1, wr, yr, dates. repeat split.
Qed.

(** X23: the tolerance of the first verdict is not symmetric.  Whenever
    the check returns, line 7 of its report is "→ OK" exactly when the
    weather index has dates and, at the start and at the end of the two
    periods alike, the monitoring date is at most one day before the
    weather date and less than two days after it: [.days] rounds the
    difference down, so that a monitoring table that starts 47 hours
    after the weather passes, and one that starts 25 hours before it
    does not. *)
Theorem first_verdict_tolerance_is_one_sided (s s' : State) :
  _verify_temporal_consistency s = (s', Ok tt) ->
  exists mr wr yr c1 c2 c3 m0 m1,
    s' = {| self := self s;
            stdout := stdout s ++ [join_lines (report_lines mr wr yr c1 c2 c3)] |}
    /\ index_range (monitoring_data (self s)) = Ok (Some m0, Some m1)
    /\ index_range (weather_data (self s)) = Ok wr
    /\ nth 6 (report_lines mr wr yr c1 c2 c3) ""
       = (if c1 then "   → OK" else "   → Incohérence détectée")
    /\ (c1 = true <->
        exists w0 w1,
          wr = (Some w0, Some w1)
          /\ - ns_per_day <= m0 - w0 < 2 * ns_per_day
          /\ - ns_per_day <= m1 - w1 < 2 * ns_per_day).
Proof.
  intros H.
  destruct (verify_temporal_consistency_report _ _ H)
    as (m0 & m1 & wr & yr & dates & Hmr & Hwr & Hyr & ->).
  do 6 eexists. exists m0, m1.
  split; [reflexivity |]. split; [exact Hmr |]. split; [exact Hwr |].
  split; [reflexivity |].
  rewrite andb_true_iff. destruct wr as [[w0 |] [w1 |]]; cbn [fst snd].
  - rewrite !within_one_day. split.
    + intros [H0 H1]. exists w0, w1. auto.
    + intros (w0' & w1' & E & H0 & H1). inversion E; subst. auto.
  - split; [intros [_ E]; discriminate | intros (w0' & w1' & E & _); discriminate].
  - split; [intros [E _]; discriminate | intros (w0' & w1' & E & _); discriminate].
  - split; [intros [E _]; discriminate | intros (w0' & w1' & E & _); discriminate].
Qed.

Lemma first_verdict_tolerance_is_one_sided_witness :
  exists s' text,
    _verify_temporal_consistency
      (state_spanning (timestamp 2021 1 2 23 0 0, date 2021 12 31)
                      (date 2021 1 1, date 2021 12 31))
    = (s', Ok tt)
    /\ stdout s' = [text].
Proof.
  destruct (_verify_temporal_consistency
              (state_spanning (timestamp 2021 1 2 23 0 0, date 2021 12 31)
                              (date 2021 1 1, date 2021 12 31)))
    as [s' [[] | e]] eqn:E; [| vm_compute in E; discriminate].
  destruct (first_verdict_tolerance_is_one_sided _ s' E)
    as (mr & wr & yr & c1 & c2 & c3 & m0 & m1 & Hs & _).
  exists s'. eexists. split; [reflexivity |]. rewrite Hs. reflexivity.
Defined.

Lemma no_date_no_range (df : DataFrame) (r : option Z * option Z) :
  index_range df = Ok r -> has_date df = false -> r = (None, None).
Proof.
  unfold index_range, has_date. intros H Hnone.
  apply rbind_ok in H. destruct H as (labels & Hl & H). inversion H; subst r; clear H.
  assert (Hp : present labels = []).
  { revert labels Hl. induction (index df) as [| c t IH]; intros labels Hl.
    - inversion Hl. reflexivity.
    - simpl in Hnone. apply orb_false_iff in Hnone. destruct Hnone as [Hc Ht].
      apply mapM_cons_ok in Hl. destruct Hl as (l0 & ls & Hl0 & Hls & ->).
      destruct c; try discriminate. simpl in Hl0. inversion Hl0; subst l0.
      simpl. apply IH; assumption. }
  rewrite Hp. reflexivity.
Qed.

(** X24: the second verdict.  Whenever the check returns, line 10 of its
    report is "→ OK" exactly when the yield history has dates and they
    all lie between the first and the last monitoring date; a yield
    history without a single dated record gets "Incohérence détectée : La
    période des rendements dépasse celle du monitoring", the comparisons
    with NaT being false. *)
Theorem second_verdict_wants_yields_inside_monitoring (s s' : State) :
  _verify_temporal_consistency s = (s', Ok tt) ->
  exists mr wr yr c1 c2 c3 m0 m1,
    s' = {| self := self s;
            stdout := stdout s ++ [join_lines (report_lines mr wr yr c1 c2 c3)] |}
    /\ index_range (monitoring_data (self s)) = Ok (Some m0, Some m1)
    /\ index_range (yield_history (self s)) = Ok yr
    /\ nth 9 (report_lines mr wr yr c1 c2 c3) ""
       = (if c2 then "   → OK"
          else "   → Incohérence détectée : La période des rendements dépasse celle du monitoring")
    /\ (c2 = true <->
        exists y0 y1, yr = (Some y0, Some y1) /\ m0 <= y0 /\ y1 <= m1)
    /\ (has_date (yield_history (self s)) = false -> c2 = false).
Proof.
  intros H.
  destruct (verify_temporal_consistency_report _ _ H)
    as (m0 & m1 & wr & yr & dates & Hmr & Hwr & Hyr & ->).
  do 6 eexists. exists m0, m1.
  split; [reflexivity |]. split; [exact Hmr |]. split; [exact Hyr |].
  split; [reflexivity |]. split.
  - rewrite andb_true_iff. destruct yr as [[y0 |] [y1 |]]; cbn [fst snd ts_geb ts_leb].
    + rewrite !Z.leb_le. split.
      * intros [H0 H1]. exists y0, y1. auto.
      * intros (y0' & y1' & E & H0 & H1). inversion E; subst. auto.
    + split; [intros [_ E]; discriminate | intros (y0' & y1' & E & _); discriminate].
    + split; [intros [E _]; discriminate | intros (y0' & y1' & E & _); discriminate].
    + split; [intros [E _]; discriminate | intros (y0' & y1' & E & _); discriminate].
  - intros Hnone. rewrite (no_date_no_range _ _ Hyr Hnone). reflexivity.
Qed.

Lemma second_verdict_wants_yields_inside_monitoring_witness :
  exists s' text,
    _verify_temporal_consistency state_without_yields = (s', Ok tt)
    /\ has_date (yield_history (self state_without_yields)) = false
    /\ stdout s' = [text].
Proof.
  destruct (_verify_temporal_consistency state_without_yields)
    as [s' [[] | e]] eqn:E; [| vm_compute in E; discriminate].
  destruct (second_verdict_wants_yields_inside_monitoring _ s' E)
    as (mr & wr & yr & c1 & c2 & c3 & m0 & m1 & Hs & _).
  exists s'. eexists. split; [reflexivity |]. split; [reflexivity |].
  rewrite Hs. reflexivity.
Defined.
